(** * Expense tracker bot: webhook handler and spending reports

    A shallow embedding of [api/index.py]: the Telegram webhook handler
    [handle_telegram_webhook], the report generator [generate_report], the
    time-window resolver [get_query_time_range] and the helpers they call.

    Conventions of the embedding.
    - A Python [str] is a [string]; every [ascii] stands for one character
      (code points below 256), so [String.length] is Python's [len].
    - Values decoded from JSON are [json] terms; the operations the handler
      applies to them ([in], subscripting, [.get], [len], comparison, ...)
      are total functions into [exn + _] that raise where Python raises.
    - The value of [float(text)] is kept as the rational the text denotes.
      The arithmetic of the report is binary64 arithmetic with rounding to
      nearest even, as the Standard Library specifies it in [SpecFloat]; a
      number read from the store is the float nearest to it.
    - Network calls, the clock and the log are events of a trace; what the
      outside world answers is given by an environment of oracles. A
      delivery starts from the empty trace.

    The program comes first, then the vocabulary of the properties, then
    the properties, each claim's theorem under its number. *)

From Stdlib Require Import ZArith QArith Qabs List String Ascii Bool Lia.
From Stdlib Require Import Permutation DecimalString.
From Stdlib Require SpecFloat.
Import ListNotations.

Local Open Scope Z_scope.
Local Open Scope list_scope.

(** ** Limits *)

Definition MAX_FILE_SIZE_BYTES : Z := 5 * 1024 * 1024. (* 5 MB *)
Definition MAX_TEXT_CHARS : Z := 500.

(** ** Exceptions *)

(** The built-in exception classes raised by the modelled operations,
    [HTTPError] of [raise_for_status] with the status code it reports, and
    [External] for what the calls into the libraries raise (requests, the
    JSON decoder, the Appwrite and Gemini clients), with class name and
    message. All of them derive from [Exception]; exceptions that do not
    (a cancelled task, a keyboard interrupt) are outside the model. *)
Inductive exn : Type :=
| KeyError
| TypeError
| AttributeError
| IndexError
| ValueError
| ZeroDivisionError
| OverflowError
| HTTPError (status : Z)
| External (cls : string) (detail : string).

Definition result (A : Type) : Type := (exn + A)%type.

Definition ok {A : Type} (a : A) : result A := inr a.
Definition throw {A : Type} (e : exn) : result A := inl e.

(** ** Strings *)

Module PyStr.

Definition ord (c : ascii) : N := N_of_ascii c.

Definition in_range (lo hi : N) (c : ascii) : bool :=
  ((lo <=? ord c) && (ord c <=? hi))%N.

(** [str.lower] on one character: A-Z and the upper-case letters of the
    Latin-1 block (all of 0xC0-0xDE save the multiplication sign). *)
Definition lower_char (c : ascii) : ascii :=
  if in_range 65 90 c || (in_range 192 222 c && negb (ord c =? 215)%N)
  then ascii_of_N (ord c + 32) else c.

(** The upper-case of an ASCII letter; other characters are kept. *)
Definition upper_char (c : ascii) : ascii :=
  if in_range 97 122 c then ascii_of_N (ord c - 32) else c.

Fixpoint map (f : ascii -> ascii) (s : string) : string :=
  match s with
  | EmptyString => EmptyString
  | String c r => String (f c) (map f r)
  end.

Definition lower (s : string) : string := map lower_char s.

(** [s.capitalize()], for ASCII words. *)
Definition capitalize (s : string) : string :=
  match s with
  | EmptyString => EmptyString
  | String c r => String (upper_char c) (lower r)
  end.

(** [s.startswith(p)]. *)
Definition startswith (s p : string) : bool := String.prefix p s.

(** [s[1:]]. *)
Definition tail (s : string) : string :=
  match s with
  | EmptyString => EmptyString
  | String _ r => r
  end.

(** [needle in hay] for two strings. *)
Fixpoint contains (needle hay : string) : bool :=
  String.prefix needle hay ||
  match hay with
  | EmptyString => false
  | String _ r => contains needle r
  end.

Definition len (s : string) : Z := Z.of_nat (String.length s).

Fixpoint last_char (s : string) : option ascii :=
  match s with
  | EmptyString => None
  | String c EmptyString => Some c
  | String _ r => last_char r
  end.

End PyStr.

(** ** Floats *)

(** The value of [float(...)]: a finite number, an infinity or a NaN. *)
Inductive pyfloat : Type :=
| Finite (q : Q)
| Inf (negative : bool)
| NaN.

(** Conversion to binary64 rounds to nearest: magnitudes from
    [2^1024 - 2^970] on are beyond the largest finite float. *)
Definition float_overflow_threshold : Z := 2 ^ 1024 - 2 ^ 970.

Definition overflows (q : Q) : bool :=
  Qle_bool (inject_Z float_overflow_threshold) (Qabs q).

(** ** Binary64 *)

(** The floats of a report and their arithmetic: IEEE 754 binary64 with
    rounding to nearest, ties to even. A float is a zero, an infinity, a
    NaN or [(-1)^s * m * 2^e]. *)
Module Float64.

Definition prec : Z := 53.
Definition emax : Z := 1024.

Definition t : Type := SpecFloat.spec_float.

(** [0.0]. *)
Definition zero : t := SpecFloat.S754_zero false.

(** [x + y], [x * y] and [x / y] where the divisor is not zero. *)
Definition add : t -> t -> t := SpecFloat.SFadd prec emax.
Definition mul : t -> t -> t := SpecFloat.SFmul prec emax.
Definition div : t -> t -> t := SpecFloat.SFdiv prec emax.

(** The float nearest to an integer; an infinity when the integer is
    beyond the range. *)
Definition of_Z (n : Z) : t := SpecFloat.binary_normalize prec emax n 0 false.

(** The float nearest to a rational: the quotient of its numerator and
    denominator, rounded once (the division of [SpecFloat] takes mantissas
    of any size). *)
Definition of_Q (q : Q) : t :=
  let den := SpecFloat.S754_finite false (Qden q) 0 in
  match Qnum q with
  | Z0 => zero
  | Zpos n => div (SpecFloat.S754_finite false n 0) den
  | Zneg n => div (SpecFloat.S754_finite true n 0) den
  end.

Definition is_infinite (x : t) : bool :=
  match x with
  | SpecFloat.S754_infinity _ => true
  | _ => false
  end.

(** [x == 0.0], which holds of both zeros, and [x < y]. *)
Definition is_zero (x : t) : bool := SpecFloat.SFeqb x zero.
Definition ltb : t -> t -> bool := SpecFloat.SFltb.

End Float64.

(** ** JSON values *)

#[local] Set Warnings "-register-all".

Inductive json : Type :=
| JNull
| JBool (b : bool)
| JInt (n : Z)
| JFloat (q : Q)
| JStr (s : string)
| JArr (l : list json)
| JObj (kv : list (string * json)).

Module Py.

(** The dict denoted by an object: the first binding of a key counts. *)
Fixpoint lookup (k : string) (kv : list (string * json)) : option json :=
  match kv with
  | [] => None
  | (k', v) :: r => if String.eqb k' k then Some v else lookup k r
  end.

Fixpoint distinct_keys (kv : list (string * json)) : list string :=
  match kv with
  | [] => []
  | (k, _) :: r =>
      k :: filter (fun k' => negb (String.eqb k' k)) (distinct_keys r)
  end.

Definition is_str (k : string) (v : json) : bool :=
  match v with
  | JStr s => String.eqb s k
  | _ => false
  end.

(** ['k' in o]. *)
Definition contains (k : string) (o : json) : result bool :=
  match o with
  | JObj kv => ok (match lookup k kv with Some _ => true | None => false end)
  | JArr l => ok (existsb (is_str k) l)
  | JStr s => ok (PyStr.contains k s)
  | _ => throw TypeError
  end.

(** [o['k']]. *)
Definition getitem (o : json) (k : string) : result json :=
  match o with
  | JObj kv =>
      match lookup k kv with
      | Some v => ok v
      | None => throw KeyError
      end
  | _ => throw TypeError
  end.

(** [o[-1]]. *)
Definition getitem_last (o : json) : result json :=
  match o with
  | JArr l =>
      match rev l with
      | v :: _ => ok v
      | [] => throw IndexError
      end
  | JStr s =>
      match PyStr.last_char s with
      | Some c => ok (JStr (String c EmptyString))
      | None => throw IndexError
      end
  | JObj _ => throw KeyError
  | _ => throw TypeError
  end.

(** [o.get('k', default)]. *)
Definition get (o : json) (k : string) (default : json) : result json :=
  match o with
  | JObj kv =>
      match lookup k kv with
      | Some v => ok v
      | None => ok default
      end
  | _ => throw AttributeError
  end.

(** [o.startswith(p)]. *)
Definition startswith (o : json) (p : string) : result bool :=
  match o with
  | JStr s => ok (PyStr.startswith s p)
  | _ => throw AttributeError
  end.

(** [o.lower()]. *)
Definition lower (o : json) : result string :=
  match o with
  | JStr s => ok (PyStr.lower s)
  | _ => throw AttributeError
  end.

(** [len(o)]. *)
Definition len (o : json) : result Z :=
  match o with
  | JStr s => ok (PyStr.len s)
  | JArr l => ok (Z.of_nat (List.length l))
  | JObj kv => ok (Z.of_nat (List.length (distinct_keys kv)))
  | _ => throw TypeError
  end.

(** Truth value of [o], as in [if o:]. *)
Definition truthy (o : json) : bool :=
  match o with
  | JNull => false
  | JBool b => b
  | JInt n => negb (n =? 0)
  | JFloat q => negb (Qeq_bool q 0)
  | JStr s => negb (String.eqb s EmptyString)
  | JArr l => match l with [] => false | _ => true end
  | JObj kv => match kv with [] => false | _ => true end
  end.

(** The numeric value of an [int], [bool] or [float]. *)
Definition number (o : json) : option Q :=
  match o with
  | JBool b => Some (inject_Z (if b then 1 else 0))
  | JInt n => Some (inject_Z n)
  | JFloat q => Some q
  | _ => None
  end.

(** [o > n] for an [int] constant [n]. *)
Definition gt (o : json) (n : Z) : result bool :=
  match number o with
  | Some q => ok (negb (Qle_bool q (inject_Z n)))
  | None => throw TypeError
  end.

(** [o == 's'] for a [str] constant. *)
Definition eq_str (o : json) (s : string) : bool := is_str s o.

(** What [for x in o] iterates over. *)
Definition iter (o : json) : result (list json) :=
  match o with
  | JArr l => ok l
  | JStr s => ok (List.map (fun c => JStr (String c EmptyString)) (list_ascii_of_string s))
  | JObj kv => ok (List.map JStr (distinct_keys kv))
  | _ => throw TypeError
  end.

End Py.

(** ** [float(...)] *)

Module PyFloat.

Definition is_digit (c : ascii) : bool := PyStr.in_range 48 57 c.

Definition digit (c : ascii) : Z := Z.of_N (PyStr.ord c) - 48.

(** The white space [float] strips: tab to carriage return, the blank,
    and (in text that is not pure ASCII) NEL and the no-break space. *)
Definition is_space (c : ascii) : bool :=
  PyStr.in_range 9 13 c
  || (PyStr.ord c =? 32)%N || (PyStr.ord c =? 133)%N || (PyStr.ord c =? 160)%N.

Definition is_underscore (c : ascii) : bool := Ascii.eqb c "_".

(** An underscore is allowed only between two digits. *)
Fixpoint underscores_ok (prev : ascii) (s : list ascii) : bool :=
  match s with
  | [] => negb (is_underscore prev)
  | c :: r =>
      (if is_underscore c then is_digit prev
       else negb (is_underscore prev) || is_digit c)
      && underscores_ok c r
  end.

Definition remove_underscores (s : list ascii) : list ascii :=
  filter (fun c => negb (is_underscore c)) s.

Fixpoint lstrip (s : list ascii) : list ascii :=
  match s with
  | [] => []
  | c :: r => if is_space c then lstrip r else s
  end.

Definition strip (s : list ascii) : list ascii :=
  rev (lstrip (rev (lstrip s))).

Definition take_sign (s : list ascii) : bool * list ascii :=
  match s with
  | c :: r =>
      if Ascii.eqb c "-" then (true, r)
      else if Ascii.eqb c "+" then (false, r)
      else (false, s)
  | [] => (false, [])
  end.

Fixpoint span_digits (s : list ascii) : list ascii * list ascii :=
  match s with
  | [] => ([], [])
  | c :: r =>
      if is_digit c
      then let (ds, t) := span_digits r in (c :: ds, t)
      else ([], s)
  end.

Definition digits_value (ds : list ascii) : Z :=
  fold_left (fun a c => 10 * a + digit c) ds 0.

(** [m * 10^e]. *)
Definition scale (m e : Z) : Q :=
  if 0 <=? e then inject_Z (m * 10 ^ e) else Qmake m (Z.to_pos (10 ^ (- e))).

(** The exponent part, which must reach the end of the text. *)
Definition parse_exponent (s : list ascii) : option Z :=
  match s with
  | [] => Some 0
  | c :: r =>
      if Ascii.eqb c "e" || Ascii.eqb c "E" then
        let (neg, r1) := take_sign r in
        match span_digits r1 with
        | ([], _) => None
        | (ds, []) =>
            Some (if neg then - digits_value ds else digits_value ds)
        | (_, _ :: _) => None
        end
      else None
  end.

(** Digits, an optional point and digits, an optional exponent; at least
    one digit before or after the point. *)
Definition parse_decimal (s : list ascii) : option Q :=
  let (ip, r1) := span_digits s in
  let (fp, r2) :=
    match r1 with
    | c :: r => if Ascii.eqb c "." then span_digits r else ([], r1)
    | [] => ([], r1)
    end in
  match ip ++ fp with
  | [] => None
  | ds =>
      match parse_exponent r2 with
      | Some e => Some (scale (digits_value ds) (e - Z.of_nat (List.length fp)))
      | None => None
      end
  end.

(** [inf], [infinity] and [nan], in any letter case. *)
Definition parse_special (neg : bool) (s : list ascii) : option pyfloat :=
  let w := PyStr.lower (string_of_list_ascii s) in
  if String.eqb w "inf" || String.eqb w "infinity" then Some (Inf neg)
  else if String.eqb w "nan" then Some NaN
  else None.

Definition of_Q (q : Q) : pyfloat :=
  if overflows q then Inf (negb (Qle_bool 0 q)) else Finite q.

(** [float(s)] for a string: [None] stands for [ValueError]. *)
Definition of_string (s : string) : option pyfloat :=
  let cs := list_ascii_of_string s in
  if underscores_ok zero cs then
    let (neg, r) := take_sign (strip (remove_underscores cs)) in
    match parse_special neg r with
    | Some x => Some x
    | None =>
        match parse_decimal r with
        | Some q => Some (of_Q (if neg then Qopp q else q))
        | None => None
        end
    end
  else None.

(** [float(v)]. *)
Definition float (v : json) : result pyfloat :=
  match v with
  | JStr s =>
      match of_string s with
      | Some x => ok x
      | None => throw ValueError
      end
  | JInt n =>
      if overflows (inject_Z n) then throw OverflowError
      else ok (Finite (inject_Z n))
  | JBool b => ok (Finite (inject_Z (if b then 1 else 0)))
  | JFloat q => ok (Finite q)
  | _ => throw TypeError
  end.

End PyFloat.

(** ** Formatted text *)

(** An f-string is kept as its parts: the literal pieces and the values
    interpolated between them. In the literals of the program a character
    beyond code point 255 is its UTF-8 bytes; the program takes the length
    of the texts it receives only, never of those it composes. *)
Inductive frag : Type :=
| Lit (s : string)                  (* literal text *)
| Str (v : json)                    (* [{v}], that is [str(v)] *)
| Fixed (digits : nat) (x : pyfloat)  (* [{x:.2f}] with [digits] decimals *)
| Fixed64 (digits : nat) (x : Float64.t)  (* the same for a float of the report *)
| ExnName (e : exn)                 (* [{type(e).__name__}] *)
| ExnStr (e : exn).                 (* [{str(e)}] *)

Definition text : Type := list frag.

Definition nl : string := String "010" EmptyString.

Module Render.

Definition decimal (n : Z) : string := NilZero.string_of_int (Z.to_int n).

Definition exn_name (e : exn) : string :=
  match e with
  | KeyError => "KeyError"
  | TypeError => "TypeError"
  | AttributeError => "AttributeError"
  | IndexError => "IndexError"
  | ValueError => "ValueError"
  | ZeroDivisionError => "ZeroDivisionError"
  | OverflowError => "OverflowError"
  | HTTPError _ => "HTTPError"
  | External cls _ => cls
  end.

(** The characters of a part, where the embedding fixes them: literals,
    strings, integers, [None], booleans and class names. *)
Definition frag_string (f : frag) : option string :=
  match f with
  | Lit s => Some s
  | Str (JStr s) => Some s
  | Str (JInt n) => Some (decimal n)
  | Str JNull => Some "None"%string
  | Str (JBool b) => Some (if b then "True" else "False")%string
  | ExnName e => Some (exn_name e)
  | ExnStr (External _ detail) => Some detail
  | _ => None
  end.

Fixpoint render (t : text) : option string :=
  match t with
  | [] => Some EmptyString
  | f :: r =>
      match frag_string f, render r with
      | Some s, Some s' => Some (s ++ s')%string
      | _, _ => None
      end
  end.

End Render.

(** ** Dates and times *)

Module Datetime.

(** A date is its proleptic Gregorian ordinal: day 1 is 0001-01-01. *)
Record date : Type := { toordinal : Z }.

Definition MAXORDINAL : Z := 3652059.

Definition valid (d : date) : Prop := 1 <= toordinal d <= MAXORDINAL.

(** [d.weekday()]: Monday is 0. *)
Definition weekday (d : date) : Z := (toordinal d + 6) mod 7.

(** [d - timedelta(days=k)]. *)
Definition sub_days (d : date) (k : Z) : result date :=
  let n := toordinal d - k in
  if (1 <=? n) && (n <=? MAXORDINAL) then ok {| toordinal := n |}
  else throw OverflowError.

Definition DAYS_IN_MONTH : list Z :=
  [-1; 31; 28; 31; 30; 31; 30; 31; 31; 30; 31; 30; 31].

Definition DAYS_BEFORE_MONTH : list Z :=
  [-1; 0; 31; 59; 90; 120; 151; 181; 212; 243; 273; 304; 334].

Definition at_ (l : list Z) (i : Z) : Z := nth (Z.to_nat i) l 0.

Definition is_leap (year : Z) : bool :=
  (year mod 4 =? 0) && (negb (year mod 100 =? 0) || (year mod 400 =? 0)).

Definition days_before_year (year : Z) : Z :=
  let y := year - 1 in y * 365 + y / 4 - y / 100 + y / 400.

Definition days_before_month (year month : Z) : Z :=
  at_ DAYS_BEFORE_MONTH month
  + (if (2 <? month) && is_leap year then 1 else 0).

Definition ymd2ord (year month day : Z) : Z :=
  days_before_year year + days_before_month year month + day.

(** Year, month and day of an ordinal. *)
Definition ord2ymd (n0 : Z) : Z * Z * Z :=
  let n := n0 - 1 in
  let n400 := n / 146097 in
  let n := n mod 146097 in
  let year := n400 * 400 + 1 in
  let n100 := n / 36524 in
  let n := n mod 36524 in
  let n4 := n / 1461 in
  let n := n mod 1461 in
  let n1 := n / 365 in
  let n := n mod 365 in
  let year := year + n100 * 100 + n4 * 4 + n1 in
  if (n1 =? 4) || (n100 =? 4) then (year - 1, 12, 31)
  else
    let leapyear := (n1 =? 3) && (negb (n4 =? 24) || (n100 =? 3)) in
    let month := Z.shiftr (n + 50) 5 in
    let preceding :=
      at_ DAYS_BEFORE_MONTH month
      + (if (2 <? month) && leapyear then 1 else 0) in
    if n <? preceding then
      let month := month - 1 in
      let preceding :=
        preceding
        - (at_ DAYS_IN_MONTH month
           + (if (month =? 2) && leapyear then 1 else 0)) in
      (year, month, n - preceding + 1)
    else (year, month, n - preceding + 1).

(** [d.replace(day=1)]. *)
Definition replace_day_1 (d : date) : date :=
  let '(y, m, _) := ord2ymd (toordinal d) in
  {| toordinal := ymd2ord y m 1 |}.

Record time : Type :=
  { hour : Z; minute : Z; second : Z; microsecond : Z }.

(** [datetime.min.time()] and [datetime.max.time()]. *)
Definition time_min : time :=
  {| hour := 0; minute := 0; second := 0; microsecond := 0 |}.
Definition time_max : time :=
  {| hour := 23; minute := 59; second := 59; microsecond := 999999 |}.

Record datetime : Type := { date_of : date; time_of : time }.

(** [datetime.combine(d, t)]. *)
Definition combine (d : date) (t : time) : datetime :=
  {| date_of := d; time_of := t |}.

(** Microseconds since midnight of day 0: the order of naive datetimes. *)
Definition instant (dt : datetime) : Z :=
  let t := time_of dt in
  ((toordinal (date_of dt) * 24 + hour t) * 60 + minute t) * 60 * 1000000
  + second t * 1000000 + microsecond t.

(** [n] in decimal, padded with zeros to [width] digits. *)
Definition pad (width : nat) (n : Z) : string :=
  let s := Render.decimal n in
  (string_of_list_ascii (repeat "0"%char (width - String.length s)) ++ s)%string.

(** [dt.isoformat()] of a naive datetime. *)
Definition isoformat (dt : datetime) : string :=
  let '(y, m, d) := ord2ymd (toordinal (date_of dt)) in
  let t := time_of dt in
  (pad 4 y ++ "-" ++ pad 2 m ++ "-" ++ pad 2 d ++ "T"
   ++ pad 2 (hour t) ++ ":" ++ pad 2 (minute t) ++ ":" ++ pad 2 (second t)
   ++ (if (microsecond t =? 0)%Z then EmptyString
       else "." ++ pad 6 (microsecond t)))%string.

End Datetime.

(** ** The outside world *)

(** The dict a handler returns to the web framework. *)
Definition response : Type := list (string * text).

Definition status_ok : response := [("status"%string, [Lit "ok"])].

(** An element of the prompt: a bare value appended to [gemini_parts], or
    [types.Part.from_bytes(data=..., mime_type=...)]. *)
Inductive part : Type :=
| Raw (v : json)
| FromBytes (data : list Byte.byte) (mime_type : string).

(** [expense_data], the document handed to [create_document]. *)
Record expense_data : Type :=
  { telegram_user_id : json;
    category : json;
    description : json;
    amount : pyfloat;
    created_at : string }.

Inductive query : Type :=
| Equal (attribute : string) (value : json)
| GreaterThanEqual (attribute : string) (value : string)
| LessThanEqual (attribute : string) (value : string)
| Limit (n : Z).

(** The [data] of [requests.post] in [send_telegram_message]. *)
Record payload : Type :=
  { chat_id_ : json; text_ : text; parse_mode : string }.

(** What [requests.get] returns: the status code, what [.json()] gives
    and the [.content] bytes. *)
Record http_response : Type :=
  { status_code : Z; json_ : result json; content : list Byte.byte }.

(** One interaction with the outside world, with its answer. *)
Inductive event : Type :=
| Now (dt : Datetime.datetime)
| Post (url : text) (data : payload) (raised : option exn)
| Get (url : text) (answer : result http_response)
| GenerateContent (contents : list part) (answer : result json)
| CreateDocument (database_id collection_id : json) (document_id : string)
    (data : expense_data) (permissions : list text) (raised : option exn)
| ListDocuments (database_id collection_id : json) (queries : list query)
    (answer : result json)
| LogError (msg : text).

Definition trace : Type := list event.

(** The configuration read from the process environment (a [str], or [None]
    when unset) and the answers of the outside world, each a function of
    what has happened so far and of the arguments of the call. *)
Record Env : Type :=
  { TELEGRAM_BOT_TOKEN : json;
    APPWRITE_DATABASE_ID : json;
    APPWRITE_COLLECTION_ID : json;
    clock : trace -> Datetime.datetime;
    requests_post : trace -> text -> payload -> option exn;
    requests_get : trace -> text -> result http_response;
    generate_content : trace -> list part -> result json;
    id_unique : trace -> string;
    create_document :
      trace -> string -> expense_data -> list text -> option exn;
    list_documents : trace -> list query -> result json }.

(** ** Computations *)

(** A statement ends normally, by [return], or by raising. *)
Inductive outcome (A : Type) : Type :=
| Normal (a : A)
| Returned (v : response)
| Raised (e : exn).

Arguments Normal {A} a.
Arguments Returned {A} v.
Arguments Raised {A} e.

Definition M (A : Type) : Type := trace -> outcome A * trace.

Definition ret {A : Type} (a : A) : M A := fun tr => (Normal a, tr).

Definition bind {A B : Type} (m : M A) (k : A -> M B) : M B :=
  fun tr =>
    match m tr with
    | (Normal a, tr') => k a tr'
    | (Returned v, tr') => (Returned v, tr')
    | (Raised e, tr') => (Raised e, tr')
    end.

(** [raise e] and [return v]. *)
Definition raise {A : Type} (e : exn) : M A := fun tr => (Raised e, tr).
Definition return_ {A : Type} (v : response) : M A := fun tr => (Returned v, tr).

Definition lift {A : Type} (r : result A) : M A :=
  match r with
  | inr a => ret a
  | inl e => raise e
  end.

(** [try: body / except Exception as e: handler e]. *)
Definition try_ {A : Type} (body : M A) (handler : exn -> M A) : M A :=
  fun tr =>
    match body tr with
    | (Raised e, tr') => handler e tr'
    | other => other
    end.

(** A function whose body leaves by [return] on every path. *)
Definition def_ (body : M Empty_set) : M response :=
  fun tr =>
    match body tr with
    | (Normal a, _) => match a with end
    | (Returned v, tr') => (Normal v, tr')
    | (Raised e, tr') => (Raised e, tr')
    end.

Definition emit (ev : event) : M unit := fun tr => (Normal tt, tr ++ [ev]).

Declare Scope py_scope.
Delimit Scope py_scope with py.
Notation "x <- m ;; k" := (bind m (fun x => k))
  (at level 61, m at next level, right associativity) : py_scope.
Notation "' p <- m ;; k" := (bind m (fun x => match x with p => k end))
  (at level 61, p pattern, m at next level, right associativity) : py_scope.
Notation "m ;; k" := (bind m (fun _ => k))
  (at level 61, right associativity) : py_scope.

(** The same sequencing for operations that only compute. *)
Definition and_then {A B : Type} (r : result A) (k : A -> result B) : result B :=
  match r with
  | inr a => k a
  | inl e => inl e
  end.

Declare Scope result_scope.
Delimit Scope result_scope with result.
Notation "x <- r ;; k" := (and_then r (fun x => k))
  (at level 61, r at next level, right associativity) : result_scope.

(** ** The report aggregator *)

Module Report.

(** The float a number of the store contributes to a float sum: an [int]
    is converted, which fails when it is beyond the range of the floats. *)
Definition operand (v : json) : result Float64.t :=
  match v with
  | JInt n =>
      if Float64.is_infinite (Float64.of_Z n) then throw OverflowError
      else ok (Float64.of_Z n)
  | JBool b => ok (Float64.of_Z (if b then 1 else 0))
  | JFloat q => ok (Float64.of_Q q)
  | _ => throw TypeError
  end.

(** [category_totals]: the keys in the order of their first insertion. *)
Definition totals : Type := list (json * Float64.t).

Definition hashable (k : json) : bool :=
  match k with
  | JArr _ | JObj _ => false
  | _ => true
  end.

(** Equality of two hashable keys: numbers by value, a [bool] being 0 or 1. *)
Definition key_eqb (a b : json) : bool :=
  match a, b with
  | JNull, JNull => true
  | JStr s, JStr t => String.eqb s t
  | _, _ =>
      match Py.number a, Py.number b with
      | Some x, Some y => Qeq_bool x y
      | _, _ => false
      end
  end.

(** [d.get(k, 0.0)] and [d[k] = v]. *)
Fixpoint get (d : totals) (k : json) : Float64.t :=
  match d with
  | [] => Float64.zero
  | (k', v) :: r => if key_eqb k' k then v else get r k
  end.

Fixpoint set (d : totals) (k : json) (v : Float64.t) : totals :=
  match d with
  | [] => [(k, v)]
  | (k', v') :: r =>
      if key_eqb k' k then (k', v) :: r else (k', v') :: set r k v
  end.

Local Open Scope result_scope.

(** One turn of the loop [for exp in expenses]. *)
Definition add_expense (acc : Float64.t * totals) (exp : json)
  : result (Float64.t * totals) :=
  let (total_spent, category_totals) := acc in
  amount <- Py.getitem exp "amount" ;;
  category <- Py.getitem exp "category" ;;
  a <- operand amount ;;
  if hashable category then
    ok (Float64.add total_spent a,
        set category_totals category
          (Float64.add (get category_totals category) a))
  else throw TypeError.

Fixpoint accumulate (acc : Float64.t * totals) (expenses : list json)
  : result (Float64.t * totals) :=
  match expenses with
  | [] => ok acc
  | exp :: rest => acc' <- add_expense acc exp ;; accumulate acc' rest
  end.

(** [sorted(items, key=lambda item: item[1], reverse=True)]: an item comes
    after the items it is less than and after those before it that it is
    not greater than, so items of equal total keep their order. This is
    what Python's stable sort gives when no total is a NaN. *)
Fixpoint insert_desc (x : json * Float64.t) (l : list (json * Float64.t))
  : list (json * Float64.t) :=
  match l with
  | [] => [x]
  | y :: r =>
      if Float64.ltb (snd x) (snd y) then y :: insert_desc x r else x :: l
  end.

Definition sorted_desc (items : totals) : list (json * Float64.t) :=
  fold_right insert_desc [] items.

(** [(total / total_spent) * 100]: the division of floats raises when the
    divisor is a zero. *)
Definition percentage (total total_spent : Float64.t) : result Float64.t :=
  if Float64.is_zero total_spent then throw ZeroDivisionError
  else ok (Float64.mul (Float64.div total total_spent) (Float64.of_Z 100)).

(** The lines of the breakdown: category, subtotal and percentage. *)
Fixpoint breakdown (total_spent : Float64.t) (items : list (json * Float64.t))
  : result (list (json * Float64.t * Float64.t)) :=
  match items with
  | [] => ok []
  | (category, total) :: rest =>
      p <- percentage total total_spent ;;
      lines <- breakdown total_spent rest ;;
      ok ((category, total, p) :: lines)
  end.

End Report.

(** ** The texts sent to the user *)

Module Messages.

Definition welcome_message : text :=
  [Lit "üëã *Welcome to your AI Expense Tracker!* üìä";
   Lit nl;
   Lit nl;
   Lit "I help you track your spending effortlessly.";
   Lit nl;
   Lit nl;
   Lit "**1. Record an Expense:**";
   Lit nl;
   Lit "   - üì∏ **Upload** any photo of a bill or receipt.";
   Lit nl;
   Lit "   - üí¨ **Type** in natural language (e.g., `220 pizza`, `paid 1500 for flight ticket`).";
   Lit nl;
   Lit nl;
   Lit "**2. Get Reports (Use the menu or type):**";
   Lit nl;
   Lit "   - /daily: See today's spending.";
   Lit nl;
   Lit "   - /week: See this week's spending.";
   Lit nl;
   Lit "   - /month: See this month's spending.";
   Lit nl;
   Lit nl].

Definition file_too_large (size_mb limit_mb : Q) : text :=
  [Lit "‚ùå *File Too Large!* The uploaded file size (";
   Fixed 2 (Finite size_mb);
   Lit " MB) exceeds the limit of ";
   Fixed 0 (Finite limit_mb);
   Lit " MB. Please send a smaller file."].

Definition text_too_long (length limit : Z) : text :=
  [Lit "‚ùå *Text Too Long!* Your input has ";
   Str (JInt length);
   Lit " characters, exceeding the limit of ";
   Str (JInt limit);
   Lit ". Please summarize your expense details."].

Definition caption_too_long (length limit : Z) : text :=
  [Lit "‚ùå *Caption Too Long!* Your caption has ";
   Str (JInt length);
   Lit " characters, exceeding the limit of ";
   Str (JInt limit);
   Lit ". Please shorten your description."].

Definition input_error : text :=
  [Lit "*Input Error*: Please send a bill image or write your expense (e.g., '150 food pizza')."].

Definition default_prompt : string :=
  "Extract expense details from this bill/receipt image.".

Definition download_error (e : exn) : text :=
  [Lit "‚ö†Ô∏è *File Download Error*: Could not retrieve file from Telegram. Check Vercel logs. Details: ";
   ExnStr e].

Definition extraction_failed (details : json) : text :=
  [Lit "*Extraction Failed!* üò≠ ";
   Lit nl;
   Lit "_Details_: ";
   Str details].

Definition expense_saved (data : expense_data) : text :=
  [Lit "‚úÖ *Expense Saved!* ";
   Lit nl;
   Lit nl;
   Lit "*Category*: `";
   Str (category data);
   Lit "`";
   Lit nl;
   Lit "*Amount*: ‚Çπ`";
   Fixed 2 (amount data);
   Lit "`";
   Lit nl;
   Lit "*Description*: `";
   Str (description data);
   Lit "`";
   Lit nl;
   Lit nl].

Definition no_expenses (time_period : string) : text :=
  [Lit "üòî No expenses found for the *";
   Str (JStr time_period);
   Lit "* period."].

Definition report_header (time_period : string) (total_spent : Float64.t) : text :=
  [Lit "üìä *";
   Str (JStr time_period);
   Lit " Expense Report* üìä";
   Lit nl;
   Lit "Total Expenses: ‚Çπ`";
   Fixed64 2 total_spent;
   Lit "`";
   Lit nl;
   Lit nl;
   Lit "*Category Breakdown:*";
   Lit nl].

Definition report_line (line : json * Float64.t * Float64.t) : text :=
  let '(category, total, percentage) := line in
  [Lit " ‚Ä¢ ";
   Str category;
   Lit ": ‚Çπ`";
   Fixed64 2 total;
   Lit "` (`";
   Fixed64 1 percentage;
   Lit "`%)";
   Lit nl].

Definition report_error (e : exn) : text :=
  [Lit "‚ö†Ô∏è *Report Error*: Failed to fetch data from Appwrite. Details: ";
   ExnStr e].

Definition unexpected_error (e : exn) : text :=
  [Lit "An unexpected error occurred: ";
   ExnName e;
   Lit ": ";
   ExnStr e].

End Messages.

(** ** The program *)

Section Program.

Variable env : Env.

Local Open Scope py_scope.

Definition TELEGRAM_FILE_URL : text :=
  [Lit "https://api.telegram.org/file/bot"; Str (TELEGRAM_BOT_TOKEN env)].

Definition TELEGRAM_API_URL : text :=
  [Lit "https://api.telegram.org/bot"; Str (TELEGRAM_BOT_TOKEN env)].

(** [datetime.now()]. *)
Definition datetime_now : M Datetime.datetime :=
  fun tr => let dt := clock env tr in (Normal dt, tr ++ [Now dt]).

(** [logging.error(msg)]. *)
Definition logging_error (msg : text) : M unit := emit (LogError msg).

(** [requests.get(url)]. *)
Definition http_get (url : text) : M http_response :=
  fun tr =>
    let answer := requests_get env tr url in
    (match answer with inr r => Normal r | inl e => Raised e end,
     tr ++ [Get url answer]).

(** [response.raise_for_status()]. *)
Definition raise_for_status (r : http_response) : M unit :=
  if (400 <=? status_code r) && (status_code r <? 600)
  then raise (HTTPError (status_code r)) else ret tt.

Definition send_telegram_message (chat_id : json) (body : text) : M unit :=
  let data := {| chat_id_ := chat_id; text_ := body; parse_mode := "Markdown" |} in
  let url := TELEGRAM_API_URL ++ [Lit "/sendMessage"] in
  fun tr =>
    let raised := requests_post env tr url data in
    (match raised with None => Normal tt | Some e => Raised e end,
     tr ++ [Post url data raised]).

Definition download_telegram_file (file_id : json) : M (list Byte.byte) :=
  (* 1. Get file_path from Telegram *)
  let file_info_url := TELEGRAM_API_URL ++ [Lit "/getFile?file_id="; Str file_id] in
  info <- http_get file_info_url ;;
  response <- lift (json_ info) ;;
  result_ <- lift (Py.getitem response "result") ;;
  file_path <- lift (Py.getitem result_ "file_path") ;;
  (* 2. Download file bytes *)
  let download_url := TELEGRAM_FILE_URL ++ [Lit "/"; Str file_path] in
  file_response <- http_get download_url ;;
  raise_for_status file_response ;;
  ret (content file_response).

(** [genai_client.models.generate_content(...)] followed by
    [json.loads(response.text)]; the answer of the service is the decoded
    object, or the exception of the call or of the decoder. *)
Definition extract_expense_details (parts : list part) : M json :=
  fun tr =>
    let answer := generate_content env tr parts in
    (match answer with inr d => Normal d | inl e => Raised e end,
     tr ++ [GenerateContent parts answer]).

Definition appwrite_create_document
  (document_id : string) (data : expense_data) (permissions : list text) : M unit :=
  fun tr =>
    let raised := create_document env tr document_id data permissions in
    (match raised with None => Normal tt | Some e => Raised e end,
     tr ++ [CreateDocument (APPWRITE_DATABASE_ID env) (APPWRITE_COLLECTION_ID env)
              document_id data permissions raised]).

(** [ID.unique()] of the Appwrite client: depending on the version of the
    client, the placeholder the server replaces by an identifier of its
    own, or an identifier the client makes up from the clock and random
    digits. It is what the environment gives at this point of the run. *)
Definition appwrite_id_unique : M string :=
  fun tr => (Normal (id_unique env tr), tr).

Definition appwrite_list_documents (queries : list query) : M json :=
  fun tr =>
    let answer := list_documents env tr queries in
    (match answer with inr d => Normal d | inl e => Raised e end,
     tr ++ [ListDocuments (APPWRITE_DATABASE_ID env) (APPWRITE_COLLECTION_ID env)
              queries answer]).

(** *** The time-window resolver *)

Definition daily_window (today : Datetime.date)
  : Datetime.datetime * Datetime.datetime :=
  (Datetime.combine today Datetime.time_min,
   Datetime.combine today Datetime.time_max).

Definition week_window (today : Datetime.date)
  : result (Datetime.datetime * Datetime.datetime) :=
  (monday <- Datetime.sub_days today (Datetime.weekday today) ;;
   ok (Datetime.combine monday Datetime.time_min,
       Datetime.combine today Datetime.time_max))%result.

Definition month_window (today : Datetime.date)
  : Datetime.datetime * Datetime.datetime :=
  (Datetime.combine (Datetime.replace_day_1 today) Datetime.time_min,
   Datetime.combine today Datetime.time_max).

(** [start_date.isoformat() + 'Z', end_date.isoformat() + 'Z']. *)
Definition iso_range (w : Datetime.datetime * Datetime.datetime)
  : string * string :=
  ((Datetime.isoformat (fst w) ++ "Z")%string,
   (Datetime.isoformat (snd w) ++ "Z")%string).

(** The call [get_query_time_range('/daily')]. *)
Definition get_query_time_range_daily : M (string * string) :=
  now <- datetime_now ;;
  ret (iso_range (daily_window (Datetime.date_of now))).

(** For a command other than the three it knows the function calls itself
    with ['/daily'], binds the two strings that call returns to
    [start_date] and [end_date], and then asks a string for [isoformat]. *)
Definition get_query_time_range (command : string) : M (string * string) :=
  now <- datetime_now ;;
  let today := Datetime.date_of now in
  w <- (if String.eqb command "/daily" then ret (daily_window today)
        else if String.eqb command "/week" then lift (week_window today)
        else if String.eqb command "/month" then ret (month_window today)
        else (_ <- get_query_time_range_daily ;; raise AttributeError)) ;;
  ret (iso_range w).

(** *** The report *)

Definition report_text (time_period : string) (total_spent : Float64.t)
  (lines : list (json * Float64.t * Float64.t)) : text :=
  Messages.report_header time_period total_spent
  ++ List.concat (List.map Messages.report_line lines).

Definition generate_report (chat_id user_id : json) (command : string)
  : M response :=
  def_ (
    '(start_time, end_time) <- get_query_time_range command ;;
    let time_period := PyStr.capitalize (PyStr.tail command) in
    let queries :=
      [Equal "telegram_user_id" user_id;
       GreaterThanEqual "created_at" start_time;
       LessThanEqual "created_at" end_time;
       Limit 20] in
    try_
      (results <- appwrite_list_documents queries ;;
       expenses <- lift (Py.getitem results "documents") ;;
       (if negb (Py.truthy expenses) then
          send_telegram_message chat_id (Messages.no_expenses time_period) ;;
          return_ status_ok
        else ret tt) ;;
       (* Calculate totals and category distribution *)
       records <- lift (Py.iter expenses) ;;
       '(total_spent, category_totals) <-
         lift (Report.accumulate (Float64.zero, []) records) ;;
       (* Format report message *)
       lines <- lift (Report.breakdown total_spent
                        (Report.sorted_desc category_totals)) ;;
       send_telegram_message chat_id (report_text time_period total_spent lines))
      (fun e => send_telegram_message chat_id (Messages.report_error e)) ;;
    return_ status_ok).

(** *** The webhook handler *)

(** [size / 1024 / 1024], the size in MB shown to the user. *)
Definition size_in_mb (size : json) : result Q :=
  match Py.number size with
  | None => throw TypeError
  | Some q =>
      let is_float := match size with JFloat _ => true | _ => false end in
      if negb is_float && overflows (q / 1024) then throw OverflowError
      else ok (q / 1024 / 1024)%Q
  end.

(** The statements shared by the photo and the document branch: the size
    check, then the file handle and the caption. *)
Definition attachment (chat_id message file_data : json)
  : M (list part * json * json) :=
  size <- lift (Py.get file_data "file_size" (JInt 0)) ;;
  too_large <- lift (Py.gt size MAX_FILE_SIZE_BYTES) ;;
  (if too_large then
     shown <- lift (size_in_mb size) ;;
     send_telegram_message chat_id
       (Messages.file_too_large shown
          (inject_Z MAX_FILE_SIZE_BYTES / 1024 / 1024)%Q) ;;
     return_ status_ok
   else ret tt) ;;
  file_id <- lift (Py.getitem file_data "file_id") ;;
  caption_text <- lift (Py.get message "caption" JNull) ;;
  ret ([], file_id, caption_text).

(** B. HANDLE EXPENSE INPUT (Photo, Document, or Text): the values of
    [gemini_parts], [file_id] and [caption_text] after the branches. *)
Definition expense_input (chat_id message : json)
  : M (list part * json * json) :=
  has_photo <- lift (Py.contains "photo" message) ;;
  if has_photo then
    photos <- lift (Py.getitem message "photo") ;;
    (* Get the highest resolution photo (last item in array) *)
    photo_data <- lift (Py.getitem_last photos) ;;
    attachment chat_id message photo_data
  else
    has_document <- lift (Py.contains "document" message) ;;
    if has_document then
      doc_data <- lift (Py.getitem message "document") ;;
      attachment chat_id message doc_data
    else
      has_text <- lift (Py.contains "text" message) ;;
      if has_text then
        text_input <- lift (Py.getitem message "text") ;;
        n <- lift (Py.len text_input) ;;
        if MAX_TEXT_CHARS <? n then
          send_telegram_message chat_id
            (Messages.text_too_long n MAX_TEXT_CHARS) ;;
          return_ status_ok
        else
          (* Natural language input (proceed if size is fine) *)
          ret ([Raw text_input], JNull, JNull)
      else
        send_telegram_message chat_id Messages.input_error ;;
        return_ status_ok.

(** If a file was found (photo or document), prepare the Gemini parts. *)
Definition prepare_parts (chat_id : json) (gemini_parts : list part)
  (file_id caption_text : json) : M (list part) :=
  if Py.truthy file_id then
    try_
      (image_bytes <- download_telegram_file file_id ;;
       let gemini_parts := gemini_parts ++ [FromBytes image_bytes "image/jpeg"] in
       (* Use caption or default text *)
       if Py.truthy caption_text then
         n <- lift (Py.len caption_text) ;;
         (if MAX_TEXT_CHARS <? n then
            send_telegram_message chat_id
              (Messages.caption_too_long n MAX_TEXT_CHARS) ;;
            return_ status_ok
          else ret tt) ;;
         ret (gemini_parts ++ [Raw caption_text])
       else
         ret (gemini_parts ++ [Raw (JStr Messages.default_prompt)]))
      (fun e =>
         send_telegram_message chat_id (Messages.download_error e) ;;
         return_ status_ok)
  else ret gemini_parts.

Definition dq : string := String "034" EmptyString.

(** ['read("user:' + str(user_id) + '")'] and the same for [write]. *)
Definition permission (action : string) (user_id : json) : text :=
  [Lit action; Lit "("; Lit dq; Lit "user:"; Str user_id; Lit dq; Lit ")"].

(** Extraction, the check for the error sentinel, the document and the
    confirmation. *)
Definition record_expense (chat_id user_id : json) (current_time : string)
  (gemini_parts : list part) : M unit :=
  (* 1. Extract JSON using Gemini *)
  extracted_data <- extract_expense_details gemini_parts ;;
  reported <- lift (Py.get extracted_data "Category" JNull) ;;
  (if Py.eq_str reported "ERROR" then
     details <- lift (Py.get extracted_data "Description" (JStr "N/A")) ;;
     send_telegram_message chat_id (Messages.extraction_failed details) ;;
     return_ status_ok
   else ret tt) ;;
  (* 2. Clean and Save to Appwrite *)
  category_ <- lift (Py.getitem extracted_data "Category") ;;
  description_ <- lift (Py.getitem extracted_data "Description") ;;
  amount_text <- lift (Py.getitem extracted_data "Amount") ;;
  amount_ <- lift (PyFloat.float amount_text) ;;
  let expense_data :=
    {| telegram_user_id := user_id;
       category := category_;
       description := description_;
       amount := amount_;
       created_at := current_time |} in
  document_id <- appwrite_id_unique ;;
  appwrite_create_document document_id expense_data
    [permission "read" user_id; permission "write" user_id] ;;
  (* 3. Send Confirmation *)
  send_telegram_message chat_id (Messages.expense_saved expense_data).

(** The [try] block up to the extraction call: the update is taken apart,
    commands are served, and the expense input (photo, document or text)
    is turned into the prompt. What the rest of the block uses are
    [chat_id], [user_id], [current_time] and [gemini_parts]. *)
Definition classify_update (request_json : result json)
  : M (json * json * string * list part) :=
  update <- lift request_json ;;
  (* We only care about messages *)
  has_message <- lift (Py.contains "message" update) ;;
  (if negb has_message then return_ status_ok else ret tt) ;;
  message <- lift (Py.getitem update "message") ;;
  chat <- lift (Py.getitem message "chat") ;;
  chat_id <- lift (Py.getitem chat "id") ;;
  from <- lift (Py.getitem message "from") ;;
  user_id <- lift (Py.getitem from "id") ;;
  now <- datetime_now ;;
  let current_time := (Datetime.isoformat now ++ "Z")%string in
  (* A. HANDLE COMMANDS (/daily, /week, /month) *)
  has_text <- lift (Py.contains "text" message) ;;
  is_command <-
    (if has_text then
       body <- lift (Py.getitem message "text") ;;
       lift (Py.startswith body "/")
     else ret false) ;;
  (if is_command then
     body <- lift (Py.getitem message "text") ;;
     command <- lift (Py.lower body) ;;
     if String.eqb command "/start" then
       send_telegram_message chat_id Messages.welcome_message ;;
       return_ status_ok
     else if existsb (String.eqb command) ["/daily"; "/week"; "/month"]%string then
       answer <- generate_report chat_id user_id command ;;
       return_ answer
     else ret tt
   else ret tt) ;;
  (* B. HANDLE EXPENSE INPUT (Photo, Document, or Text) *)
  '(gemini_parts, file_id, caption_text) <- expense_input chat_id message ;;
  gemini_parts <- prepare_parts chat_id gemini_parts file_id caption_text ;;
  ret (chat_id, user_id, current_time, gemini_parts).

(** The body of the [try] statement. *)
Definition webhook_try_block (request_json : result json) : M unit :=
  '(chat_id, user_id, current_time, gemini_parts) <- classify_update request_json ;;
  record_expense chat_id user_id current_time gemini_parts.

(** Main entry point for the Telegram Webhook; [request_json] is what
    [await request.json()] evaluates to. *)
Definition handle_telegram_webhook (request_json : result json) : M response :=
  def_ (
    try_ (webhook_try_block request_json)
      (fun e =>
         let error_msg := Messages.unexpected_error e in
         logging_error error_msg ;;
         (* Always return 'ok' to Telegram to prevent it from retrying the webhook *)
         return_ [("status"%string, [Lit "error"]); ("message"%string, error_msg)]) ;;
    return_ status_ok).

End Program.

(** Simple GET endpoint for the health check of the platform. *)
Definition health_check : response :=
  [("status"%string, [Lit "Service is running"]);
   ("message"%string, [Lit "Listening for POST requests from Telegram..."])].

(** * The vocabulary of the properties *)

(** ** What a trace shows *)

(** The chat messages posted, the documents created and the extraction
    calls made, in order. *)
Definition sent (tr : trace) : list (json * text) :=
  flat_map (fun ev =>
    match ev with
    | Post _ data _ => [(chat_id_ data, text_ data)]
    | _ => []
    end) tr.

Definition created (tr : trace) : list expense_data :=
  flat_map (fun ev =>
    match ev with
    | CreateDocument _ _ _ data _ _ => [data]
    | _ => []
    end) tr.

Definition extracted (tr : trace) : list (list part * result json) :=
  flat_map (fun ev =>
    match ev with
    | GenerateContent parts answer => [(parts, answer)]
    | _ => []
    end) tr.

(** ** Updates and extraction results *)

(** The chat and the user an update comes from. *)
Definition chat_of (update : json) : result json :=
  (message <- Py.getitem update "message" ;;
   chat <- Py.getitem message "chat" ;;
   Py.getitem chat "id")%result.

Definition user_of (update : json) : result json :=
  (message <- Py.getitem update "message" ;;
   from <- Py.getitem message "from" ;;
   Py.getitem from "id")%result.

(** An update that carries a text message and no attachment. *)
Definition text_message (update chat_id user_id : json) (body : string) : Prop :=
  exists message,
    Py.getitem update "message" = ok (JObj message)
    /\ chat_of update = ok chat_id
    /\ user_of update = ok user_id
    /\ Py.lookup "text" message = Some (JStr body)
    /\ Py.lookup "photo" message = None
    /\ Py.lookup "document" message = None.

(** An update that carries a photo or a document, no text, and no
    [file_size] in the photo variant or document the handler looks at. *)
Definition attachment_without_size
  (update chat_id user_id file_id caption : json) : Prop :=
  exists message file_data,
    Py.getitem update "message" = ok (JObj message)
    /\ chat_of update = ok chat_id
    /\ user_of update = ok user_id
    /\ Py.lookup "text" message = None
    /\ ((exists photos,
           Py.lookup "photo" message = Some photos
           /\ Py.getitem_last photos = ok (JObj file_data))
        \/ (Py.lookup "photo" message = None
            /\ Py.lookup "document" message = Some (JObj file_data)))
    /\ Py.lookup "file_size" file_data = None
    /\ Py.lookup "file_id" file_data = Some file_id
    /\ Py.get (JObj message) "caption" JNull = ok caption.

(** [extracted_data.get('Category') == 'ERROR']. *)
Definition category_is_error (d : json) : bool :=
  match Py.get d "Category" JNull with
  | inr c => Py.eq_str c "ERROR"
  | inl _ => false
  end.

(** The [Amount] of the extraction result is there and [float] rejects it. *)
Definition amount_unparseable (d : json) : Prop :=
  exists a e, Py.getitem d "Amount" = ok a /\ PyFloat.float a = throw e.

(** The closed category vocabulary of the system instruction. *)
Definition CATEGORIES : list string :=
  ["Food"; "Travel"; "Study"; "Shopping"; "Utility"; "Subscription"; "Other"]%string.

(** ** Acknowledgments and texts *)

(** The acknowledgment of the top-level handler for an exception. *)
Definition status_error (e : exn) : response :=
  [("status"%string, [Lit "error"]);
   ("message"%string, Messages.unexpected_error e)].

Definition has_key (k : string) (r : response) : bool :=
  existsb (fun p => String.eqb (fst p) k) r.

(** The text that rejects a file for its size. *)
Definition size_rejection (t : text) : Prop :=
  exists size limit, t = Messages.file_too_large size limit.

(** ** Reports *)

(** The sum the loop computes of a list of amounts: from [0.0] on, one
    addition for each amount, in their order. *)
Definition fsum (l : list Float64.t) : Float64.t :=
  fold_left Float64.add l Float64.zero.

(** The amount a document contributes to the total. *)
Definition amount_of (exp : json) : Float64.t :=
  match Py.getitem exp "amount" with
  | inr a =>
      match Report.operand a with
      | inr x => x
      | inl _ => Float64.zero
      end
  | inl _ => Float64.zero
  end.

(** The queries of a report for a user and a time range. *)
Definition report_queries (user_id : json) (range : string * string) : list query :=
  [Equal "telegram_user_id" user_id;
   GreaterThanEqual "created_at" (fst range);
   LessThanEqual "created_at" (snd range);
   Limit 20].

(** ** Computations that stay clear of extraction and persistence *)

(** A computation that stays clear of extraction and persistence: it
    appends events among which there is no extraction call and no created
    document; when it leaves by [return], it returns [{"status": "ok"}];
    and when it ends normally, the events it appended satisfy [N]. *)
Definition guarded (N : trace -> Prop) {A : Type} (m : M A) : Prop :=
  forall tr, exists evs,
    snd (m tr) = tr ++ evs
    /\ created evs = [] /\ extracted evs = []
    /\ match fst (m tr) with
       | Normal _ => N evs
       | Returned v => v = status_ok
       | Raised _ => True
       end.

(** Nothing was sent to the user. *)
Definition silent (evs : trace) : Prop := sent evs = [].

Definition anything (evs : trace) : Prop := True.

(** The conditions on [N] under which [guarded N] composes. *)
Definition composable (N : trace -> Prop) : Prop :=
  N [] /\ forall a b, N a -> N b -> N (a ++ b).

(** ** Sample deliveries *)

Module Scenario.

(** Wednesday 2025-11-05, 10:05:07.000123. *)
Definition wednesday : Datetime.datetime :=
  Datetime.combine {| Datetime.toordinal := 739560 |}
    {| Datetime.hour := 10; Datetime.minute := 5; Datetime.second := 7;
       Datetime.microsecond := 123 |}.

(** An identifier as the Appwrite client makes them up: 20 hexadecimal
    digits. *)
Definition fresh_id : string := "690b2a13000c5e8f41d7".

(** A world in which the network never fails, the extraction service
    answers [extraction] and the store answers [stored] to a query. *)
Definition world (extraction stored : result json) : Env :=
  {| TELEGRAM_BOT_TOKEN := JStr "token";
     APPWRITE_DATABASE_ID := JStr "default";
     APPWRITE_COLLECTION_ID := JStr "expenses";
     clock := fun _ => wednesday;
     requests_post := fun _ _ _ => None;
     requests_get := fun _ _ =>
       ok {| status_code := 200; json_ := throw ValueError; content := [] |};
     generate_content := fun _ _ => extraction;
     id_unique := fun _ => fresh_id;
     create_document := fun _ _ _ _ => None;
     list_documents := fun _ _ => stored |}.

(** The update of a text message from user 2 in chat 1. *)
Definition text_update (body : string) : json :=
  JObj [("message"%string,
         JObj [("chat"%string, JObj [("id"%string, JInt 1)]);
               ("from"%string, JObj [("id"%string, JInt 2)]);
               ("text"%string, JStr body)])].

Definition extraction_of (category_ description_ amount_ : string) : json :=
  JObj [("Category"%string, JStr category_);
        ("Description"%string, JStr description_);
        ("Amount"%string, JStr amount_)].

Definition document (category_ : string) (amount_ : Q) : json :=
  JObj [("amount"%string, JFloat amount_); ("category"%string, JStr category_)].

Definition documents (l : list json) : json :=
  JObj [("documents"%string, JArr l)].

End Scenario.

(** A text of [n] characters. *)
Definition filler (n : nat) : string := string_of_list_ascii (repeat "a"%char n).

(** The scenario of the specification: ["220 pizza"] is extracted as Food,
    Pizza, 220.00. *)
Definition pizza_world : Env :=
  Scenario.world (ok (Scenario.extraction_of "Food" "Pizza" "220.00"))
    (throw ValueError).

(** The extraction service gives up with its error sentinel. *)
Definition sentinel_world : Env :=
  Scenario.world
    (ok (Scenario.extraction_of "ERROR" "Failed to process input." "0.00"))
    (throw ValueError).

(** The service answers with an amount that has a thousands separator. *)
Definition separator_world : Env :=
  Scenario.world (ok (Scenario.extraction_of "Shopping" "Shoes" "1,250.00"))
    (throw ValueError).

(** The service answers outside its instructions: a category that is not
    in the vocabulary and a negative amount. *)
Definition refund_world : Env :=
  Scenario.world (ok (Scenario.extraction_of "Refund" "Returned shoes" "-5"))
    (throw ValueError).

Definition pizza_record : expense_data :=
  {| telegram_user_id := JInt 2;
     category := JStr "Food";
     description := JStr "Pizza";
     amount := Finite (Qmake 22000 100);
     created_at := "2025-11-05T10:05:07.000123Z" |}.

(** Three documents in two categories: Food 10, Travel 30, Food 10. *)
Definition week_of_spending : list json :=
  [Scenario.document "Food" 10; Scenario.document "Travel" 30;
   Scenario.document "Food" 10].

(** One stored document whose amount is zero. *)
Definition free_sample : list json := [Scenario.document "Food" 0].

(** Four documents in two categories: a large amount, a small one, the
    large one taken back, and a small one. *)
Definition cancelling_records : list json :=
  [Scenario.document "A" (inject_Z (10 ^ 16)); Scenario.document "B" 1;
   Scenario.document "A" (inject_Z (- 10 ^ 16)); Scenario.document "B" 1].

(** Telegram serves the file: both requests answer 200, the first with
    the file path, and the content is three bytes. *)
Definition photo_world : Env :=
  {| TELEGRAM_BOT_TOKEN := JStr "token";
     APPWRITE_DATABASE_ID := JStr "default";
     APPWRITE_COLLECTION_ID := JStr "expenses";
     clock := fun _ => Scenario.wednesday;
     requests_post := fun _ _ _ => None;
     requests_get := fun _ _ =>
       ok {| status_code := 200;
             json_ := ok (JObj [("result"%string,
                                 JObj [("file_path"%string,
                                        JStr "photos/file_1.jpg")])]);
             content := [Byte.xff; Byte.xd8; Byte.xff] |};
     generate_content := fun _ _ =>
       ok (Scenario.extraction_of "Food" "Pizza" "220.00");
     id_unique := fun _ => Scenario.fresh_id;
     create_document := fun _ _ _ _ => None;
     list_documents := fun _ _ => throw ValueError |}.

(** A photo in two sizes; the larger, last one declares no [file_size]. *)
Definition photo_update : json :=
  JObj [("message"%string,
         JObj [("chat"%string, JObj [("id"%string, JInt 1)]);
               ("from"%string, JObj [("id"%string, JInt 2)]);
               ("photo"%string,
                JArr [JObj [("file_id"%string, JStr "small");
                            ("file_size"%string, JInt 1000)];
                      JObj [("file_id"%string, JStr "large")]])])].

(** ** The events of a computation *)

(** Every event a computation appends to the trace satisfies [Q]. *)
Definition emits (Q : event -> Prop) {A : Type} (m : M A) : Prop :=
  forall tr, exists evs, snd (m tr) = tr ++ evs /\ Forall Q evs.

(** What the events of a delivery for chat [chat_id] and user [user_id]
    look like. *)
Definition addressed (env : Env) (chat_id user_id : json) (ev : event) : Prop :=
  match ev with
  | Post url data _ =>
      url = TELEGRAM_API_URL env ++ [Lit "/sendMessage"]
      /\ chat_id_ data = chat_id
      /\ parse_mode data = "Markdown"%string
  | CreateDocument _ _ _ data permissions _ =>
      telegram_user_id data = user_id
      /\ permissions = [permission "read" user_id; permission "write" user_id]
  | ListDocuments _ _ queries _ =>
      exists range, queries = report_queries user_id range
  | _ => True
  end.

(** An event of the first half of the [try] block: no extraction call,
    no created document, and no text that is a confirmation. *)
Definition unconfirming (ev : event) : Prop :=
  match ev with
  | Post _ data _ => forall d, text_ data <> Messages.expense_saved d
  | CreateDocument _ _ _ _ _ _ => False
  | GenerateContent _ _ => False
  | _ => True
  end.

(** ** Messages and replies *)

(** An update whose message is [message], from chat [chat_id] and user
    [user_id]. *)
Definition message_from (update : json) (message : list (string * json))
  (chat_id user_id : json) : Prop :=
  Py.getitem update "message" = ok (JObj message)
  /\ chat_of update = ok chat_id
  /\ user_of update = ok user_id.

(** The chat message with text [body] for [chat_id], and what came back. *)
Definition reply (env : Env) (chat_id : json) (body : text)
  (raised : option exn) : event :=
  Post (TELEGRAM_API_URL env ++ [Lit "/sendMessage"])
    {| chat_id_ := chat_id; text_ := body; parse_mode := "Markdown" |} raised.

(** A delivery in which, after the events [pre], the handler does nothing
    but answer with [body]: the acknowledgment is [{"status": "ok"}], or
    that of the top-level handler when the post itself raised. *)
Definition replies_with (env : Env) (pre : trace) (chat_id : json) (body : text)
  (run : outcome response * trace) : Prop :=
  exists raised,
    run = match raised with
          | None => (Normal status_ok, pre ++ [reply env chat_id body None])
          | Some e =>
              (Normal (status_error e),
               pre ++ [reply env chat_id body (Some e);
                       LogError (Messages.unexpected_error e)])
          end.

(** An update that carries a photo or a document and no text;
    [file_data] is the photo variant (the last one) or the document the
    handler looks at, [caption] the caption or [None]. *)
Definition attachment_message (update chat_id user_id : json)
  (file_data : list (string * json)) (caption : json) : Prop :=
  exists message,
    message_from update message chat_id user_id
    /\ Py.lookup "text" message = None
    /\ ((exists photos,
           Py.lookup "photo" message = Some photos
           /\ Py.getitem_last photos = ok (JObj file_data))
        \/ (Py.lookup "photo" message = None
            /\ Py.lookup "document" message = Some (JObj file_data)))
    /\ Py.get (JObj message) "caption" JNull = ok caption.

(** The size the check reads: the declared [file_size], or 0. *)
Definition declared_size (file_data : list (string * json)) : json :=
  match Py.lookup "file_size" file_data with
  | Some size => size
  | None => JInt 0
  end.

(** ** The calendar *)

(** Year, month and day of an ordinal, and the ordinal of the first day
    of that month: the day is within the month's length at most 31, the
    first of the month is [day - 1] days back, and it is day 1 of the
    same month and year. *)
Definition first_of_month_ok (n : Z) : bool :=
  let '(y, m, d) := Datetime.ord2ymd n in
  let '(y1, m1, d1) := Datetime.ord2ymd (Datetime.ymd2ord y m 1) in
  (1 <=? m) && (m <=? 12) && (1 <=? d) && (d <=? 31)
  && (1 <=? Datetime.ymd2ord y m 1)
  && (Datetime.ymd2ord y m 1 =? n - (d - 1))
  && (y1 =? y) && (m1 =? m) && (d1 =? 1).

(** The last steps of [ord2ymd]: month and day of the [n]-th day of a
    year, counted from 0. *)
Definition month_day (n : Z) (leapyear : bool) : Z * Z :=
  let month := Z.shiftr (n + 50) 5 in
  let preceding :=
    Datetime.at_ Datetime.DAYS_BEFORE_MONTH month
    + (if (2 <? month) && leapyear then 1 else 0) in
  if n <? preceding then
    let month := month - 1 in
    let preceding :=
      preceding
      - (Datetime.at_ Datetime.DAYS_IN_MONTH month
         + (if (month =? 2) && leapyear then 1 else 0)) in
    (month, n - preceding + 1)
  else (month, n - preceding + 1).

(** The days before a month, and what [month_day] gives for a day of the
    year and for the first day of its month. *)
Definition month_day_ok (leapyear : bool) (n : Z) : bool :=
  let '(m, d) := month_day n leapyear in
  let before :=
    Datetime.at_ Datetime.DAYS_BEFORE_MONTH m
    + (if (2 <? m) && leapyear then 1 else 0) in
  let '(m1, d1) := month_day before leapyear in
  (1 <=? m) && (m <=? 12) && (1 <=? d) && (d <=? 31) && (0 <=? before)
  && (before =? n - (d - 1)) && (m1 =? m) && (d1 =? 1).

(** [check] holds for the [k] integers from [n] on. *)
Fixpoint holds_from (check : Z -> bool) (k : nat) (n : Z) : bool :=
  match k with
  | O => true
  | S k' => check n && holds_from check k' (n + 1)
  end.

(** An ordinal less one, taken apart as [ord2ymd] does: [a] cycles of
    400 years, [b] centuries, [c] cycles of 4 years, [e] years and [r]
    days. *)
Definition days_of (a b c e r : Z) : Z :=
  146097 * a + 36524 * b + 1461 * c + 365 * e + r.

Definition taken_apart (b c e r : Z) : Prop :=
  0 <= r < 365
  /\ 0 <= e /\ 365 * e + r < 1461
  /\ 0 <= c /\ 1461 * c + 365 * e + r < 36524
  /\ 0 <= b /\ 36524 * b + 1461 * c + 365 * e + r < 146097.

(** The date part of [isoformat]. *)
Definition isodate (d : Datetime.date) : string :=
  let '(y, m, d) := Datetime.ord2ymd (Datetime.toordinal d) in
  (Datetime.pad 4 y ++ "-" ++ Datetime.pad 2 m ++ "-" ++ Datetime.pad 2 d)%string.

(** ** Categories *)

(** The category of a document. *)
Definition category_of (exp : json) : json :=
  match Py.getitem exp "category" with
  | inr c => c
  | inl _ => JNull
  end.

(** The amounts of the documents whose category is the key [c]. *)
Definition amounts_in (c : json) (records : list json) : list Float64.t :=
  List.map amount_of
    (filter (fun exp => Report.key_eqb (category_of exp) c) records).

(** No two keys are equal, and no two entries of the dict have the same
    key. *)
Definition distinct_keys_of (keys : list json) : Prop :=
  ForallOrdPairs (fun a b => Report.key_eqb a b = false) keys.

Definition distinct_categories (d : Report.totals) : Prop :=
  ForallOrdPairs (fun x y => Report.key_eqb (fst x) (fst y) = false) d.

(** ** The content of a report *)

(** What a report shows for an answer of the store: the grand total and
    the lines of the breakdown, [None] for an empty list of documents, or
    the exception raised on the way. *)
Definition report_content (answer : result json)
  : result (option (Float64.t * list (json * Float64.t * Float64.t))) :=
  (results <- answer ;;
   expenses <- Py.getitem results "documents" ;;
   if negb (Py.truthy expenses) then ok None
   else
     records <- Py.iter expenses ;;
     acc <- Report.accumulate (Float64.zero, []) records ;;
     lines <- Report.breakdown (fst acc) (Report.sorted_desc (snd acc)) ;;
     ok (Some (fst acc, lines)))%result.

(** The text for it. *)
Definition report_body (time_period : string)
  (content : result (option (Float64.t * list (json * Float64.t * Float64.t))))
  : text :=
  match content with
  | inl e => Messages.report_error e
  | inr None => Messages.no_expenses time_period
  | inr (Some (total_spent, lines)) => report_text time_period total_spent lines
  end.

(** The answer of Telegram to a chat message posted after [tr]. *)
Definition posted (env : Env) (tr : trace) (chat_id : json) (body : text)
  : option exn :=
  requests_post env tr (TELEGRAM_API_URL env ++ [Lit "/sendMessage"])
    {| chat_id_ := chat_id; text_ := body; parse_mode := "Markdown" |}.

(** ** Amounts *)

(** A plain decimal numeral, as the system instruction asks the amount
    to be: digits, and a point with more digits when there are any. *)
Definition numeral (int_part frac_part : list ascii) : string :=
  string_of_list_ascii
    (int_part ++ match frac_part with
                 | [] => []
                 | _ => "."%char :: frac_part
                 end).

(** The number it denotes. *)
Definition numeral_value (int_part frac_part : list ascii) : Q :=
  Qmake (PyFloat.digits_value (int_part ++ frac_part))
        (Z.to_pos (10 ^ Z.of_nat (List.length frac_part))).

(** A character of a numeral: a digit or the decimal point. *)
Definition numeral_char (c : ascii) : bool :=
  PyFloat.is_digit c || Ascii.eqb c ".".

(** ** More sample deliveries *)

(** The store holds the week of spending. *)
Definition report_world : Env :=
  Scenario.world (throw ValueError) (ok (Scenario.documents week_of_spending)).

(** The sender of the sample updates: user 2 in chat 1. *)
Definition sample_sender : list (string * json) :=
  [("chat"%string, JObj [("id"%string, JInt 1)]);
   ("from"%string, JObj [("id"%string, JInt 2)])].

(** An update of another kind: an edited message. *)
Definition edited_update : json :=
  JObj [("edited_message"%string, JObj (sample_sender ++ [("text"%string, JStr "220 pizza")]))].

(** A message that names its chat and no sender, as a channel post does. *)
Definition channel_update : json :=
  JObj [("message"%string,
         JObj [("chat"%string, JObj [("id"%string, JInt 1)]);
               ("text"%string, JStr "/start")])].

(** A sticker. *)
Definition sticker_update : json :=
  JObj [("message"%string,
         JObj (sample_sender
               ++ [("sticker"%string, JObj [("emoji"%string, JStr ":-)")])]))].

(** A file sent as a document, with its declared size and a caption. *)
Definition document_fields (size : Z) : list (string * json) :=
  [("file_id"%string, JStr "doc"); ("file_size"%string, JInt size)].

Definition document_update (size : Z) (caption : json) : json :=
  JObj [("message"%string,
         JObj (sample_sender
               ++ [("document"%string, JObj (document_fields size));
                   ("caption"%string, caption)]))].

(** * Properties *)

(** ** Tactics for running the program *)

Ltac run_norm :=
  cbv beta iota zeta delta
    [bind lift ret raise return_ try_ def_ emit ok throw fst snd
     appwrite_id_unique] in *.

(** Case analysis on what a run is a [match] on. *)
Ltac scrutinee t :=
  lazymatch t with
  | context [match ?x with _ => _ end] => scrutinee x
  | _ => t
  end.

Ltac run_step :=
  match goal with
  | |- context [match ?x with _ => _ end] =>
      let s := scrutinee x in
      destruct s eqn:?; run_norm
  end.

Ltac rewrite_known :=
  match goal with
  | H : ?l = _ |- context [?l] => rewrite H
  end.

(** Running a computation forward along the equations at hand. *)
Ltac forward :=
  repeat first
    [ progress run_norm
    | progress cbn [Py.contains Py.getitem Py.get Py.startswith Py.lower Py.len
                    Py.truthy Py.eq_str Py.is_str Py.iter negb app]
    | rewrite_known ].

(** None of the texts listed in [Hin] is the size rejection. *)
Ltac no_size_rejection Hin :=
  repeat (destruct Hin as [Hin | Hin];
          [injection Hin as _ Hin; discriminate Hin|]);
  exact Hin.

(** ** Traces *)

Lemma sent_app (a b : trace) : sent (a ++ b) = sent a ++ sent b.
Proof. apply flat_map_app. Qed.

Lemma created_app (a b : trace) : created (a ++ b) = created a ++ created b.
Proof. apply flat_map_app. Qed.

Lemma extracted_app (a b : trace) : extracted (a ++ b) = extracted a ++ extracted b.
Proof. apply flat_map_app. Qed.

(** ** The time window of [/week] *)

Lemma weekday_range (d : Datetime.date) : 0 <= Datetime.weekday d <= 6.
Proof.
  unfold Datetime.weekday.
  pose proof (Z.mod_pos_bound (Datetime.toordinal d + 6) 7). lia.
Qed.

Lemma monday_of_week (n : Z) : (n - (n + 6) mod 7 + 6) mod 7 = 0.
Proof.
  pose proof (Z.div_mod (n + 6) 7 ltac:(lia)) as H.
  replace (n - (n + 6) mod 7 + 6) with (((n + 6) / 7) * 7) by lia.
  apply Z.mod_mul. lia.
Qed.

Lemma week_window_ok (today : Datetime.date) :
  Datetime.valid today ->
  week_window today =
    ok (Datetime.combine
          {| Datetime.toordinal :=
               Datetime.toordinal today - Datetime.weekday today |}
          Datetime.time_min,
        Datetime.combine today Datetime.time_max).
Proof.
  intros [Hlo Hhi]. unfold week_window, Datetime.sub_days, and_then.
  pose proof (weekday_range today) as Hw.
  assert (Hmon : 1 <= Datetime.toordinal today - Datetime.weekday today).
  { unfold Datetime.weekday in *.
    pose proof (Z.div_mod (Datetime.toordinal today + 6) 7).
    assert (1 <= (Datetime.toordinal today + 6) / 7).
    { apply Z.div_le_lower_bound; lia. }
    lia. }
  replace (1 <=? Datetime.toordinal today - Datetime.weekday today) with true
    by (symmetry; apply Z.leb_le; lia).
  replace (Datetime.toordinal today - Datetime.weekday today <=? Datetime.MAXORDINAL)
    with true by (symmetry; apply Z.leb_le; lia).
  reflexivity.
Qed.



(** ** The report aggregator *)

Section Aggregator.

(** The grand total is the running sum of the amounts, in the order of
    the documents. *)
Lemma accumulate_amounts (records : list json) :
  forall acc acc',
    Report.accumulate acc records = ok acc' ->
    fst acc' = fold_left Float64.add (List.map amount_of records) (fst acc).
Proof.
  induction records as [|exp rest IH]; simpl; intros [total d] acc' Hrun.
  - injection Hrun as <-. reflexivity.
  - unfold and_then in Hrun.
    destruct (Report.add_expense (total, d) exp) as [|acc1] eqn:Hstep; [discriminate|].
    rewrite (IH _ _ Hrun).
    unfold Report.add_expense, and_then, amount_of in *.
    destruct (Py.getitem exp "amount") as [|amount]; [discriminate|].
    destruct (Py.getitem exp "category") as [|cat]; [discriminate|].
    destruct (Report.operand amount) as [|a]; [discriminate|].
    destruct (Report.hashable cat); [|discriminate].
    injection Hstep as <-. reflexivity.
Qed.

(** Every document leaves an entry in the dict. *)
Lemma set_not_empty (d : Report.totals) (k : json) (v : Float64.t) :
  Report.set d k v <> [].
Proof.
  destruct d as [|[k' v'] r]; cbn; [discriminate|].
  destruct (Report.key_eqb k' k); discriminate.
Qed.

Lemma accumulate_keeps_entries (records : list json) :
  forall acc acc',
    Report.accumulate acc records = ok acc' -> snd acc <> [] -> snd acc' <> [].
Proof.
  induction records as [|exp rest IH]; simpl; intros [total d] acc' Hrun Hne.
  - injection Hrun as <-. exact Hne.
  - unfold and_then in Hrun.
    destruct (Report.add_expense (total, d) exp) as [|acc1] eqn:Hstep; [discriminate|].
    apply (IH _ _ Hrun).
    unfold Report.add_expense, and_then in Hstep.
    destruct (Py.getitem exp "amount") as [|amount]; [discriminate|].
    destruct (Py.getitem exp "category") as [|cat]; [discriminate|].
    destruct (Report.operand amount) as [|a]; [discriminate|].
    destruct (Report.hashable cat); [|discriminate].
    injection Hstep as <-. apply set_not_empty.
Qed.

Lemma accumulate_not_empty (records : list json) (acc acc' : Float64.t * Report.totals) :
  records <> [] -> Report.accumulate acc records = ok acc' -> snd acc' <> [].
Proof.
  destruct records as [|exp rest]; [congruence|]. intros _. simpl.
  unfold and_then.
  destruct (Report.add_expense acc exp) as [|acc1] eqn:Hstep; [discriminate|].
  intros Hrun. apply (accumulate_keeps_entries _ _ _ Hrun).
  destruct acc as [total d].
  unfold Report.add_expense, and_then in Hstep.
  destruct (Py.getitem exp "amount") as [|amount]; [discriminate|].
  destruct (Py.getitem exp "category") as [|cat]; [discriminate|].
  destruct (Report.operand amount) as [|a]; [discriminate|].
  destruct (Report.hashable cat); [|discriminate].
  injection Hstep as <-. apply set_not_empty.
Qed.

Lemma insert_desc_perm (x : json * Float64.t) (l : list (json * Float64.t)) :
  Permutation (Report.insert_desc x l) (x :: l).
Proof.
  induction l as [|y r IH]; simpl.
  - reflexivity.
  - destruct (Float64.ltb (snd x) (snd y)).
    + rewrite IH. apply perm_swap.
    + reflexivity.
Qed.

(** The lines of the breakdown are the entries of the dict, each once. *)
Lemma sorted_desc_perm (l : list (json * Float64.t)) :
  Permutation (Report.sorted_desc l) l.
Proof.
  induction l as [|x r IH]; simpl.
  - reflexivity.
  - rewrite insert_desc_perm. apply perm_skip, IH.
Qed.

(** With a zero total the first percentage already divides by zero. *)
Lemma breakdown_zero_total (total_spent : Float64.t) (items : list (json * Float64.t)) :
  Float64.is_zero total_spent = true -> items <> [] ->
  Report.breakdown total_spent items = throw ZeroDivisionError.
Proof.
  intros Hz Hne. destruct items as [|[cat t] rest]; [congruence|].
  simpl. unfold Report.percentage. rewrite Hz. reflexivity.
Qed.

(** C8, where the code fails it. For every non-empty list of documents
    whose amounts the loop adds up to a zero, no line of the breakdown is
    computed: the first percentage divides by zero, so there are no
    subtotals and no percentages to add up and no lines in any order, and
    what the report has for the user is the report-error text. *)
Theorem zero_total_has_no_percentages
  (records : list json) (total_spent : Float64.t) (category_totals : Report.totals) :
  records <> [] ->
  Report.accumulate (Float64.zero, []) records = ok (total_spent, category_totals) ->
  Float64.is_zero total_spent = true ->
  Report.breakdown total_spent (Report.sorted_desc category_totals)
  = throw ZeroDivisionError
  /\ report_content (ok (Scenario.documents records)) = throw ZeroDivisionError
  /\ forall time_period,
       report_body time_period (report_content (ok (Scenario.documents records)))
       = Messages.report_error ZeroDivisionError.
Proof.
  intros Hne Hrun Hz.
  assert (Hlines : Report.breakdown total_spent (Report.sorted_desc category_totals)
                   = throw ZeroDivisionError).
  { apply breakdown_zero_total; [exact Hz|].
    pose proof (accumulate_not_empty _ _ _ Hne Hrun) as Hd. cbn [snd] in Hd.
    intros Hs. apply Hd. apply Permutation_nil.
    rewrite <- Hs. apply sorted_desc_perm. }
  assert (Hcontent : report_content (ok (Scenario.documents records))
                     = throw ZeroDivisionError).
  { destruct records as [|exp rest]; [congruence|].
    unfold report_content, Scenario.documents, and_then.
    unfold ok, throw in *.
    cbn [Py.getitem Py.lookup String.eqb Ascii.eqb Bool.eqb]. unfold ok.
    cbn [Py.truthy Py.iter negb]. unfold ok. rewrite Hrun. cbn [fst snd].
    rewrite Hlines. reflexivity. }
  split; [exact Hlines|]. split; [exact Hcontent|].
  intros time_period. rewrite Hcontent. reflexivity.
Qed.

Lemma zero_total_has_no_percentages_witness :
  let category_totals := [(JStr "Food", Float64.zero)] in
  free_sample <> []
  /\ Report.accumulate (Float64.zero, []) free_sample = ok (Float64.zero, category_totals)
  /\ Float64.is_zero Float64.zero = true
  /\ Report.breakdown Float64.zero (Report.sorted_desc category_totals)
     = throw ZeroDivisionError
  /\ report_content (ok (Scenario.documents free_sample)) = throw ZeroDivisionError
  /\ forall time_period,
       report_body time_period (report_content (ok (Scenario.documents free_sample)))
       = Messages.report_error ZeroDivisionError.
Proof.
  intros category_totals.
  assert (H1 : free_sample <> []) by discriminate.
  assert (H2 : Report.accumulate (Float64.zero, []) free_sample
               = ok (Float64.zero, category_totals)) by reflexivity.
  assert (H3 : Float64.is_zero Float64.zero = true) by reflexivity.
  split; [exact H1|]. split; [exact H2|]. split; [exact H3|].
  exact (zero_total_has_no_percentages free_sample Float64.zero category_totals H1 H2 H3).
Defined.

(** The sums are sums of floats, taken in the order of the documents:
    of 1e16, 1, -1e16 and 1 the loop makes 1, the 1 added to 1e16 being
    lost, while the two categories get 0 and 2, which is shown as 200
    percent of the total. *)
Example cancelling_amounts :
  report_content (ok (Scenario.documents cancelling_records))
  = ok (Some (Float64.of_Z 1,
              [(JStr "B", Float64.of_Z 2, Float64.of_Z 200);
               (JStr "A", Float64.zero, Float64.zero)])).
Proof. reflexivity. Qed.

(** Amounts whose sum is 1 and which the loop adds up to zero. *)
Example cancelling_amounts_to_zero :
  let records := [Scenario.document "A" (inject_Z (10 ^ 16));
                  Scenario.document "B" 1;
                  Scenario.document "A" (inject_Z (- 10 ^ 16))] in
  Report.accumulate (Float64.zero, []) records
  = ok (Float64.zero, [(JStr "A", Float64.zero); (JStr "B", Float64.of_Z 1)])
  /\ report_content (ok (Scenario.documents records)) = throw ZeroDivisionError.
Proof. split; reflexivity. Qed.

End Aggregator.

(** ** What a report run sends *)

Section ReportRuns.

Variable env : Env.

(** C4, the part that holds: an empty list of documents does not reach
    the aggregation; the user is sent the no-expenses text for the period. *)
Lemma empty_list_gets_no_expenses_message
  (chat_id user_id : json) (command : string) (tr tr1 : trace)
  (range : string * string) (results expenses : json) :
  get_query_time_range env command tr = (Normal range, tr1) ->
  list_documents env tr1 (report_queries user_id range) = ok results ->
  Py.getitem results "documents" = ok expenses ->
  Py.truthy expenses = false ->
  exists raised rest,
    snd (generate_report env chat_id user_id command tr)
    = tr1 ++ ListDocuments (APPWRITE_DATABASE_ID env) (APPWRITE_COLLECTION_ID env)
               (report_queries user_id range) (ok results)
          :: Post (TELEGRAM_API_URL env ++ [Lit "/sendMessage"])
               {| chat_id_ := chat_id;
                  text_ := Messages.no_expenses (PyStr.capitalize (PyStr.tail command));
                  parse_mode := "Markdown" |} raised
          :: rest
    /\ (raised = None ->
        rest = []
        /\ fst (generate_report env chat_id user_id command tr) = Normal status_ok).
Proof.
  intros Hrange Hlist Hdocs Hempty. destruct range as [start_time end_time].
  unfold report_queries in *. cbn [fst snd] in *.
  unfold generate_report, appwrite_list_documents, send_telegram_message.
  unfold ok in *.
  forward. repeat run_step.
  all: rewrite <- ?app_assoc; cbn [app]; eexists _, _;
    (split; [reflexivity | try discriminate]).
  intros _. split; reflexivity.
Qed.

(** When the aggregation succeeds, the text sent is the report made of
    the grand total and the lines of the breakdown. *)
Lemma report_is_sent
  (chat_id user_id : json) (command : string) (tr tr1 : trace)
  (range : string * string) (results : json) (records : list json)
  (total_spent : Float64.t) (category_totals : Report.totals)
  (lines : list (json * Float64.t * Float64.t)) :
  get_query_time_range env command tr = (Normal range, tr1) ->
  list_documents env tr1 (report_queries user_id range) = ok results ->
  Py.getitem results "documents" = ok (JArr records) ->
  records <> [] ->
  Report.accumulate (Float64.zero, []) records = ok (total_spent, category_totals) ->
  Report.breakdown total_spent (Report.sorted_desc category_totals) = ok lines ->
  exists raised rest,
    snd (generate_report env chat_id user_id command tr)
    = tr1 ++ ListDocuments (APPWRITE_DATABASE_ID env) (APPWRITE_COLLECTION_ID env)
               (report_queries user_id range) (ok results)
          :: Post (TELEGRAM_API_URL env ++ [Lit "/sendMessage"])
               {| chat_id_ := chat_id;
                  text_ := report_text (PyStr.capitalize (PyStr.tail command))
                             total_spent lines;
                  parse_mode := "Markdown" |} raised
          :: rest
    /\ (raised = None ->
        rest = []
        /\ fst (generate_report env chat_id user_id command tr) = Normal status_ok).
Proof.
  intros Hrange Hlist Hdocs Hne Hacc Hlines. destruct range as [start_time end_time].
  unfold report_queries in *. cbn [fst snd] in *.
  unfold generate_report, appwrite_list_documents, send_telegram_message.
  unfold ok in *.
  destruct records as [|exp rest]; [congruence|].
  forward. repeat run_step.
  all: rewrite <- ?app_assoc; cbn [app]; eexists _, _;
    (split; [reflexivity | try discriminate]).
  intros _. split; reflexivity.
Qed.

(** When a percentage cannot be computed, the [except] clause of the
    report sends the report-error text with that exception. *)
Lemma report_error_is_sent
  (chat_id user_id : json) (command : string) (tr tr1 : trace)
  (range : string * string) (results : json) (records : list json)
  (total_spent : Float64.t) (category_totals : Report.totals) (e : exn) :
  get_query_time_range env command tr = (Normal range, tr1) ->
  list_documents env tr1 (report_queries user_id range) = ok results ->
  Py.getitem results "documents" = ok (JArr records) ->
  records <> [] ->
  Report.accumulate (Float64.zero, []) records = ok (total_spent, category_totals) ->
  Report.breakdown total_spent (Report.sorted_desc category_totals) = throw e ->
  exists raised,
    generate_report env chat_id user_id command tr
    = (match raised with None => Normal status_ok | Some e' => Raised e' end,
       tr1 ++ [ListDocuments (APPWRITE_DATABASE_ID env) (APPWRITE_COLLECTION_ID env)
                 (report_queries user_id range) (ok results);
               Post (TELEGRAM_API_URL env ++ [Lit "/sendMessage"])
                 {| chat_id_ := chat_id;
                    text_ := Messages.report_error e;
                    parse_mode := "Markdown" |} raised]).
Proof.
  intros Hrange Hlist Hdocs Hne Hacc Hlines. destruct range as [start_time end_time].
  unfold report_queries in *. cbn [fst snd] in *.
  unfold generate_report, appwrite_list_documents, send_telegram_message.
  unfold ok, throw in *.
  destruct records as [|exp rest]; [congruence|].
  forward.
  match goal with
  | |- context [requests_post env ?t ?u ?p] => exists (requests_post env t u p)
  end.
  rewrite <- app_assoc. cbn [app].
  destruct (requests_post env _ _ _); reflexivity.
Qed.

End ReportRuns.

(** C4, the failing deliveries. An expense of amount 0 is stored like any
    other: the text ["free sample"], extracted as Food with amount ["0"],
    creates a document of amount 0.0. With that one document in the store
    for the user, on [/daily] the list is not empty, the grand total is
    zero, the first percentage divides by zero, the [except] clause of the
    report catches the [ZeroDivisionError], and the user is sent the
    report-error text instead of a report. *)
Theorem daily_report_of_zero_total_divides_by_zero :
  let free :=
    Scenario.world (ok (Scenario.extraction_of "Food" "Free sample" "0"))
      (throw ValueError) in
  let stored :=
    handle_telegram_webhook free (ok (Scenario.text_update "free sample")) [] in
  let env :=
    Scenario.world (throw ValueError) (ok (Scenario.documents free_sample)) in
  let run := handle_telegram_webhook env (ok (Scenario.text_update "/daily")) [] in
  List.map (fun data => (category data, amount data)) (created (snd stored))
    = [(JStr "Food", Finite 0%Q)]
  /\ free_sample <> []
  /\ Report.accumulate (Float64.zero, []) free_sample
     = ok (Float64.zero, [(JStr "Food", Float64.zero)])
  /\ Report.breakdown Float64.zero (Report.sorted_desc [(JStr "Food", Float64.zero)])
     = throw ZeroDivisionError
  /\ fst run = Normal status_ok
  /\ sent (snd run) = [(JInt 1, Messages.report_error ZeroDivisionError)].
Proof.
  vm_compute. repeat split. discriminate.
Qed.

(** ** What happens before the extraction call *)

Section Clearance.

Variable env : Env.

Lemma composable_silent : composable silent.
Proof.
  split; [reflexivity|]. unfold silent. intros a b Ha Hb.
  rewrite sent_app, Ha, Hb. reflexivity.
Qed.

Lemma composable_anything : composable anything.
Proof. split; [exact I|]. intros; exact I. Qed.

Lemma guarded_weaken (N : trace -> Prop) {A : Type} (m : M A) :
  guarded N m -> guarded anything m.
Proof.
  intros Hm tr. destruct (Hm tr) as (evs & H1 & H2 & H3 & H4).
  exists evs. repeat split; try assumption.
  destruct (fst (m tr)); try assumption. exact I.
Qed.

Section Combinators.

Variable N : trace -> Prop.
Hypothesis HN : composable N.

Lemma guarded_ret {A : Type} (a : A) : guarded N (ret a).
Proof.
  intros tr. exists []. simpl. rewrite app_nil_r.
  repeat split. apply HN.
Qed.

Lemma guarded_raise {A : Type} (e : exn) : guarded N (@raise A e).
Proof. intros tr. exists []. simpl. rewrite app_nil_r. repeat split. Qed.

Lemma guarded_return {A : Type} : guarded N (@return_ A status_ok).
Proof. intros tr. exists []. simpl. rewrite app_nil_r. repeat split. Qed.

Lemma guarded_lift {A : Type} (r : result A) : guarded N (lift r).
Proof. destruct r; [apply guarded_raise | apply guarded_ret]. Qed.

Lemma guarded_bind {A B : Type} (m : M A) (k : A -> M B) :
  guarded N m -> (forall a, guarded N (k a)) -> guarded N (bind m k).
Proof.
  intros Hm Hk tr. destruct (Hm tr) as (evs1 & H1 & H2 & H3 & H4).
  unfold bind. destruct (m tr) as [[a|v|e] tr1]; simpl in *; subst tr1.
  - destruct (Hk a (tr ++ evs1)) as (evs2 & K1 & K2 & K3 & K4).
    exists (evs1 ++ evs2). rewrite K1, app_assoc, created_app, extracted_app, H2, H3, K2, K3.
    repeat split.
    destruct (fst (k a (tr ++ evs1))); try assumption.
    apply HN; assumption.
  - exists evs1. repeat split; assumption.
  - exists evs1. repeat split; assumption.
Qed.

End Combinators.

Lemma guarded_now : guarded silent (datetime_now env).
Proof. intros tr. eexists [_]. repeat split. Qed.

Lemma guarded_http_get (url : text) : guarded silent (http_get env url).
Proof.
  intros tr. eexists [_]. unfold http_get. simpl.
  repeat split. destruct (requests_get env tr url); reflexivity.
Qed.

Lemma guarded_send (chat_id : json) (body : text) :
  guarded anything (send_telegram_message env chat_id body).
Proof.
  intros tr. eexists [_]. unfold send_telegram_message. simpl.
  repeat split. destruct (requests_post env tr _ _); exact I.
Qed.

Lemma guarded_list_documents (queries : list query) :
  guarded silent (appwrite_list_documents env queries).
Proof.
  intros tr. eexists [_]. unfold appwrite_list_documents. simpl.
  repeat split. destruct (list_documents env tr queries); reflexivity.
Qed.

(** Sending a text and returning [{"status": "ok"}] never ends normally. *)
Lemma guarded_reply (N : trace -> Prop) {A : Type} (chat_id : json) (body : text) :
  guarded N (bind (send_telegram_message env chat_id body)
               (fun _ => @return_ A status_ok)).
Proof.
  intros tr. unfold bind, send_telegram_message. cbv zeta.
  destruct (requests_post env tr _ _); eexists [_]; simpl; repeat split.
Qed.

(** [try: body / except Exception as e: reply; return], for a guarded body. *)
Lemma guarded_try_reply (N : trace -> Prop) {A : Type} (body : M A)
  (chat_id : json) (message : exn -> text) :
  guarded N body ->
  guarded N (try_ body (fun e =>
               bind (send_telegram_message env chat_id (message e))
                 (fun _ => return_ status_ok))).
Proof.
  intros Hbody tr. destruct (Hbody tr) as (evs1 & H1 & H2 & H3 & H4).
  unfold try_. destruct (body tr) as [[a|v|e] tr1]; cbn [fst snd] in *; subst tr1.
  - exists evs1. repeat split; assumption.
  - exists evs1. repeat split; assumption.
  - unfold bind, send_telegram_message. cbv zeta.
    destruct (requests_post env (tr ++ evs1) _ _); eexists (evs1 ++ [_]);
      cbn [fst snd]; rewrite app_assoc, created_app, extracted_app, H2, H3;
      repeat split.
Qed.

(** [try: body / except Exception as e: handler], when no claim is made on
    what was sent. *)
Lemma guarded_try {A : Type} (body : M A) (handler : exn -> M A) :
  guarded anything body -> (forall e, guarded anything (handler e)) ->
  guarded anything (try_ body handler).
Proof.
  intros Hbody Hh tr. destruct (Hbody tr) as (evs1 & H1 & H2 & H3 & H4).
  unfold try_. destruct (body tr) as [[a|v|e] tr1]; cbn [fst snd] in *; subst tr1.
  - exists evs1. repeat split; assumption.
  - exists evs1. repeat split; assumption.
  - destruct (Hh e (tr ++ evs1)) as (evs2 & K1 & K2 & K3 & K4).
    exists (evs1 ++ evs2).
    rewrite K1, app_assoc, created_app, extracted_app, H2, H3, K2, K3.
    repeat split. destruct (fst (handler e (tr ++ evs1))); try assumption; exact I.
Qed.

(** A function with a guarded body yields [{"status": "ok"}] or raises. *)
Lemma guarded_def (body : M Empty_set) :
  guarded anything body ->
  forall tr, exists evs,
    snd (def_ body tr) = tr ++ evs
    /\ created evs = [] /\ extracted evs = []
    /\ (fst (def_ body tr) = Normal status_ok
        \/ exists e, fst (def_ body tr) = Raised e).
Proof.
  intros Hbody tr. destruct (Hbody tr) as (evs & H1 & H2 & H3 & H4).
  exists evs. unfold def_.
  destruct (body tr) as [[[]|v|e] tr1]; simpl in *; subst; repeat split; eauto.
Qed.

End Clearance.

Section ProgramClearance.

Variable env : Env.

Ltac clear_step :=
  match goal with
  | |- composable silent => apply composable_silent
  | |- composable anything => apply composable_anything
  | |- guarded _ (bind (send_telegram_message _ _ _) (fun _ => return_ status_ok)) =>
      apply guarded_reply
  | |- guarded _ (try_ _ (fun _ => bind (send_telegram_message _ _ _)
                                    (fun _ => return_ status_ok))) =>
      apply guarded_try_reply
  | |- guarded _ (bind _ _) => apply guarded_bind; [ | | intro]
  | |- guarded _ (ret _) => apply guarded_ret
  | |- guarded _ (lift _) => apply guarded_lift
  | |- guarded _ (raise _) => apply guarded_raise
  | |- guarded _ (return_ status_ok) => apply guarded_return
  | |- guarded silent (datetime_now _) => apply guarded_now
  | |- guarded silent (http_get _ _) => apply guarded_http_get
  | |- guarded silent (appwrite_list_documents _ _) => apply guarded_list_documents
  | |- guarded anything (send_telegram_message _ _ _) => apply guarded_send
  | |- guarded anything (datetime_now _) =>
      apply (guarded_weaken silent), guarded_now
  | |- guarded anything (appwrite_list_documents _ _) =>
      apply (guarded_weaken silent), guarded_list_documents
  | |- guarded _ (if ?b then _ else _) => destruct b
  | |- guarded _ (match ?x with _ => _ end) => destruct x
  end.

Lemma guarded_time_range (command : string) :
  guarded silent (get_query_time_range env command).
Proof.
  unfold get_query_time_range, get_query_time_range_daily. repeat clear_step.
Qed.

Lemma guarded_report_body (chat_id user_id : json) (command : string) :
  forall tr, exists evs,
    snd (generate_report env chat_id user_id command tr) = tr ++ evs
    /\ created evs = [] /\ extracted evs = []
    /\ (fst (generate_report env chat_id user_id command tr) = Normal status_ok
        \/ exists e, fst (generate_report env chat_id user_id command tr) = Raised e).
Proof.
  unfold generate_report. apply guarded_def.
  apply guarded_bind; [apply composable_anything | |].
  { apply (guarded_weaken silent), guarded_time_range. }
  intros [start_time end_time].
  apply guarded_bind; [apply composable_anything | | intro; repeat clear_step].
  apply guarded_try; [|intro]; repeat clear_step.
Qed.

(** [return await generate_report(...)]. *)
Lemma guarded_report (N : trace -> Prop) {A : Type}
  (chat_id user_id : json) (command : string) :
  guarded N (bind (generate_report env chat_id user_id command)
               (fun answer => @return_ A answer)).
Proof.
  intros tr.
  destruct (guarded_report_body chat_id user_id command tr)
    as (evs & H1 & H2 & H3 & H4).
  exists evs. unfold bind.
  destruct (generate_report env chat_id user_id command tr) as [o tr1].
  cbn [fst snd] in *. subst tr1.
  destruct H4 as [-> | [e ->]]; cbn [fst snd]; repeat split; assumption.
Qed.

Ltac stay_clear := repeat first [apply guarded_report | clear_step].

Lemma guarded_download (file_id : json) :
  guarded silent (download_telegram_file env file_id).
Proof.
  unfold download_telegram_file, raise_for_status. stay_clear.
Qed.

Lemma guarded_attachment (chat_id message file_data : json) :
  guarded silent (attachment env chat_id message file_data).
Proof. unfold attachment. stay_clear. Qed.

Lemma guarded_expense_input (chat_id message : json) :
  guarded silent (expense_input env chat_id message).
Proof.
  unfold expense_input. stay_clear; apply guarded_attachment.
Qed.

Lemma guarded_prepare_parts (chat_id : json) (gemini_parts : list part)
  (file_id caption_text : json) :
  guarded silent (prepare_parts env chat_id gemini_parts file_id caption_text).
Proof.
  unfold prepare_parts. stay_clear. apply guarded_download.
Qed.

(** Up to the extraction call the handler creates no document and calls
    no extraction, it returns nothing but [{"status": "ok"}], and when it
    goes on to the extraction it has not sent anything to the user. *)
Lemma guarded_classify (request_json : result json) :
  guarded silent (classify_update env request_json).
Proof.
  unfold classify_update.
  stay_clear; first [apply guarded_expense_input | apply guarded_prepare_parts].
Qed.

End ProgramClearance.

(** ** The second half of the [try] block *)

Section Recording.

Variable env : Env.

Lemma record_expense_sentinel (chat_id user_id : json) (current_time : string)
  (parts : list part) (pre : trace) (d : json) :
  generate_content env pre parts = ok d ->
  category_is_error d = true ->
  exists details raised,
    Py.get d "Description" (JStr "N/A") = ok details
    /\ record_expense env chat_id user_id current_time parts pre
       = (match raised with None => Returned status_ok | Some e => Raised e end,
          pre ++ [GenerateContent parts (ok d)]
              ++ [Post (TELEGRAM_API_URL env ++ [Lit "/sendMessage"])
                    {| chat_id_ := chat_id;
                       text_ := Messages.extraction_failed details;
                       parse_mode := "Markdown" |} raised]).
Proof.
  intros Hanswer Hcat. unfold category_is_error in Hcat.
  unfold record_expense, extract_expense_details, send_telegram_message.
  destruct d; try discriminate Hcat.
  run_norm. rewrite Hanswer. cbn [Py.get] in *.
  destruct (Py.lookup "Category" kv) as [c|]; [|discriminate].
  run_norm. rewrite Hcat.
  destruct (Py.lookup "Description" kv) as [details|]; run_norm.
  - exists details.
    match goal with
    | |- context [requests_post env ?t ?u ?p] => exists (requests_post env t u p)
    end.
    split; [reflexivity|]. rewrite <- app_assoc.
    destruct (requests_post env _ _ _); reflexivity.
  - exists (JStr "N/A").
    match goal with
    | |- context [requests_post env ?t ?u ?p] => exists (requests_post env t u p)
    end.
    split; [reflexivity|]. rewrite <- app_assoc.
    destruct (requests_post env _ _ _); reflexivity.
Qed.

Lemma record_expense_unparseable (chat_id user_id : json) (current_time : string)
  (parts : list part) (pre : trace) (d : json) :
  generate_content env pre parts = ok d ->
  category_is_error d = false ->
  amount_unparseable d ->
  exists e,
    record_expense env chat_id user_id current_time parts pre
    = (Raised e, pre ++ [GenerateContent parts (ok d)]).
Proof.
  intros Hanswer Hcat (a & e & Ha & Hfloat). unfold category_is_error in Hcat.
  unfold record_expense, extract_expense_details.
  run_norm. rewrite Hanswer, Ha, Hfloat.
  destruct (Py.get d "Category" JNull) as [e1|c]; [eexists; reflexivity|].
  rewrite Hcat.
  destruct (Py.getitem d "Category"); [eexists; reflexivity|].
  destruct (Py.getitem d "Description"); eexists; reflexivity.
Qed.

(** Every run of the second half of the [try] block: one extraction call;
    nothing is returned but [{"status": "ok"}]; and a document is created
    only from an extraction result that is not the error sentinel, with the
    fields of that result and the float of its [Amount]. *)
Lemma record_expense_run (chat_id user_id : json) (current_time : string)
  (parts : list part) (pre : trace) :
  exists evs,
    snd (record_expense env chat_id user_id current_time parts pre) = pre ++ evs
    /\ extracted evs = [(parts, generate_content env pre parts)]
    /\ (forall v,
          fst (record_expense env chat_id user_id current_time parts pre)
            = Returned v -> v = status_ok)
    /\ (forall data, In data (created evs) ->
          exists d,
            generate_content env pre parts = ok d
            /\ category_is_error d = false
            /\ Py.getitem d "Category" = ok (category data)
            /\ Py.getitem d "Description" = ok (description data)
            /\ (exists a, Py.getitem d "Amount" = ok a
                          /\ PyFloat.float a = ok (amount data))
            /\ telegram_user_id data = user_id
            /\ created_at data = current_time).
Proof.
  unfold record_expense, extract_expense_details, appwrite_create_document,
    send_telegram_message, category_is_error.
  run_norm.
  repeat run_step;
    (eexists; split; [rewrite <- ?app_assoc; reflexivity|];
     split; [reflexivity|]; split; [intros v [= <-]; reflexivity || discriminate|];
     cbn; intros data Hin; try contradiction).
  all: destruct Hin as [<- | []]; eexists; repeat split; eauto.
  all: match goal with H : Py.get _ _ _ = _ |- _ => rewrite H end; assumption.
Qed.

Lemma record_expense_no_size_rejection (chat_id user_id : json)
  (current_time : string) (parts : list part) (pre : trace) :
  exists evs,
    snd (record_expense env chat_id user_id current_time parts pre) = pre ++ evs
    /\ forall c t, In (c, t) (sent evs) -> ~ size_rejection t.
Proof.
  unfold record_expense, extract_expense_details, appwrite_create_document,
    send_telegram_message.
  run_norm.
  repeat run_step.
  all: rewrite <- ?app_assoc; eexists; (split; [reflexivity|]).
  all: cbn; intros c t Hin (size & limit & ->).
  all: no_size_rejection Hin.
Qed.

End Recording.

(** ** The shape of a delivery *)

Section Delivery.

Variable env : Env.

Lemma handler_run (request_json : result json) (tr : trace) :
  handle_telegram_webhook env request_json tr =
  match webhook_try_block env request_json tr with
  | (Normal _, tr') => (Normal status_ok, tr')
  | (Returned v, tr') => (Normal v, tr')
  | (Raised e, tr') =>
      (Normal (status_error e), tr' ++ [LogError (Messages.unexpected_error e)])
  end.
Proof.
  unfold handle_telegram_webhook, def_, try_, bind, logging_error, emit, return_.
  destruct (webhook_try_block env request_json tr) as [[[]|v|e] tr']; reflexivity.
Qed.

Lemma try_block_run (request_json : result json) (tr : trace) :
  webhook_try_block env request_json tr =
  match classify_update env request_json tr with
  | (Normal (chat_id, user_id, current_time, parts), tr') =>
      record_expense env chat_id user_id current_time parts tr'
  | (Returned v, tr') => (Returned v, tr')
  | (Raised e, tr') => (Raised e, tr')
  end.
Proof.
  unfold webhook_try_block, bind.
  destruct (classify_update env request_json tr) as [[[[[c u] t] p]|v|e] tr'];
    reflexivity.
Qed.

(** The log entry of the top-level handler is the only event the handler
    adds to those of the [try] block. *)
Lemma handler_observations (request_json : result json) (tr : trace) :
  sent (snd (handle_telegram_webhook env request_json tr))
    = sent (snd (webhook_try_block env request_json tr))
  /\ created (snd (handle_telegram_webhook env request_json tr))
     = created (snd (webhook_try_block env request_json tr))
  /\ extracted (snd (handle_telegram_webhook env request_json tr))
     = extracted (snd (webhook_try_block env request_json tr)).
Proof.
  rewrite handler_run.
  destruct (webhook_try_block env request_json tr) as [[[]|v|e] tr']; cbn [snd];
    rewrite ?sent_app, ?created_app, ?extracted_app; cbn; rewrite ?app_nil_r;
    repeat split.
Qed.

Lemma bind_normal {A B : Type} (m : M A) (k : A -> M B) (tr : trace) (b : B) :
  fst (bind m k tr) = Normal b ->
  exists a, fst (m tr) = Normal a /\ fst (k a (snd (m tr))) = Normal b.
Proof.
  unfold bind. destruct (m tr) as [[a|v|e] tr1]; cbn [fst snd]; try discriminate.
  intros H. exists a. split; [reflexivity | exact H].
Qed.

Lemma lift_normal {A : Type} (r : result A) (tr : trace) (a : A) :
  fst (lift r tr) = Normal a -> r = ok a.
Proof. destruct r; cbn; intros [= <-]; reflexivity. Qed.

(** When the first half of the [try] block goes on to the extraction, the
    chat and the user are those of the update. *)
Lemma classify_ids (request_json : result json) (tr : trace)
  (chat_id user_id : json) (current_time : string) (parts : list part) :
  fst (classify_update env request_json tr)
    = Normal (chat_id, user_id, current_time, parts) ->
  exists update,
    request_json = ok update
    /\ chat_of update = ok chat_id
    /\ user_of update = ok user_id.
Proof.
  unfold classify_update. intros H.
  apply bind_normal in H as (update & Hupdate & H). apply lift_normal in Hupdate.
  apply bind_normal in H as (has_message & _ & H).
  apply bind_normal in H as (_ & _ & H).
  apply bind_normal in H as (message & Hmessage & H). apply lift_normal in Hmessage.
  apply bind_normal in H as (chat & Hchat & H). apply lift_normal in Hchat.
  apply bind_normal in H as (c & Hc & H). apply lift_normal in Hc.
  apply bind_normal in H as (from & Hfrom & H). apply lift_normal in Hfrom.
  apply bind_normal in H as (u & Hu & H). apply lift_normal in Hu.
  apply bind_normal in H as (now & _ & H).
  apply bind_normal in H as (has_text & _ & H).
  apply bind_normal in H as (is_command & _ & H).
  apply bind_normal in H as (_ & _ & H).
  apply bind_normal in H as ([[gemini_parts file_id] caption_text] & _ & H).
  apply bind_normal in H as (gemini_parts' & _ & H).
  cbn in H. injection H as <- <- _ _.
  exists update. unfold chat_of, user_of, and_then, ok in *.
  rewrite Hmessage. cbv beta iota. rewrite Hchat, Hfrom. auto.
Qed.

(** A delivery either leaves before the extraction call, having created
    no document, or runs the second half of the [try] block after a first
    half that sent nothing. *)
Lemma delivery_cases (request_json : result json) (tr : trace) :
  (exists evs,
      snd (webhook_try_block env request_json tr) = tr ++ evs
      /\ created evs = [] /\ extracted evs = []
      /\ match fst (webhook_try_block env request_json tr) with
         | Normal _ => False
         | Returned v => v = status_ok
         | Raised _ => True
         end)
  \/ (exists update chat_id user_id current_time parts pre,
        request_json = ok update
        /\ chat_of update = ok chat_id
        /\ user_of update = ok user_id
        /\ sent pre = [] /\ created pre = [] /\ extracted pre = []
        /\ webhook_try_block env request_json tr
           = record_expense env chat_id user_id current_time parts (tr ++ pre)).
Proof.
  rewrite try_block_run.
  destruct (guarded_classify env request_json tr) as (evs & H1 & H2 & H3 & H4).
  destruct (classify_update env request_json tr) as [[[[[c u] t] p]|v|e] tr'] eqn:Hrun;
    cbn [fst snd] in *; subst tr'.
  - right.
    destruct (classify_ids request_json tr c u t p) as (update & Hreq & Hc & Hu).
    { rewrite Hrun. reflexivity. }
    exists update, c, u, t, p, evs. repeat split; assumption.
  - left. exists evs. repeat split; assumption.
  - left. exists evs. repeat split; assumption.
Qed.

End Delivery.

(** ** The claims on the webhook handler *)

Section HandlerClaims.

Variable env : Env.

Lemma try_block_returns_ok (request_json : result json) (tr : trace) (v : response) :
  fst (webhook_try_block env request_json tr) = Returned v -> v = status_ok.
Proof.
  intros Hret.
  destruct (delivery_cases env request_json tr)
    as [(evs & _ & _ & _ & Hout)
       | (update & c & u & t & parts & pre & _ & _ & _ & _ & _ & _ & Hrun)].
  - rewrite Hret in Hout. exact Hout.
  - rewrite Hrun in Hret.
    destruct (record_expense_run env c u t parts (tr ++ pre)) as (evs & _ & _ & Hok & _).
    apply Hok, Hret.
Qed.

(** C1. Whatever the update and whatever the outside world answers, the
    handler ends by returning a dict with a ["status"] key and raises
    nothing. An exception that leaves the [try] block is turned into the
    ["error"] acknowledgment; on that path the handler adds the log entry
    to the trace and nothing else, so no chat message is sent after the
    fault. On every other path the acknowledgment is [{"status": "ok"}]. *)
Theorem webhook_always_acknowledges (request_json : result json) (tr : trace) :
  exists resp,
    fst (handle_telegram_webhook env request_json tr) = Normal resp
    /\ has_key "status" resp = true
    /\ match fst (webhook_try_block env request_json tr) with
       | Raised e =>
           resp = status_error e
           /\ snd (handle_telegram_webhook env request_json tr)
              = snd (webhook_try_block env request_json tr)
                ++ [LogError (Messages.unexpected_error e)]
           /\ sent (snd (handle_telegram_webhook env request_json tr))
              = sent (snd (webhook_try_block env request_json tr))
       | _ =>
           resp = status_ok
           /\ snd (handle_telegram_webhook env request_json tr)
              = snd (webhook_try_block env request_json tr)
       end.
Proof.
  pose proof (try_block_returns_ok request_json tr) as Hret.
  pose proof (handler_observations env request_json tr) as (Hsent & _ & _).
  rewrite handler_run in *.
  destruct (webhook_try_block env request_json tr) as [[[]|v|e] tr'];
    cbn [fst snd] in *.
  - exists status_ok. repeat split.
  - rewrite (Hret v eq_refl). exists status_ok. repeat split.
  - exists (status_error e). repeat split. exact Hsent.
Qed.

(** The extraction call a delivery made, if it made one, is the one of the
    second half of the [try] block. *)
Lemma extraction_reached (request_json : result json)
  (parts : list part) (answer : result json) :
  In (parts, answer)
     (extracted (snd (handle_telegram_webhook env request_json []))) ->
  exists update chat_id user_id current_time pre,
    request_json = ok update
    /\ chat_of update = ok chat_id
    /\ user_of update = ok user_id
    /\ sent pre = [] /\ created pre = [] /\ extracted pre = []
    /\ generate_content env pre parts = answer
    /\ webhook_try_block env request_json []
       = record_expense env chat_id user_id current_time parts pre.
Proof.
  intros Hin.
  destruct (handler_observations env request_json []) as (_ & _ & Hextracted).
  rewrite Hextracted in Hin.
  destruct (delivery_cases env request_json [])
    as [(evs & Htr & _ & Hnone & _)
       | (update & c & u & t & parts' & pre & Hreq & Hc & Hu & Hs & Hcr & Hex & Hrun)].
  - rewrite Htr in Hin. cbn [app] in Hin. rewrite Hnone in Hin. contradiction.
  - cbn [app] in Hrun. rewrite Hrun in Hin.
    destruct (record_expense_run env c u t parts' pre) as (evs & Htr & Hone & _).
    rewrite Htr, extracted_app, Hex, Hone in Hin.
    destruct Hin as [[= <- <-] | []].
    exists update, c, u, t, pre. repeat split; assumption.
Qed.

(** The extraction-failure text is its heading followed by the
    description: the description is the part interpolated into it, and a
    description that is a string ends the text as it is. *)
Lemma extraction_failed_shows_details (details : json) :
  In (Str details) (Messages.extraction_failed details)
  /\ forall description,
       details = JStr description ->
       Render.render (Messages.extraction_failed details)
       = Some ("*Extraction Failed!* üò≠ " ++ nl ++ "_Details_: " ++ description)%string.
Proof.
  split.
  - cbn. auto.
  - intros description ->. cbn [Messages.extraction_failed Render.render Render.frag_string].
    replace (description ++ EmptyString)%string with description; [reflexivity|].
    induction description as [|c r IH]; cbn; [reflexivity|]. rewrite <- IH. reflexivity.
Qed.

(** C5. If the extraction engine returns the error sentinel, no document
    is created, and exactly one chat message is posted, to the chat the
    update came from: the extraction-failure text, into which the
    sentinel's description is interpolated ([N/A] when it has none). For a
    description that is a string the text reads [*Extraction Failed!*],
    a line break, [_Details_: ] and the description. *)
Theorem error_sentinel_is_reported_not_persisted
  (request_json : result json) (parts : list part) (d : json) :
  In (parts, ok d)
     (extracted (snd (handle_telegram_webhook env request_json []))) ->
  category_is_error d = true ->
  created (snd (handle_telegram_webhook env request_json [])) = []
  /\ exists update chat_id details failure,
       request_json = ok update
       /\ chat_of update = ok chat_id
       /\ Py.get d "Description" (JStr "N/A") = ok details
       /\ sent (snd (handle_telegram_webhook env request_json []))
          = [(chat_id, failure)]
       /\ failure = Messages.extraction_failed details
       /\ In (Str details) failure
       /\ forall description,
            details = JStr description ->
            Render.render failure
            = Some ("*Extraction Failed!* üò≠ " ++ nl
                    ++ "_Details_: " ++ description)%string.
Proof.
  intros Hin Hcat.
  destruct (extraction_reached _ _ _ Hin)
    as (update & c & u & t & pre & Hreq & Hc & Hu & Hs & Hcr & Hex & Hanswer & Hrun).
  destruct (handler_observations env request_json []) as (Hsent & Hcreated & _).
  rewrite Hsent, Hcreated, Hrun.
  destruct (record_expense_sentinel env c u t parts pre d Hanswer Hcat)
    as (details & raised & Hdetails & ->).
  cbn [snd]. rewrite !created_app, !sent_app, Hcr, Hs. cbn [sent created flat_map app].
  split; [reflexivity|].
  destruct (extraction_failed_shows_details details) as [Hpart Htext].
  exists update, c, details, (Messages.extraction_failed details).
  repeat split; assumption.
Qed.

(** C2, as the code has it. If the extraction result is not the error
    sentinel and [float] rejects its [Amount], then no document is created,
    no chat message at all is sent, and the handler answers with the
    ["error"] acknowledgment of its top-level [except]. *)
Theorem unparseable_amount_is_an_unhandled_fault
  (request_json : result json) (parts : list part) (d : json) :
  In (parts, ok d)
     (extracted (snd (handle_telegram_webhook env request_json []))) ->
  category_is_error d = false ->
  amount_unparseable d ->
  created (snd (handle_telegram_webhook env request_json [])) = []
  /\ sent (snd (handle_telegram_webhook env request_json [])) = []
  /\ exists e,
       fst (handle_telegram_webhook env request_json []) = Normal (status_error e).
Proof.
  intros Hin Hcat Hamount.
  destruct (extraction_reached _ _ _ Hin)
    as (update & c & u & t & pre & Hreq & Hc & Hu & Hs & Hcr & Hex & Hanswer & Hrun).
  destruct (handler_observations env request_json []) as (Hsent & Hcreated & _).
  rewrite Hsent, Hcreated, handler_run, Hrun.
  destruct (record_expense_unparseable env c u t parts pre d Hanswer Hcat Hamount)
    as (e & ->).
  cbn [fst snd]. rewrite !created_app, !sent_app, Hcr, Hs. cbn.
  repeat split. exists e. reflexivity.
Qed.

Lemma not_sentinel_category (d c : json) :
  category_is_error d = false -> Py.getitem d "Category" = ok c ->
  c <> JStr "ERROR".
Proof.
  unfold category_is_error. destruct d; cbn; try discriminate.
  destruct (Py.lookup "Category" kv) as [v|]; cbn; [|discriminate].
  intros H [= ->] ->. cbn in H. discriminate.
Qed.

(** C3, as the code has it. Every document passed to the create operation
    comes from an extraction result that is not the error sentinel: its
    category is the [Category] of that result, any value other than
    ["ERROR"], its description is the result's [Description], its amount is
    the value of [float] on the result's [Amount], whatever its sign, and
    it belongs to the user of the update. *)
Theorem created_record_mirrors_extraction
  (request_json : result json) (data : expense_data) :
  In data (created (snd (handle_telegram_webhook env request_json []))) ->
  exists parts d a update,
    In (parts, ok d)
       (extracted (snd (handle_telegram_webhook env request_json [])))
    /\ category_is_error d = false
    /\ Py.getitem d "Category" = ok (category data)
    /\ category data <> JStr "ERROR"
    /\ Py.getitem d "Description" = ok (description data)
    /\ Py.getitem d "Amount" = ok a
    /\ PyFloat.float a = ok (amount data)
    /\ request_json = ok update
    /\ user_of update = ok (telegram_user_id data).
Proof.
  intros Hin.
  destruct (handler_observations env request_json []) as (_ & Hcreated & Hextracted).
  rewrite Hcreated in Hin. rewrite Hextracted.
  destruct (delivery_cases env request_json [])
    as [(evs & Htr & Hnone & _ & _)
       | (update & c & u & t & parts & pre & Hreq & Hc & Hu & Hs & Hcr & Hex & Hrun)].
  - rewrite Htr in Hin. cbn [app] in Hin. rewrite Hnone in Hin. contradiction.
  - cbn [app] in Hrun. rewrite Hrun in *.
    destruct (record_expense_run env c u t parts pre) as (evs & Htr & Hone & _ & Hdoc).
    rewrite Htr, created_app, Hcr in Hin. cbn [app] in Hin.
    destruct (Hdoc data Hin) as (d & Hanswer & Hcat & Hcategory & Hdesc & (a & Ha & Hfloat) & Huser & _).
    exists parts, d, a, update.
    rewrite Htr, extracted_app, Hex, Hone, Hanswer. cbn [app].
    repeat split; try assumption.
    + left. reflexivity.
    + exact (not_sentinel_category d _ Hcat Hcategory).
    + rewrite Huser. exact Hu.
Qed.

End HandlerClaims.

Lemma error_sentinel_is_reported_not_persisted_witness :
  let d := Scenario.extraction_of "ERROR" "Failed to process input." "0.00" in
  let run := handle_telegram_webhook sentinel_world
               (ok (Scenario.text_update "220 pizza")) [] in
  In ([Raw (JStr "220 pizza")], ok d) (extracted (snd run))
  /\ category_is_error d = true
  /\ created (snd run) = []
  /\ exists update chat_id details failure,
       ok (Scenario.text_update "220 pizza") = ok update
       /\ chat_of update = ok chat_id
       /\ Py.get d "Description" (JStr "N/A") = ok details
       /\ sent (snd run) = [(chat_id, failure)]
       /\ failure = Messages.extraction_failed details
       /\ In (Str details) failure
       /\ forall description,
            details = JStr description ->
            Render.render failure
            = Some ("*Extraction Failed!* üò≠ " ++ nl
                    ++ "_Details_: " ++ description)%string.
Proof.
  intros d run.
  assert (H1 : In ([Raw (JStr "220 pizza")], ok d) (extracted (snd run))).
  { left. vm_compute. reflexivity. }
  assert (H2 : category_is_error d = true) by reflexivity.
  split; [exact H1|]. split; [exact H2|].
  exact (error_sentinel_is_reported_not_persisted sentinel_world _ _ _ H1 H2).
Defined.

Lemma separator_amount_unparseable :
  amount_unparseable (Scenario.extraction_of "Shopping" "Shoes" "1,250.00").
Proof. exists (JStr "1,250.00"), ValueError. split; reflexivity. Defined.

Lemma unparseable_amount_is_an_unhandled_fault_witness :
  let d := Scenario.extraction_of "Shopping" "Shoes" "1,250.00" in
  let run := handle_telegram_webhook separator_world
               (ok (Scenario.text_update "shoes 1,250")) [] in
  In ([Raw (JStr "shoes 1,250")], ok d) (extracted (snd run))
  /\ category_is_error d = false
  /\ amount_unparseable d
  /\ created (snd run) = []
  /\ sent (snd run) = []
  /\ exists e, fst run = Normal (status_error e).
Proof.
  intros d run.
  assert (H1 : In ([Raw (JStr "shoes 1,250")], ok d) (extracted (snd run))).
  { left. vm_compute. reflexivity. }
  assert (H2 : category_is_error d = false) by reflexivity.
  split; [exact H1|]. split; [exact H2|].
  split; [exact separator_amount_unparseable|].
  exact (unparseable_amount_is_an_unhandled_fault separator_world _ _ _
           H1 H2 separator_amount_unparseable).
Defined.

(** C2 as stated fails: the category is not the sentinel, [float] rejects
    the amount ["1,250.00"], and the user is sent nothing at all, so not
    the extraction-failure text either; the fault ends in the top-level
    handler. *)
Lemma unparseable_amount_sends_no_failure_message :
  let d := Scenario.extraction_of "Shopping" "Shoes" "1,250.00" in
  let run := handle_telegram_webhook separator_world
               (ok (Scenario.text_update "shoes 1,250")) [] in
  extracted (snd run) = [([Raw (JStr "shoes 1,250")], ok d)]
  /\ category_is_error d = false
  /\ PyFloat.float (JStr "1,250.00") = throw ValueError
  /\ sent (snd run) = []
  /\ (forall chat_id details,
        ~ In (chat_id, Messages.extraction_failed details) (sent (snd run)))
  /\ fst run = Normal (status_error ValueError).
Proof.
  vm_compute. repeat split. intros _ _ [].
Qed.

Lemma created_record_mirrors_extraction_witness :
  let run := handle_telegram_webhook pizza_world
               (ok (Scenario.text_update "220 pizza")) [] in
  In pizza_record (created (snd run))
  /\ exists parts d a update,
       In (parts, ok d) (extracted (snd run))
       /\ category_is_error d = false
       /\ Py.getitem d "Category" = ok (category pizza_record)
       /\ category pizza_record <> JStr "ERROR"
       /\ Py.getitem d "Description" = ok (description pizza_record)
       /\ Py.getitem d "Amount" = ok a
       /\ PyFloat.float a = ok (amount pizza_record)
       /\ ok (Scenario.text_update "220 pizza") = ok update
       /\ user_of update = ok (telegram_user_id pizza_record).
Proof.
  intros run.
  assert (H1 : In pizza_record (created (snd run))).
  { left. vm_compute. reflexivity. }
  split; [exact H1|].
  exact (created_record_mirrors_extraction pizza_world _ _ H1).
Defined.

(** C3 as stated fails: the document created here has a category outside
    the seven values and a negative amount. *)
Lemma created_record_outside_the_invariant :
  let run := handle_telegram_webhook refund_world
               (ok (Scenario.text_update "returned the shoes")) [] in
  exists data,
    created (snd run) = [data]
    /\ category data = JStr "Refund"
    /\ ~ In (category data) (List.map JStr CATEGORIES)
    /\ amount data = Finite (Qmake (-5) 1)
    /\ (Qmake (-5) 1 < 0)%Q.
Proof.
  eexists. split; [vm_compute; reflexivity|]. cbn [category amount].
  split; [reflexivity|]. split.
  - cbn. intuition discriminate.
  - split; reflexivity.
Qed.

(** ** Text messages *)

Section TextMessages.

Variable env : Env.

Lemma lower_length (s : string) :
  String.length (PyStr.lower s) = String.length s.
Proof.
  unfold PyStr.lower. induction s as [|c r IH]; simpl; congruence.
Qed.

(** A text longer than six characters is none of the four commands. *)
Lemma long_text_is_no_command (body : string) :
  (6 < String.length body)%nat ->
  String.eqb (PyStr.lower body) "/start" = false
  /\ existsb (String.eqb (PyStr.lower body)) ["/daily"; "/week"; "/month"]%string
     = false.
Proof.
  intros Hlen.
  assert (Hne : forall c, (String.length c <= 6)%nat ->
                          String.eqb (PyStr.lower body) c = false).
  { intros c Hc. apply String.eqb_neq. intros Heq.
    pose proof (lower_length body) as Hl. rewrite Heq in Hl. lia. }
  split; [apply Hne; simpl; lia|].
  cbn [existsb]. rewrite !Hne by (simpl; lia). reflexivity.
Qed.

(** The first half of the [try] block on a text message that is not one
    of the commands: the length check decides. *)
Lemma classify_text (update chat_id user_id : json) (body : string) :
  text_message update chat_id user_id body ->
  String.eqb (PyStr.lower body) "/start" = false ->
  existsb (String.eqb (PyStr.lower body)) ["/daily"; "/week"; "/month"]%string
    = false ->
  classify_update env (ok update) [] =
  if MAX_TEXT_CHARS <? PyStr.len body
  then bind (send_telegram_message env chat_id
               (Messages.text_too_long (PyStr.len body) MAX_TEXT_CHARS))
         (fun _ => return_ status_ok) [Now (clock env [])]
  else (Normal (chat_id, user_id,
                (Datetime.isoformat (clock env []) ++ "Z")%string,
                [Raw (JStr body)]),
        [Now (clock env [])]).
Proof.
  intros (message & Hm & Hc & Hu & Ht & Hp & Hd) Hstart Hcmd.
  unfold chat_of, user_of, and_then in *.
  destruct update; try discriminate Hm.
  cbn [Py.getitem] in *. unfold ok, throw in *.
  destruct (Py.lookup "message" kv) as [m|] eqn:Hkv; [|discriminate Hm].
  injection Hm as ->.
  cbn [Py.getitem] in *. unfold ok, throw in *.
  destruct (Py.lookup "chat" message) as [chat|] eqn:Hchat; [|discriminate Hc].
  destruct (Py.lookup "from" message) as [from|] eqn:Hfrom; [|discriminate Hu].
  unfold classify_update, expense_input, datetime_now.
  forward.
  destruct (PyStr.startswith body "/"); run_norm;
    (destruct (MAX_TEXT_CHARS <? PyStr.len body); run_norm;
     [destruct (send_telegram_message env _ _ _) as [[[]|?|?] ?]; reflexivity|];
     unfold prepare_parts; cbn [Py.truthy]; run_norm; reflexivity).
Qed.

(** A text of at most 500 characters that begins with the command prefix
    and is none of the four commands is extraction input like any other. *)
Lemma slash_text_is_extracted (update chat_id user_id : json) (body : string) :
  text_message update chat_id user_id body ->
  PyStr.startswith body "/" = true ->
  String.eqb (PyStr.lower body) "/start" = false ->
  existsb (String.eqb (PyStr.lower body)) ["/daily"; "/week"; "/month"]%string
    = false ->
  (String.length body <= 500)%nat ->
  extracted (snd (handle_telegram_webhook env (ok update) []))
    = [([Raw (JStr body)],
        generate_content env [Now (clock env [])] [Raw (JStr body)])].
Proof.
  intros Hupdate _ Hstart Hcmd Hlen.
  pose proof (classify_text _ _ _ _ Hupdate Hstart Hcmd) as Hrun.
  replace (MAX_TEXT_CHARS <? PyStr.len body) with false in Hrun
    by (symmetry; apply Z.ltb_ge; unfold PyStr.len, MAX_TEXT_CHARS; lia).
  destruct (handler_observations env (ok update) []) as (_ & _ & ->).
  rewrite try_block_run, Hrun.
  destruct (record_expense_run env chat_id user_id
              (Datetime.isoformat (clock env []) ++ "Z")%string
              [Raw (JStr body)] [Now (clock env [])])
    as (evs & -> & Hone & _).
  rewrite extracted_app, Hone. reflexivity.
Qed.

(** C9. A text body of exactly 500 characters is accepted: the handler
    makes one extraction call, and its only input is the text itself. A
    text body of 501 characters is rejected before any extraction: the
    only thing the handler does after reading the clock is to send the
    length-error text, which quotes [501] and [500]. *)
Theorem text_length_boundary
  (accepted rejected chat_id user_id : json) (short long : string) :
  text_message accepted chat_id user_id short ->
  String.length short = 500%nat ->
  text_message rejected chat_id user_id long ->
  String.length long = 501%nat ->
  extracted (snd (handle_telegram_webhook env (ok accepted) []))
    = [([Raw (JStr short)],
        generate_content env [Now (clock env [])] [Raw (JStr short)])]
  /\ extracted (snd (handle_telegram_webhook env (ok rejected) [])) = []
  /\ created (snd (handle_telegram_webhook env (ok rejected) [])) = []
  /\ sent (snd (handle_telegram_webhook env (ok rejected) []))
     = [(chat_id, Messages.text_too_long 501 500)]
  /\ exists intro middle outro,
       Render.render (Messages.text_too_long 501 500)
       = Some (intro ++ "501" ++ middle ++ "500" ++ outro)%string.
Proof.
  intros Hshort Hlen500 Hlong Hlen501.
  destruct (long_text_is_no_command short ltac:(lia)) as (Hs1 & Hs2).
  destruct (long_text_is_no_command long ltac:(lia)) as (Hl1 & Hl2).
  pose proof (classify_text _ _ _ _ Hshort Hs1 Hs2) as Hrun_short.
  pose proof (classify_text _ _ _ _ Hlong Hl1 Hl2) as Hrun_long.
  unfold PyStr.len in *. rewrite Hlen500 in Hrun_short. rewrite Hlen501 in Hrun_long.
  change (MAX_TEXT_CHARS <? Z.of_nat 500) with false in Hrun_short.
  change (MAX_TEXT_CHARS <? Z.of_nat 501) with true in Hrun_long.
  change (Z.of_nat 501) with 501 in Hrun_long.
  change MAX_TEXT_CHARS with 500 in Hrun_long.
  split.
  { destruct (handler_observations env (ok accepted) []) as (_ & _ & ->).
    rewrite try_block_run, Hrun_short.
    destruct (record_expense_run env chat_id user_id
                (Datetime.isoformat (clock env []) ++ "Z")%string
                [Raw (JStr short)] [Now (clock env [])])
      as (evs & -> & Hone & _).
    rewrite extracted_app, Hone. reflexivity. }
  destruct (handler_observations env (ok rejected) []) as (-> & -> & ->).
  rewrite try_block_run, Hrun_long.
  unfold bind, send_telegram_message. cbv zeta.
  split; [|split; [|split]].
  - destruct (requests_post env _ _ _); reflexivity.
  - destruct (requests_post env _ _ _); reflexivity.
  - destruct (requests_post env _ _ _); reflexivity.
  - unfold Messages.text_too_long.
    match goal with
    | |- context [[Lit ?a; _; Lit ?b; _; Lit ?c]] => exists a, b, c
    end.
    vm_compute. reflexivity.
Qed.

End TextMessages.

Lemma text_length_boundary_witness :
  let env := Scenario.world (throw ValueError) (throw ValueError) in
  let accepted := Scenario.text_update (filler 500) in
  let rejected := Scenario.text_update (filler 501) in
  text_message accepted (JInt 1) (JInt 2) (filler 500)
  /\ String.length (filler 500) = 500%nat
  /\ text_message rejected (JInt 1) (JInt 2) (filler 501)
  /\ String.length (filler 501) = 501%nat
  /\ extracted (snd (handle_telegram_webhook env (ok accepted) []))
     = [([Raw (JStr (filler 500))],
         generate_content env [Now (clock env [])] [Raw (JStr (filler 500))])]
  /\ extracted (snd (handle_telegram_webhook env (ok rejected) [])) = []
  /\ created (snd (handle_telegram_webhook env (ok rejected) [])) = []
  /\ sent (snd (handle_telegram_webhook env (ok rejected) []))
     = [(JInt 1, Messages.text_too_long 501 500)]
  /\ exists intro middle outro,
       Render.render (Messages.text_too_long 501 500)
       = Some (intro ++ "501" ++ middle ++ "500" ++ outro)%string.
Proof.
  intros env accepted rejected.
  assert (H1 : text_message accepted (JInt 1) (JInt 2) (filler 500)).
  { eexists. repeat split; reflexivity. }
  assert (H2 : String.length (filler 500) = 500%nat) by (vm_compute; reflexivity).
  assert (H3 : text_message rejected (JInt 1) (JInt 2) (filler 501)).
  { eexists. repeat split; reflexivity. }
  assert (H4 : String.length (filler 501) = 501%nat) by (vm_compute; reflexivity).
  split; [exact H1|]. split; [exact H2|]. split; [exact H3|]. split; [exact H4|].
  exact (text_length_boundary env accepted rejected (JInt 1) (JInt 2)
           (filler 500) (filler 501) H1 H2 H3 H4).
Defined.

(** ** Slash-prefixed text that is no command *)

(** C6, the failing delivery. The text ["/help"] begins with the command
    prefix and is none of [/start], [/daily], [/week], [/month]: the
    command block is left without a reply and the text goes through the
    plain-text branch. Whatever the extraction service answers, it is
    called with ["/help"] as its input; and when it answers with an
    expense, the document is created. *)
Theorem unknown_command_reaches_extraction :
  (forall answer stored : result json,
     extracted
       (snd (handle_telegram_webhook (Scenario.world answer stored)
               (ok (Scenario.text_update "/help")) []))
     = [([Raw (JStr "/help")], answer)])
  /\ created
       (snd (handle_telegram_webhook pizza_world
               (ok (Scenario.text_update "/help")) []))
     = [pizza_record].
Proof.
  split; [|vm_compute; reflexivity].
  intros answer stored.
  set (env := Scenario.world answer stored).
  destruct (handler_observations env (ok (Scenario.text_update "/help")) [])
    as (_ & _ & ->).
  rewrite try_block_run.
  destruct (classify_update env (ok (Scenario.text_update "/help")) [])
    as [o tr'] eqn:Hclassify.
  vm_compute in Hclassify. injection Hclassify as <- <-.
  match goal with
  | |- context [record_expense env ?c ?u ?t ?p ?pre] =>
      destruct (record_expense_run env c u t p pre) as (evs & -> & Hone & _)
  end.
  rewrite extracted_app, Hone. reflexivity.
Qed.

(** ** Attachments without a declared size *)

Section Attachments.

Variable env : Env.

(** With no declared size the check compares 0 with the limit; the first
    half of the [try] block goes on to the download with the file handle
    and the caption. *)
Lemma classify_attachment (update chat_id user_id file_id caption : json) :
  attachment_without_size update chat_id user_id file_id caption ->
  classify_update env (ok update) [] =
  bind (prepare_parts env chat_id [] file_id caption)
    (fun parts =>
       ret (chat_id, user_id,
            (Datetime.isoformat (clock env []) ++ "Z")%string, parts))
    [Now (clock env [])].
Proof.
  intros (message & file_data & Hm & Hc & Hu & Ht & Hfile & Hsize & Hid & Hcap).
  unfold chat_of, user_of, and_then in *.
  destruct update; try discriminate Hm.
  cbn [Py.getitem] in *. unfold ok, throw in *.
  destruct (Py.lookup "message" kv) as [m|] eqn:Hkv; [|discriminate Hm].
  injection Hm as ->.
  cbn [Py.getitem] in *. unfold ok, throw in *.
  destruct (Py.lookup "chat" message) as [chat|] eqn:Hchat; [|discriminate Hc].
  destruct (Py.lookup "from" message) as [from|] eqn:Hfrom; [|discriminate Hu].
  unfold classify_update, expense_input, attachment, datetime_now.
  cbn [Py.get] in Hcap. unfold ok in Hcap.
  destruct Hfile as [(photos & Hphoto & Hlast) | (Hphoto & Hdoc)]; forward;
    change (Py.gt (JInt 0) MAX_FILE_SIZE_BYTES) with (@inr exn bool false);
    run_norm;
    (destruct (Py.lookup "caption" message); injection Hcap as <-; reflexivity).
Qed.

(** With a file handle the download stage starts by asking Telegram for
    the file path, and whatever it sends is not the size rejection. *)
Lemma prepare_parts_downloads (chat_id : json) (parts : list part)
  (file_id caption : json) (tr : trace) :
  Py.truthy file_id = true ->
  exists answer rest,
    snd (prepare_parts env chat_id parts file_id caption tr)
    = tr ++ Get (TELEGRAM_API_URL env ++ [Lit "/getFile?file_id="; Str file_id])
              answer :: rest
    /\ forall c t, In (c, t) (sent rest) -> ~ size_rejection t.
Proof.
  intros Htruthy.
  unfold prepare_parts, download_telegram_file, http_get, raise_for_status,
    send_telegram_message.
  rewrite Htruthy. run_norm.
  repeat run_step.
  all: rewrite <- ?app_assoc; cbn [app]; eexists _, _; (split; [reflexivity|]).
  all: cbn; intros c t Hin (size & limit & ->).
  all: no_size_rejection Hin.
Qed.

(** The run of the [try] block on such an update, event by event. *)
Lemma attachment_run (update chat_id user_id file_id caption : json) :
  attachment_without_size update chat_id user_id file_id caption ->
  Py.truthy file_id = true ->
  exists answer rest,
    snd (webhook_try_block env (ok update) [])
    = Now (clock env [])
      :: Get (TELEGRAM_API_URL env ++ [Lit "/getFile?file_id="; Str file_id]) answer
      :: rest
    /\ forall c t, In (c, t) (sent rest) -> ~ size_rejection t.
Proof.
  intros Hupdate Htruthy.
  rewrite try_block_run, (classify_attachment _ _ _ _ _ Hupdate).
  destruct (prepare_parts_downloads chat_id [] file_id caption
              [Now (clock env [])] Htruthy) as (answer & rest & Htr & Hrest).
  unfold bind, ret.
  destruct (prepare_parts env chat_id [] file_id caption [Now (clock env [])])
    as [[parts|v|e] tr1]; cbn [snd] in *; subst tr1;
    try (exists answer, rest; split; [reflexivity | exact Hrest]).
  destruct (record_expense_no_size_rejection env chat_id user_id
              (Datetime.isoformat (clock env []) ++ "Z")%string parts
              ([Now (clock env [])] ++ Get (TELEGRAM_API_URL env
                 ++ [Lit "/getFile?file_id="; Str file_id]) answer :: rest))
    as (evs & -> & Hevs).
  exists answer, (rest ++ evs). split; [reflexivity|].
  intros c t Hin. rewrite sent_app in Hin.
  apply in_app_or in Hin as [Hin | Hin]; [eapply Hrest | eapply Hevs]; exact Hin.
Qed.

(** C10. If the photo or document of an inbound message declares no
    [file_size], its size counts as 0, which is not above the limit: for
    every such message with a non-empty file handle the handler goes on to
    the download stage with the handle and the caption, its first call
    after reading the clock asks Telegram for the file, and no text it
    sends is the size rejection. When the download succeeds and there is
    no caption, the extraction is called with the image and the default
    prompt. *)
Theorem undeclared_size_is_never_rejected
  (update chat_id user_id file_id caption : json) :
  attachment_without_size update chat_id user_id file_id caption ->
  Py.truthy file_id = true ->
  Py.gt (JInt 0) MAX_FILE_SIZE_BYTES = ok false
  /\ classify_update env (ok update) []
     = bind (prepare_parts env chat_id [] file_id caption)
         (fun parts =>
            ret (chat_id, user_id,
                 (Datetime.isoformat (clock env []) ++ "Z")%string, parts))
         [Now (clock env [])]
  /\ (exists answer rest,
        snd (handle_telegram_webhook env (ok update) [])
        = Now (clock env [])
          :: Get (TELEGRAM_API_URL env ++ [Lit "/getFile?file_id="; Str file_id])
               answer
          :: rest)
  /\ (forall c t,
        In (c, t) (sent (snd (handle_telegram_webhook env (ok update) []))) ->
        ~ size_rejection t)
  /\ (forall image tr1,
        download_telegram_file env file_id [Now (clock env [])]
          = (Normal image, tr1) ->
        Py.truthy caption = false ->
        extracted (snd (handle_telegram_webhook env (ok update) []))
        = [([FromBytes image "image/jpeg"; Raw (JStr Messages.default_prompt)],
            generate_content env tr1
              [FromBytes image "image/jpeg"; Raw (JStr Messages.default_prompt)])]).
Proof.
  intros Hupdate Htruthy.
  split; [reflexivity|].
  split; [exact (classify_attachment _ _ _ _ _ Hupdate)|].
  destruct (attachment_run _ _ _ _ _ Hupdate Htruthy) as (answer & rest & Htr & Hrest).
  split; [|split].
  - rewrite handler_run.
    destruct (webhook_try_block env (ok update) []) as [[[]|v|e] tr'];
      cbn [snd] in *; subst tr'; eexists _, _; reflexivity.
  - destruct (handler_observations env (ok update) []) as (-> & _ & _).
    rewrite Htr. intros c t Hin. cbn in Hin. eapply Hrest, Hin.
  - intros image tr1 Hdownload Hcaption.
    destruct (handler_observations env (ok update) []) as (_ & _ & ->).
    rewrite try_block_run, (classify_attachment _ _ _ _ _ Hupdate).
    unfold bind at 1, prepare_parts, try_, bind at 1.
    rewrite Htruthy, Hdownload, Hcaption. cbn [ret app].
    destruct (guarded_download env file_id [Now (clock env [])])
      as (evs1 & Hevs1 & _ & Hnone & _).
    rewrite Hdownload in Hevs1. cbn [snd] in Hevs1. subst tr1.
    match goal with
    | |- context [record_expense env ?c ?u ?t ?p ?pre] =>
        destruct (record_expense_run env c u t p pre) as (evs & -> & Hone & _)
    end.
    rewrite !extracted_app, Hnone, Hone. reflexivity.
Qed.

End Attachments.

Lemma photo_update_has_no_size :
  attachment_without_size photo_update (JInt 1) (JInt 2) (JStr "large") JNull.
Proof.
  exists [("chat"%string, JObj [("id"%string, JInt 1)]);
          ("from"%string, JObj [("id"%string, JInt 2)]);
          ("photo"%string,
           JArr [JObj [("file_id"%string, JStr "small");
                       ("file_size"%string, JInt 1000)];
                 JObj [("file_id"%string, JStr "large")]])],
         [("file_id"%string, JStr "large")].
  repeat split; try reflexivity.
  left. eexists. split; reflexivity.
Defined.

Lemma undeclared_size_is_never_rejected_witness :
  attachment_without_size photo_update (JInt 1) (JInt 2) (JStr "large") JNull
  /\ Py.truthy (JStr "large") = true
  /\ Py.gt (JInt 0) MAX_FILE_SIZE_BYTES = ok false
  /\ classify_update photo_world (ok photo_update) []
     = bind (prepare_parts photo_world (JInt 1) [] (JStr "large") JNull)
         (fun parts =>
            ret (JInt 1, JInt 2,
                 (Datetime.isoformat (clock photo_world []) ++ "Z")%string, parts))
         [Now (clock photo_world [])]
  /\ (exists answer rest,
        snd (handle_telegram_webhook photo_world (ok photo_update) [])
        = Now (clock photo_world [])
          :: Get (TELEGRAM_API_URL photo_world
                  ++ [Lit "/getFile?file_id="; Str (JStr "large")]) answer
          :: rest)
  /\ (forall c t,
        In (c, t) (sent (snd (handle_telegram_webhook photo_world (ok photo_update) []))) ->
        ~ size_rejection t)
  /\ (forall image tr1,
        download_telegram_file photo_world (JStr "large") [Now (clock photo_world [])]
          = (Normal image, tr1) ->
        Py.truthy JNull = false ->
        extracted (snd (handle_telegram_webhook photo_world (ok photo_update) []))
        = [([FromBytes image "image/jpeg"; Raw (JStr Messages.default_prompt)],
            generate_content photo_world tr1
              [FromBytes image "image/jpeg"; Raw (JStr Messages.default_prompt)])]).
Proof.
  split; [exact photo_update_has_no_size|]. split; [reflexivity|].
  exact (undeclared_size_is_never_rejected photo_world photo_update
           (JInt 1) (JInt 2) (JStr "large") JNull
           photo_update_has_no_size eq_refl).
Defined.

(** The same delivery, run: the image and the default prompt are
    extracted and the expense is stored and confirmed. *)
Example photo_without_size_is_recorded :
  let run := handle_telegram_webhook photo_world (ok photo_update) [] in
  fst run = Normal status_ok
  /\ List.map fst (extracted (snd run))
     = [[FromBytes [Byte.xff; Byte.xd8; Byte.xff] "image/jpeg";
         Raw (JStr Messages.default_prompt)]]
  /\ created (snd run) = [pizza_record]
  /\ sent (snd run) = [(JInt 1, Messages.expense_saved pizza_record)].
Proof. vm_compute. repeat split. Qed.

(** * Further properties *)

(** The properties below are not among the numbered claims; each is
    read off the code. *)

(** Membership in a list that is written out. *)
Ltac in_list := repeat first [left; reflexivity | right].

(** ** The events of a computation *)

Section Emission.

Variable env : Env.
Variable Q : event -> Prop.

Lemma emits_ret {A : Type} (a : A) : emits Q (ret a).
Proof. intros tr. exists []. rewrite app_nil_r. split; [reflexivity | constructor]. Qed.

Lemma emits_raise {A : Type} (e : exn) : emits Q (@raise A e).
Proof. intros tr. exists []. rewrite app_nil_r. split; [reflexivity | constructor]. Qed.

Lemma emits_return {A : Type} (v : response) : emits Q (@return_ A v).
Proof. intros tr. exists []. rewrite app_nil_r. split; [reflexivity | constructor]. Qed.

Lemma emits_lift {A : Type} (r : result A) : emits Q (lift r).
Proof. destruct r; [apply emits_raise | apply emits_ret]. Qed.

Lemma emits_bind {A B : Type} (m : M A) (k : A -> M B) :
  emits Q m -> (forall a, emits Q (k a)) -> emits Q (bind m k).
Proof.
  intros Hm Hk tr. destruct (Hm tr) as (evs1 & H1 & H2).
  unfold bind. destruct (m tr) as [[a|v|e] tr1]; cbn [snd] in *; subst tr1.
  - destruct (Hk a (tr ++ evs1)) as (evs2 & K1 & K2).
    exists (evs1 ++ evs2). rewrite K1, app_assoc. split; [reflexivity|].
    apply Forall_app. split; assumption.
  - exists evs1. split; [reflexivity | assumption].
  - exists evs1. split; [reflexivity | assumption].
Qed.

Lemma emits_try {A : Type} (body : M A) (handler : exn -> M A) :
  emits Q body -> (forall e, emits Q (handler e)) -> emits Q (try_ body handler).
Proof.
  intros Hm Hk tr. destruct (Hm tr) as (evs1 & H1 & H2).
  unfold try_. destruct (body tr) as [[a|v|e] tr1]; cbn [snd] in *; subst tr1.
  - exists evs1. split; [reflexivity | assumption].
  - exists evs1. split; [reflexivity | assumption].
  - destruct (Hk e (tr ++ evs1)) as (evs2 & K1 & K2).
    exists (evs1 ++ evs2). rewrite K1, app_assoc. split; [reflexivity|].
    apply Forall_app. split; assumption.
Qed.

Lemma emits_def (body : M Empty_set) : emits Q body -> emits Q (def_ body).
Proof.
  intros Hm tr. destruct (Hm tr) as (evs & H1 & H2).
  exists evs. unfold def_.
  destruct (body tr) as [[[]|v|e] tr1]; cbn [snd] in *; subst; split;
    assumption || reflexivity.
Qed.

Lemma emits_now : (forall dt, Q (Now dt)) -> emits Q (datetime_now env).
Proof.
  intros H tr. eexists [_]. split; [reflexivity|]. constructor; [apply H | constructor].
Qed.

Lemma emits_log (msg : text) : Q (LogError msg) -> emits Q (logging_error msg).
Proof.
  intros H tr. eexists [_]. split; [reflexivity|]. constructor; [apply H | constructor].
Qed.

Lemma emits_http_get (url : text) :
  (forall answer, Q (Get url answer)) -> emits Q (http_get env url).
Proof.
  intros H tr. eexists [_]. split; [reflexivity|]. constructor; [apply H | constructor].
Qed.

Lemma emits_send (chat_id : json) (body : text) :
  (forall raised,
     Q (Post (TELEGRAM_API_URL env ++ [Lit "/sendMessage"])
          {| chat_id_ := chat_id; text_ := body; parse_mode := "Markdown" |} raised)) ->
  emits Q (send_telegram_message env chat_id body).
Proof.
  intros H tr. eexists [_]. split; [reflexivity|]. constructor; [apply H | constructor].
Qed.

Lemma emits_extract (parts : list part) :
  (forall answer, Q (GenerateContent parts answer)) ->
  emits Q (extract_expense_details env parts).
Proof.
  intros H tr. eexists [_]. split; [reflexivity|]. constructor; [apply H | constructor].
Qed.

Lemma emits_id_unique : emits Q (appwrite_id_unique env).
Proof. intros tr. exists []. rewrite app_nil_r. split; [reflexivity | constructor]. Qed.

Lemma emits_create (document_id : string) (data : expense_data)
  (permissions : list text) :
  (forall raised,
     Q (CreateDocument (APPWRITE_DATABASE_ID env) (APPWRITE_COLLECTION_ID env)
          document_id data permissions raised)) ->
  emits Q (appwrite_create_document env document_id data permissions).
Proof.
  intros H tr. eexists [_]. split; [reflexivity|]. constructor; [apply H | constructor].
Qed.

Lemma emits_list (queries : list query) :
  (forall answer,
     Q (ListDocuments (APPWRITE_DATABASE_ID env) (APPWRITE_COLLECTION_ID env)
          queries answer)) ->
  emits Q (appwrite_list_documents env queries).
Proof.
  intros H tr. eexists [_]. split; [reflexivity|]. constructor; [apply H | constructor].
Qed.

End Emission.

(** Walking through a computation, leaving the conditions on its events. *)
Ltac emit_step :=
  match goal with
  | |- emits _ (bind _ _) => apply emits_bind; [ | intro]
  | |- emits _ (try_ _ _) => apply emits_try; [ | intro]
  | |- emits _ (def_ _) => apply emits_def
  | |- emits _ (ret _) => apply emits_ret
  | |- emits _ (lift _) => apply emits_lift
  | |- emits _ (raise _) => apply emits_raise
  | |- emits _ (return_ _) => apply emits_return
  | |- emits _ (datetime_now _) => apply emits_now; intros
  | |- emits _ (logging_error _ _) => apply emits_log
  | |- emits _ (http_get _ _) => apply emits_http_get; intros
  | |- emits _ (send_telegram_message _ _ _) => apply emits_send; intros
  | |- emits _ (extract_expense_details _ _) => apply emits_extract; intros
  | |- emits _ (appwrite_id_unique _) => apply emits_id_unique
  | |- emits _ (appwrite_create_document _ _ _ _) => apply emits_create; intros
  | |- emits _ (appwrite_list_documents _ _) => apply emits_list; intros
  | |- emits _ (if ?b then _ else _) => destruct b
  | |- emits _ (match ?x with _ => _ end) => destruct x
  end.

(** The events of a computation that has the chat and the user. *)
Ltac addressing := repeat emit_step; try exact I; try (cbn; auto; fail).

Section Addressing.

Variable env : Env.
Variables chat_id user_id : json.

Lemma addressed_time_range (command : string) :
  emits (addressed env chat_id user_id) (get_query_time_range env command).
Proof.
  unfold get_query_time_range, get_query_time_range_daily. addressing.
Qed.

Lemma addressed_report (command : string) :
  emits (addressed env chat_id user_id) (generate_report env chat_id user_id command).
Proof.
  unfold generate_report. apply emits_def.
  apply emits_bind; [apply addressed_time_range|].
  intros [start_time end_time]. addressing.
  cbn. exists (start_time, end_time). reflexivity.
Qed.

Lemma addressed_download (file_id : json) :
  emits (addressed env chat_id user_id) (download_telegram_file env file_id).
Proof. unfold download_telegram_file, raise_for_status. addressing. Qed.

Lemma addressed_attachment (message file_data : json) :
  emits (addressed env chat_id user_id) (attachment env chat_id message file_data).
Proof. unfold attachment. addressing. Qed.

Lemma addressed_expense_input (message : json) :
  emits (addressed env chat_id user_id) (expense_input env chat_id message).
Proof.
  unfold expense_input. addressing; apply addressed_attachment.
Qed.

Lemma addressed_prepare_parts (parts : list part) (file_id caption : json) :
  emits (addressed env chat_id user_id)
    (prepare_parts env chat_id parts file_id caption).
Proof.
  unfold prepare_parts. addressing. apply addressed_download.
Qed.

Lemma addressed_record_expense (current_time : string) (parts : list part) :
  emits (addressed env chat_id user_id)
    (record_expense env chat_id user_id current_time parts).
Proof. unfold record_expense. addressing. Qed.

End Addressing.

(** ** The addressees of a delivery *)

Lemma bind_lift {A B : Type} (r : result A) (k : A -> M B) (tr : trace) :
  bind (lift r) k tr
  = match r with inl e => (Raised e, tr) | inr a => k a tr end.
Proof. destruct r; reflexivity. Qed.

Section Deliveries.

Variable env : Env.

(** The events of the first half of the [try] block: there are none
    before the chat and the user of the update are known. *)
Lemma classify_addressed (request_json : result json) (tr : trace) :
  exists evs,
    snd (classify_update env request_json tr) = tr ++ evs
    /\ (evs = []
        \/ exists update chat_id user_id,
             request_json = ok update
             /\ chat_of update = ok chat_id
             /\ user_of update = ok user_id
             /\ Forall (addressed env chat_id user_id) evs).
Proof.
  unfold classify_update.
  assert (Hnone : forall o : outcome (json * json * string * list part),
            exists evs, snd (o, tr) = tr ++ evs
              /\ (evs = []
                  \/ exists update chat_id user_id,
                       request_json = ok update
                       /\ chat_of update = ok chat_id
                       /\ user_of update = ok user_id
                       /\ Forall (addressed env chat_id user_id) evs)).
  { intros o. exists []. rewrite app_nil_r. split; [reflexivity | left; reflexivity]. }
  rewrite bind_lift. destruct request_json as [e|update]; [apply Hnone|].
  rewrite bind_lift. destruct (Py.contains "message" update) as [e|[|]]; [apply Hnone| |apply Hnone].
  cbn [negb]. unfold bind at 1, ret at 1.
  rewrite bind_lift. destruct (Py.getitem update "message") as [e|message] eqn:Hm; [apply Hnone|].
  rewrite bind_lift. destruct (Py.getitem message "chat") as [e|chat] eqn:Hchat; [apply Hnone|].
  rewrite bind_lift. destruct (Py.getitem chat "id") as [e|c] eqn:Hc; [apply Hnone|].
  rewrite bind_lift. destruct (Py.getitem message "from") as [e|from] eqn:Hfrom; [apply Hnone|].
  rewrite bind_lift. destruct (Py.getitem from "id") as [e|u] eqn:Hu; [apply Hnone|].
  clear Hnone.
  match goal with
  | |- exists evs, snd (?m tr) = _ /\ _ =>
      assert (H : emits (addressed env c u) m)
  end.
  { addressing;
      first [ apply addressed_report | apply addressed_expense_input
            | apply addressed_prepare_parts ]. }
  destruct (H tr) as (evs & Htr & Hevs).
  exists evs. split; [exact Htr|]. right.
  exists update, c, u. unfold chat_of, user_of, and_then.
  rewrite Hm, Hchat, Hfrom. auto.
Qed.

(** The events of a delivery: none but the log entry of the top-level
    handler when the update names no chat or no user; otherwise the
    messages go to that chat, the documents belong to that user, and the
    store is queried for that user. *)
Lemma delivery_addressed (request_json : result json) (tr : trace) :
  exists evs,
    snd (handle_telegram_webhook env request_json tr) = tr ++ evs
    /\ ((exists e, evs = [LogError (Messages.unexpected_error e)])
        \/ evs = []
        \/ exists update chat_id user_id,
             request_json = ok update
             /\ chat_of update = ok chat_id
             /\ user_of update = ok user_id
             /\ Forall (addressed env chat_id user_id) evs).
Proof.
  rewrite handler_run, try_block_run.
  destruct (classify_addressed request_json tr) as (evs & Htr & Hevs).
  destruct (classify_update env request_json tr)
    as [[[[[c u] t] p]|v|e] tr'] eqn:Hrun; cbn [snd] in Htr; subst tr'.
  - destruct (classify_ids env request_json tr c u t p) as (update & Hreq & Hc & Hu).
    { rewrite Hrun. reflexivity. }
    destruct (addressed_record_expense env c u t p (tr ++ evs)) as (evs2 & Htr2 & Hevs2).
    assert (Hall : Forall (addressed env c u) evs).
    { destruct Hevs as [-> | (update' & c' & u' & Hreq' & Hc' & Hu' & Hall)];
        [constructor|].
      rewrite Hreq in Hreq'. injection Hreq' as <-.
      rewrite Hc in Hc'. rewrite Hu in Hu'.
      injection Hc' as <-. injection Hu' as <-. exact Hall. }
    destruct (record_expense env c u t p (tr ++ evs)) as [[[]|v|e] tr2];
      cbn [snd] in Htr2; subst tr2.
    + exists (evs ++ evs2). rewrite app_assoc. split; [reflexivity|].
      right; right. exists update, c, u. repeat split; try assumption.
      apply Forall_app; split; assumption.
    + exists (evs ++ evs2). rewrite app_assoc. split; [reflexivity|].
      right; right. exists update, c, u. repeat split; try assumption.
      apply Forall_app; split; assumption.
    + exists ((evs ++ evs2) ++ [LogError (Messages.unexpected_error e)]).
      rewrite !app_assoc. split; [reflexivity|].
      right; right. exists update, c, u. repeat split; try assumption.
      repeat (apply Forall_app; split); try assumption.
      constructor; [exact I | constructor].
  - exists evs. split; [reflexivity|].
    destruct Hevs as [-> | H]; [right; left; reflexivity | right; right; exact H].
  - exists (evs ++ [LogError (Messages.unexpected_error e)]).
    rewrite app_assoc. split; [reflexivity|].
    destruct Hevs as [-> | (update & c & u & Hreq & Hc & Hu & Hall)].
    + left. exists e. reflexivity.
    + right; right. exists update, c, u. repeat split; try assumption.
      apply Forall_app; split; [assumption|].
      constructor; [exact I | constructor].
Qed.

End Deliveries.

Section Addressees.

Variable env : Env.

(** An event of a delivery other than the log entry comes with the chat
    and the user of the update. *)
Lemma delivery_event (request_json : result json) (ev : event) :
  In ev (snd (handle_telegram_webhook env request_json [])) ->
  (exists msg, ev = LogError msg)
  \/ exists update chat_id user_id,
       request_json = ok update
       /\ chat_of update = ok chat_id
       /\ user_of update = ok user_id
       /\ addressed env chat_id user_id ev.
Proof.
  intros Hin.
  destruct (delivery_addressed env request_json [])
    as (evs & Htr & [(e & ->) | [-> | (update & c & u & Hreq & Hc & Hu & Hall)]]);
    rewrite Htr in Hin; cbn [app] in Hin.
  - destruct Hin as [<- | []]. left. eexists. reflexivity.
  - destruct Hin.
  - right. exists update, c, u. repeat split; try assumption.
    rewrite Forall_forall in Hall. apply Hall, Hin.
Qed.

(** X1. Whatever the handler posts goes to the chat the update came from,
    through the [sendMessage] method of the bot, as Markdown. *)
Theorem replies_go_to_the_sender
  (request_json : result json) (url : text) (data : payload) (raised : option exn) :
  In (Post url data raised) (snd (handle_telegram_webhook env request_json [])) ->
  url = TELEGRAM_API_URL env ++ [Lit "/sendMessage"]
  /\ parse_mode data = "Markdown"%string
  /\ exists update,
       request_json = ok update /\ chat_of update = ok (chat_id_ data).
Proof.
  intros Hin.
  destruct (delivery_event _ _ Hin)
    as [(msg & H) | (update & c & u & Hreq & Hc & _ & Hurl & Hchat & Hmode)];
    [discriminate H|].
  split; [exact Hurl|]. split; [exact Hmode|].
  exists update. rewrite Hchat. split; assumption.
Qed.

(** X3. Whatever query the handler sends to the store asks for documents of
    the user the update came from, within one range of creation times,
    and for at most 20 of them. *)
Theorem report_query_is_scoped_to_the_sender
  (request_json : result json) (database_id collection_id : json)
  (queries : list query) (answer : result json) :
  In (ListDocuments database_id collection_id queries answer)
     (snd (handle_telegram_webhook env request_json [])) ->
  exists update user_id start_time end_time,
    request_json = ok update
    /\ user_of update = ok user_id
    /\ queries = [Equal "telegram_user_id" user_id;
                  GreaterThanEqual "created_at" start_time;
                  LessThanEqual "created_at" end_time;
                  Limit 20].
Proof.
  intros Hin.
  destruct (delivery_event _ _ Hin)
    as [(msg & H) | (update & c & u & Hreq & _ & Hu & ([s e] & Hq))];
    [discriminate H|].
  exists update, u, s, e. repeat split; assumption.
Qed.

End Addressees.

Lemma replies_go_to_the_sender_witness :
  let request := ok (Scenario.text_update "220 pizza") in
  let run := handle_telegram_webhook pizza_world request [] in
  let url := TELEGRAM_API_URL pizza_world ++ [Lit "/sendMessage"] in
  let data := {| chat_id_ := JInt 1;
                 text_ := Messages.expense_saved pizza_record;
                 parse_mode := "Markdown" |} in
  In (Post url data None) (snd run)
  /\ url = TELEGRAM_API_URL pizza_world ++ [Lit "/sendMessage"]
  /\ parse_mode data = "Markdown"%string
  /\ exists update, request = ok update /\ chat_of update = ok (chat_id_ data).
Proof.
  intros request run url data.
  assert (H : In (Post url data None) (snd run)) by (vm_compute; in_list).
  split; [exact H|].
  exact (replies_go_to_the_sender pizza_world request url data None H).
Defined.

Lemma report_query_is_scoped_to_the_sender_witness :
  let request := ok (Scenario.text_update "/daily") in
  let run := handle_telegram_webhook report_world request [] in
  let queries :=
    report_queries (JInt 2)
      ("2025-11-05T00:00:00Z", "2025-11-05T23:59:59.999999Z")%string in
  let answer := ok (Scenario.documents week_of_spending) in
  In (ListDocuments (JStr "default") (JStr "expenses") queries answer) (snd run)
  /\ exists update user_id start_time end_time,
       request = ok update
       /\ user_of update = ok user_id
       /\ queries = [Equal "telegram_user_id" user_id;
                     GreaterThanEqual "created_at" start_time;
                     LessThanEqual "created_at" end_time;
                     Limit 20].
Proof.
  intros request run queries answer.
  assert (H : In (ListDocuments (JStr "default") (JStr "expenses") queries answer)
                (snd run)) by (vm_compute; in_list).
  split; [exact H|].
  exact (report_query_is_scoped_to_the_sender report_world request _ _ _ _ H).
Defined.

(** ** The runs of the second half of the [try] block *)

Section Shape.

Variable env : Env.

(** The runs of the second half of the [try] block, event by event. *)
Lemma record_expense_shape (chat_id user_id : json) (current_time : string)
  (parts : list part) (pre : trace) :
  let run := record_expense env chat_id user_id current_time parts pre in
  let post body raised :=
    Post (TELEGRAM_API_URL env ++ [Lit "/sendMessage"])
      {| chat_id_ := chat_id; text_ := body; parse_mode := "Markdown" |} raised in
  let create d data raised :=
    CreateDocument (APPWRITE_DATABASE_ID env) (APPWRITE_COLLECTION_ID env)
      (id_unique env (pre ++ [GenerateContent parts (ok d)])) data
      [permission "read" user_id; permission "write" user_id] raised in
  (exists e,
      fst run = Raised e
      /\ snd run = pre ++ [GenerateContent parts (generate_content env pre parts)])
  \/ (exists d details raised,
        generate_content env pre parts = ok d
        /\ category_is_error d = true
        /\ fst run = match raised with None => Returned status_ok | Some e => Raised e end
        /\ snd run = pre ++ [GenerateContent parts (ok d);
                             post (Messages.extraction_failed details) raised])
  \/ (exists d data e,
        generate_content env pre parts = ok d
        /\ fst run = Raised e
        /\ snd run = pre ++ [GenerateContent parts (ok d); create d data (Some e)])
  \/ (exists d data raised,
        generate_content env pre parts = ok d
        /\ fst run = match raised with None => Normal tt | Some e => Raised e end
        /\ snd run = pre ++ [GenerateContent parts (ok d); create d data None;
                             post (Messages.expense_saved data) raised]).
Proof.
  cbv zeta.
  unfold record_expense, extract_expense_details, appwrite_create_document,
    send_telegram_message, category_is_error.
  run_norm.
  repeat run_step; rewrite <- ?app_assoc; cbn [app].
  all: try (left; eexists; split; reflexivity).
  all: try (right; left; eexists _, _, _; split; [reflexivity|];
            split;
              [match goal with
               | H : Py.get _ "Category" _ = _ |- _ => rewrite H; assumption
               end|];
            match goal with
            | H : requests_post _ _ _ _ = ?r |- _ =>
                instantiate (1 := r); split; reflexivity
            end).
  all: try (right; right; left; eexists _, _, _; split; [reflexivity|];
            split; reflexivity).
  all: try (right; right; right; eexists _, _, _; split; [reflexivity|];
            match goal with
            | H : requests_post _ _ _ _ = ?r |- _ =>
                instantiate (1 := r); split; reflexivity
            end).
Qed.

End Shape.

(** ** Confirmations *)

Lemma unconfirming_sent (evs : trace) (c : json) (d : expense_data) :
  Forall unconfirming evs -> ~ In (c, Messages.expense_saved d) (sent evs).
Proof.
  induction 1 as [|ev evs Hev _ IH]; [intros []|].
  destruct ev; cbn; try exact IH.
  intros [[= _ H] | H]; [exact (Hev d H) | exact (IH H)].
Qed.

Lemma unconfirming_created (evs : trace) :
  Forall unconfirming evs -> created evs = [] /\ extracted evs = [].
Proof.
  induction 1 as [|ev evs Hev _ IH]; [split; reflexivity|].
  destruct ev; cbn; try exact IH; contradiction.
Qed.

Section Confirmation.

Variable env : Env.

Ltac not_a_confirmation :=
  cbn; intros d H;
  cbv beta iota delta
    [Messages.welcome_message Messages.file_too_large Messages.text_too_long
     Messages.caption_too_long Messages.input_error Messages.download_error
     Messages.extraction_failed Messages.expense_saved Messages.no_expenses
     Messages.report_header Messages.report_error report_text app] in H;
  discriminate H.

Ltac unconfirmed := repeat emit_step; try exact I; try not_a_confirmation.

Lemma unconfirming_time_range (command : string) :
  emits unconfirming (get_query_time_range env command).
Proof.
  unfold get_query_time_range, get_query_time_range_daily. unconfirmed.
Qed.

Lemma unconfirming_report (chat_id user_id : json) (command : string) :
  emits unconfirming (generate_report env chat_id user_id command).
Proof.
  unfold generate_report. apply emits_def.
  apply emits_bind; [apply unconfirming_time_range|].
  intros [start_time end_time]. unconfirmed.
Qed.

Lemma unconfirming_download (file_id : json) :
  emits unconfirming (download_telegram_file env file_id).
Proof. unfold download_telegram_file, raise_for_status. unconfirmed. Qed.

Lemma unconfirming_attachment (chat_id message file_data : json) :
  emits unconfirming (attachment env chat_id message file_data).
Proof. unfold attachment. unconfirmed. Qed.

Lemma unconfirming_expense_input (chat_id message : json) :
  emits unconfirming (expense_input env chat_id message).
Proof.
  unfold expense_input. unconfirmed; apply unconfirming_attachment.
Qed.

Lemma unconfirming_prepare_parts (chat_id : json) (parts : list part)
  (file_id caption : json) :
  emits unconfirming (prepare_parts env chat_id parts file_id caption).
Proof.
  unfold prepare_parts. unconfirmed. apply unconfirming_download.
Qed.

(** Up to the extraction call no text sent is a confirmation. *)
Lemma unconfirming_classify (request_json : result json) :
  emits unconfirming (classify_update env request_json).
Proof.
  unfold classify_update.
  unconfirmed;
    first [ apply unconfirming_report | apply unconfirming_expense_input
          | apply unconfirming_prepare_parts ].
Qed.

(** A delivery ends before the extraction call, having sent no
    confirmation, or it runs the second half of the [try] block after a
    first half that sent nothing. *)
Lemma delivery_shape (request_json : result json) :
  (exists pre,
      snd (webhook_try_block env request_json []) = pre
      /\ Forall unconfirming pre
      /\ match fst (webhook_try_block env request_json []) with
         | Normal _ => False
         | Returned v => v = status_ok
         | Raised _ => True
         end)
  \/ (exists update chat_id user_id current_time parts pre,
        request_json = ok update
        /\ chat_of update = ok chat_id
        /\ user_of update = ok user_id
        /\ sent pre = []
        /\ Forall unconfirming pre
        /\ webhook_try_block env request_json []
           = record_expense env chat_id user_id current_time parts pre).
Proof.
  rewrite try_block_run.
  destruct (unconfirming_classify request_json []) as (pre & Htr & Hpre).
  destruct (guarded_classify env request_json []) as (evs & Htr' & _ & _ & Hout).
  rewrite Htr in Htr'. cbn [app] in *. subst evs.
  destruct (classify_update env request_json [])
    as [[[[[c u] t] p]|v|e] tr'] eqn:Hrun; cbn [fst snd] in *; subst tr'.
  - right.
    destruct (classify_ids env request_json [] c u t p) as (update & Hreq & Hc & Hu).
    { rewrite Hrun. reflexivity. }
    exists update, c, u, t, p, pre. repeat split; assumption.
  - left. exists pre. repeat split; assumption.
  - left. exists pre. repeat split; assumption.
Qed.

(** X4. At most one extraction call is made for an update and at most one
    document is created, none without an extraction call that answered. *)
Theorem one_extraction_one_document (request_json : result json) :
  let run := handle_telegram_webhook env request_json [] in
  (List.length (extracted (snd run)) <= 1)%nat
  /\ (List.length (created (snd run)) <= List.length (extracted (snd run)))%nat
  /\ (created (snd run) <> [] ->
      exists parts d, extracted (snd run) = [(parts, ok d)]).
Proof.
  cbv zeta.
  destruct (handler_observations env request_json []) as (_ & -> & ->).
  destruct (delivery_shape request_json)
    as [(pre & Htr & Hpre & _)
       | (update & c & u & t & parts & pre & _ & _ & _ & _ & Hpre & ->)].
  - rewrite Htr. destruct (unconfirming_created pre Hpre) as [-> ->].
    cbn. repeat split; try lia. congruence.
  - destruct (unconfirming_created pre Hpre) as [Hc He].
    destruct (record_expense_shape env c u t parts pre)
      as [(e & _ & ->) | [(d & details & raised & Hd & _ & _ & ->)
         | [(d & data & e & Hd & _ & ->) | (d & data & raised & Hd & _ & ->)]]];
      rewrite !created_app, !extracted_app, Hc, He; cbn;
      repeat split; try lia; try congruence; intros _; eauto.
Qed.

(** X5. A text that confirms an expense is sent only after the store has
    created the document it shows, and then it is the only text sent. *)
Theorem confirmation_follows_creation
  (request_json : result json) (chat_id : json) (body : text) :
  let run := handle_telegram_webhook env request_json [] in
  In (chat_id, body) (sent (snd run)) ->
  (exists d, body = Messages.expense_saved d) ->
  exists data database_id collection_id document_id permissions,
    body = Messages.expense_saved data
    /\ In (CreateDocument database_id collection_id document_id data permissions None)
          (snd run)
    /\ created (snd run) = [data]
    /\ sent (snd run) = [(chat_id, body)].
Proof.
  cbv zeta. intros Hin (d0 & ->).
  destruct (handler_observations env request_json []) as (Hsent & Hcreated & _).
  rewrite Hsent in *. rewrite Hcreated. rewrite handler_run.
  destruct (delivery_shape request_json)
    as [(pre & Htr & Hpre & _)
       | (update & c & u & t & parts & pre & _ & _ & _ & Hs & Hpre & Hrun)].
  - rewrite Htr in Hin. exfalso. exact (unconfirming_sent _ _ _ Hpre Hin).
  - rewrite Hrun in *.
    destruct (unconfirming_created pre Hpre) as [Hc He].
    destruct (record_expense_shape env c u t parts pre)
      as [(e & _ & Htr) | [(d & details & raised & _ & _ & _ & Htr)
         | [(d & data & e & _ & _ & Htr) | (d & data & raised & _ & Hout & Htr)]]];
      rewrite Htr in Hin; rewrite sent_app, Hs in Hin; cbn in Hin;
      try contradiction.
    + destruct Hin as [Hin | []]. inversion Hin.
    + destruct Hin as [Hin | []]. apply pair_equal_spec in Hin as [<- H].
      exists data. eexists _, _, _, _.
      destruct (record_expense env c u t parts pre) as [o tr'].
      cbn [fst snd] in *. subst tr'.
      split; [symmetry; exact H|].
      rewrite created_app, sent_app, Hc, Hs, H. cbn.
      split; [|split; reflexivity].
      destruct o as [[]|v|e]; cbn [snd]; rewrite ?in_app_iff; cbn; eauto 6.
Qed.

(** X6. What follows the creation of a document: when the store accepted
    it, the confirmation with its fields is the one text sent, to the chat
    of the update; when the store raised, nothing at all is sent and the
    handler answers with the error acknowledgment for that exception. *)
Theorem creation_outcome_is_told
  (request_json : result json)
  (database_id collection_id : json) (document_id : string)
  (data : expense_data) (permissions : list text) (raised : option exn) :
  let run := handle_telegram_webhook env request_json [] in
  In (CreateDocument database_id collection_id document_id data permissions raised)
     (snd run) ->
  match raised with
  | None =>
      exists update chat_id,
        request_json = ok update
        /\ chat_of update = ok chat_id
        /\ sent (snd run) = [(chat_id, Messages.expense_saved data)]
  | Some e =>
      sent (snd run) = [] /\ fst run = Normal (status_error e)
  end.
Proof.
  cbv zeta. intros Hin.
  destruct (handler_observations env request_json []) as (Hsent & _ & _).
  rewrite Hsent. rewrite handler_run in *.
  assert (Hpre_in : forall pre, Forall unconfirming pre ->
            ~ In (CreateDocument database_id collection_id document_id data
                    permissions raised) pre).
  { intros pre Hpre Hin'. rewrite Forall_forall in Hpre.
    exact (Hpre _ Hin'). }
  destruct (delivery_shape request_json)
    as [(pre & Htr & Hpre & Hout)
       | (update & c & u & t & parts & pre & Hreq & Hc & _ & Hs & Hpre & Hrun)].
  - exfalso. apply (Hpre_in pre Hpre).
    destruct (webhook_try_block env request_json []) as [[[]|v|e] tr'];
      cbn [fst snd] in *; subst tr'; try exact Hin; try contradiction.
    apply in_app_or in Hin as [Hin | [Hin | []]]; [exact Hin | discriminate Hin].
  - rewrite Hrun in *.
    assert (Hin' : In (CreateDocument database_id collection_id document_id data
                         permissions raised)
                     (snd (record_expense env c u t parts pre))).
    { destruct (record_expense env c u t parts pre) as [[[]|v|e] tr'];
        cbn [snd] in *; try exact Hin.
      apply in_app_or in Hin as [Hin | [Hin | []]]; [exact Hin | discriminate Hin]. }
    clear Hin.
    destruct (record_expense_shape env c u t parts pre)
      as [(e & _ & Htr) | [(d & details & raised' & _ & _ & _ & Htr)
         | [(d & data' & e & _ & Hout & Htr) | (d & data' & raised' & _ & Hout & Htr)]]];
      rewrite Htr in Hin'; apply in_app_or in Hin' as [Hin' | Hin'];
      try (exfalso; exact (Hpre_in pre Hpre Hin')); cbn in Hin'.
    + destruct Hin' as [Hin' | []]. discriminate Hin'.
    + destruct Hin' as [Hin' | [Hin' | []]]; discriminate Hin'.
    + destruct Hin' as [Hin' | [Hin' | []]]; [discriminate Hin'|].
      injection Hin' as _ _ _ <- _ <-.
      destruct (record_expense env c u t parts pre) as [o tr'].
      cbn [fst snd] in *. subst o tr'.
      rewrite sent_app, Hs. split; reflexivity.
    + destruct Hin' as [Hin' | [Hin' | [Hin' | []]]];
        [discriminate Hin' | | discriminate Hin'].
      injection Hin' as _ _ _ <- _ <-.
      exists update, c. split; [exact Hreq|]. split; [exact Hc|].
      rewrite Htr, sent_app, Hs. reflexivity.
Qed.

End Confirmation.

Lemma confirmation_follows_creation_witness :
  let request := ok (Scenario.text_update "220 pizza") in
  let run := handle_telegram_webhook pizza_world request [] in
  let body := Messages.expense_saved pizza_record in
  In (JInt 1, body) (sent (snd run))
  /\ (exists d, body = Messages.expense_saved d)
  /\ exists data database_id collection_id document_id permissions,
       body = Messages.expense_saved data
       /\ In (CreateDocument database_id collection_id document_id data
                permissions None) (snd run)
       /\ created (snd run) = [data]
       /\ sent (snd run) = [(JInt 1, body)].
Proof.
  intros request run body.
  assert (H1 : In (JInt 1, body) (sent (snd run))) by (vm_compute; in_list).
  assert (H2 : exists d, body = Messages.expense_saved d)
    by (exists pizza_record; reflexivity).
  split; [exact H1|]. split; [exact H2|].
  exact (confirmation_follows_creation pizza_world request (JInt 1) body H1 H2).
Defined.

Lemma creation_outcome_is_told_witness :
  let request := ok (Scenario.text_update "220 pizza") in
  let run := handle_telegram_webhook pizza_world request [] in
  let permissions := [permission "read" (JInt 2); permission "write" (JInt 2)] in
  In (CreateDocument (JStr "default") (JStr "expenses") Scenario.fresh_id pizza_record
        permissions None) (snd run)
  /\ exists update chat_id,
       request = ok update
       /\ chat_of update = ok chat_id
       /\ sent (snd run) = [(chat_id, Messages.expense_saved pizza_record)].
Proof.
  intros request run permissions.
  assert (H : In (CreateDocument (JStr "default") (JStr "expenses") Scenario.fresh_id
                    pizza_record permissions None) (snd run))
    by (vm_compute; in_list).
  split; [exact H|].
  exact (creation_outcome_is_told pizza_world request _ _ _ _ _ None H).
Defined.

(** ** The created document *)

Section Created.

Variable env : Env.

(** The identifier of a created document is what [ID.unique()] gave just
    before the call. *)
Lemma creation_id (request_json : result json) (database_id collection_id : json)
  (document_id : string) (data : expense_data) (permissions : list text)
  (raised : option exn) :
  let run := handle_telegram_webhook env request_json [] in
  let ev :=
    CreateDocument database_id collection_id document_id data permissions raised in
  In ev (snd run) ->
  exists pre rest, snd run = pre ++ ev :: rest /\ document_id = id_unique env pre.
Proof.
  cbv zeta. rewrite handler_run.
  assert (Hlog : forall evs e,
            In (CreateDocument database_id collection_id document_id data
                  permissions raised)
               (evs ++ [LogError (Messages.unexpected_error e)]) ->
            In (CreateDocument database_id collection_id document_id data
                  permissions raised) evs).
  { intros evs e H. apply in_app_or in H as [H | [H | []]];
      [exact H | discriminate H]. }
  destruct (delivery_shape env request_json)
    as [(pre & Htr & Hpre & _)
       | (update & c & u & t & parts & pre & _ & _ & _ & _ & Hpre & Hrun)].
  - intros Hin. exfalso.
    assert (Hin' : In (CreateDocument database_id collection_id document_id data
                         permissions raised) pre).
    { destruct (webhook_try_block env request_json []) as [[[]|v|e] tr'];
        cbn [snd] in *; subst tr'; [exact Hin | exact Hin | exact (Hlog _ _ Hin)]. }
    rewrite Forall_forall in Hpre. exact (Hpre _ Hin').
  - rewrite Hrun.
    assert (Hno : ~ In (CreateDocument database_id collection_id document_id data
                          permissions raised) pre).
    { intros H. rewrite Forall_forall in Hpre. exact (Hpre _ H). }
    destruct (record_expense_shape env c u t parts pre)
      as [(e & Hout & Htr) | [(d & details & r & _ & _ & Hout & Htr)
         | [(d & data' & e & _ & Hout & Htr) | (d & data' & r & _ & Hout & Htr)]]];
      destruct (record_expense env c u t parts pre) as [o tr'];
      cbn [fst snd] in *; subst tr'.
    + subst o. intros Hin. apply Hlog in Hin.
      apply in_app_or in Hin as [Hin | [Hin | []]]; [contradiction | discriminate Hin].
    + intros Hin. exfalso.
      assert (Hin' : In (CreateDocument database_id collection_id document_id data
                           permissions raised)
                        (pre ++ [GenerateContent parts (ok d);
                                 Post (TELEGRAM_API_URL env ++ [Lit "/sendMessage"])
                                   {| chat_id_ := c;
                                      text_ := Messages.extraction_failed details;
                                      parse_mode := "Markdown" |} r])).
      { destruct r; subst o; cbn [snd] in Hin; [exact (Hlog _ _ Hin) | exact Hin]. }
      apply in_app_or in Hin' as [H | [H | [H | []]]];
        [contradiction | discriminate H | discriminate H].
    + subst o. intros Hin. apply Hlog in Hin.
      apply in_app_or in Hin as [Hin | [Hin | [Hin | []]]];
        [contradiction | discriminate Hin |].
      injection Hin as <- <- <- <- <- <-.
      exists (pre ++ [GenerateContent parts (ok d)]). eexists.
      split; [|reflexivity]. rewrite <- !app_assoc. reflexivity.
    + intros Hin.
      assert (Hin' : In (CreateDocument database_id collection_id document_id data
                           permissions raised)
                        (pre ++ [GenerateContent parts (ok d);
                                 CreateDocument (APPWRITE_DATABASE_ID env)
                                   (APPWRITE_COLLECTION_ID env)
                                   (id_unique env (pre ++ [GenerateContent parts (ok d)]))
                                   data'
                                   [permission "read" u; permission "write" u] None;
                                 Post (TELEGRAM_API_URL env ++ [Lit "/sendMessage"])
                                   {| chat_id_ := c;
                                      text_ := Messages.expense_saved data';
                                      parse_mode := "Markdown" |} r])).
      { destruct r; subst o; cbn [snd] in Hin; [exact (Hlog _ _ Hin) | exact Hin]. }
      apply in_app_or in Hin' as [H | [H | [H | [H | []]]]];
        [contradiction | discriminate H | | discriminate H].
      injection H as <- <- <- <- <- <-.
      destruct r; subst o; cbn [snd];
        exists (pre ++ [GenerateContent parts (ok d)]); eexists;
        (split; [rewrite <- !app_assoc; cbn [app]; reflexivity | reflexivity]).
Qed.

(** X2. Whatever document the handler creates gets the identifier that
    [ID.unique()] gave just before the call, carries the id of the user
    the update came from, and is readable and writable by that user and
    nobody else; for an integer user id the two permissions read
    [read("user:<id>")] and [write("user:<id>")]. *)
Theorem created_document_is_private_to_its_user
  (request_json : result json) (database_id collection_id : json)
  (document_id : string) (data : expense_data) (permissions : list text)
  (raised : option exn) :
  let run := handle_telegram_webhook env request_json [] in
  let ev :=
    CreateDocument database_id collection_id document_id data permissions raised in
  In ev (snd run) ->
  exists update user_id,
    request_json = ok update
    /\ user_of update = ok user_id
    /\ (exists pre rest,
          snd run = pre ++ ev :: rest /\ document_id = id_unique env pre)
    /\ telegram_user_id data = user_id
    /\ permissions = [permission "read" user_id; permission "write" user_id]
    /\ forall n, user_id = JInt n ->
         List.map Render.render permissions
         = [Some ("read(" ++ dq ++ "user:" ++ Render.decimal n ++ dq ++ ")")%string;
            Some ("write(" ++ dq ++ "user:" ++ Render.decimal n ++ dq ++ ")")%string].
Proof.
  cbv zeta. intros Hin.
  destruct (delivery_event env _ _ Hin)
    as [(msg & H) | (update & c & u & Hreq & _ & Hu & Huser & Hperm)];
    [discriminate H|].
  exists update, u. repeat split; try assumption.
  - exact (creation_id _ _ _ _ _ _ _ Hin).
  - intros n ->. rewrite Hperm. reflexivity.
Qed.

End Created.

Lemma created_document_is_private_to_its_user_witness :
  let request := ok (Scenario.text_update "220 pizza") in
  let run := handle_telegram_webhook pizza_world request [] in
  let permissions := [permission "read" (JInt 2); permission "write" (JInt 2)] in
  let ev :=
    CreateDocument (JStr "default") (JStr "expenses") Scenario.fresh_id pizza_record
      permissions None in
  In ev (snd run)
  /\ exists update user_id,
       request = ok update
       /\ user_of update = ok user_id
       /\ (exists pre rest,
             snd run = pre ++ ev :: rest
             /\ Scenario.fresh_id = id_unique pizza_world pre)
       /\ telegram_user_id pizza_record = user_id
       /\ permissions = [permission "read" user_id; permission "write" user_id]
       /\ forall n, user_id = JInt n ->
            List.map Render.render permissions
            = [Some ("read(" ++ dq ++ "user:" ++ Render.decimal n ++ dq ++ ")")%string;
               Some ("write(" ++ dq ++ "user:" ++ Render.decimal n ++ dq ++ ")")%string].
Proof.
  intros request run permissions ev.
  assert (H : In ev (snd run)) by (vm_compute; in_list).
  split; [exact H|].
  exact (created_document_is_private_to_its_user pizza_world request _ _ _ _ _ _ H).
Defined.

(** ** What is stored *)

Section Storing.

Variable env : Env.

(** When the first half of the [try] block goes on to the extraction,
    the time it hands over is the clock's first answer. *)
Lemma classify_time (request_json : result json) (tr : trace)
  (chat_id user_id : json) (current_time : string) (parts : list part) :
  fst (classify_update env request_json tr)
    = Normal (chat_id, user_id, current_time, parts) ->
  current_time = (Datetime.isoformat (clock env tr) ++ "Z")%string.
Proof.
  unfold classify_update. intros H.
  apply bind_normal in H as (update & Hupdate & H). apply lift_normal in Hupdate.
  subst request_json. change (snd (lift (ok update) tr)) with tr in H.
  apply bind_normal in H as (has_message & Hm & H). apply lift_normal in Hm.
  rewrite Hm in H. change (snd (lift (ok has_message) tr)) with tr in H.
  apply bind_normal in H as ([] & Hif & H).
  destruct has_message; [|discriminate Hif]. cbn [negb snd ret] in H.
  apply bind_normal in H as (message & Hmessage & H). apply lift_normal in Hmessage.
  rewrite Hmessage in H. change (snd (lift (ok message) tr)) with tr in H.
  apply bind_normal in H as (chat & Hchat & H). apply lift_normal in Hchat.
  rewrite Hchat in H. change (snd (lift (ok chat) tr)) with tr in H.
  apply bind_normal in H as (c & Hc & H). apply lift_normal in Hc.
  rewrite Hc in H. change (snd (lift (ok c) tr)) with tr in H.
  apply bind_normal in H as (from & Hfrom & H). apply lift_normal in Hfrom.
  rewrite Hfrom in H. change (snd (lift (ok from) tr)) with tr in H.
  apply bind_normal in H as (u & Hu & H). apply lift_normal in Hu.
  rewrite Hu in H. change (snd (lift (ok u) tr)) with tr in H.
  apply bind_normal in H as (now & Hnow & H).
  cbn in Hnow. injection Hnow as <-.
  apply bind_normal in H as (has_text & _ & H).
  apply bind_normal in H as (is_command & _ & H).
  apply bind_normal in H as (_ & _ & H).
  apply bind_normal in H as ([[gemini_parts file_id] caption_text] & _ & H).
  apply bind_normal in H as (gemini_parts' & _ & H).
  cbn in H. injection H as _ _ <- _. reflexivity.
Qed.

(** The second half of the [try] block on an extraction result that has
    its three fields and an amount [float] accepts. *)
Lemma record_expense_stores (chat_id user_id : json) (current_time : string)
  (parts : list part) (pre : trace)
  (d category_ description_ amount_text : json) (amount_ : pyfloat) :
  generate_content env pre parts = ok d ->
  category_is_error d = false ->
  Py.getitem d "Category" = ok category_ ->
  Py.getitem d "Description" = ok description_ ->
  Py.getitem d "Amount" = ok amount_text ->
  PyFloat.float amount_text = ok amount_ ->
  created (snd (record_expense env chat_id user_id current_time parts pre))
  = created pre
    ++ [{| telegram_user_id := user_id;
           category := category_;
           description := description_;
           amount := amount_;
           created_at := current_time |}].
Proof.
  intros Hanswer Hcat Hc Hd Ha Hfloat. unfold category_is_error in Hcat.
  unfold record_expense, extract_expense_details, appwrite_create_document,
    send_telegram_message.
  unfold ok in *. run_norm. rewrite Hanswer.
  destruct d; try discriminate Hc. cbn [Py.get Py.getitem] in *.
  destruct (Py.lookup "Category" kv); [|discriminate Hc].
  injection Hc as ->. run_norm. rewrite Hcat.
  destruct (Py.lookup "Description" kv); [|discriminate Hd].
  injection Hd as ->.
  destruct (Py.lookup "Amount" kv); [|discriminate Ha].
  injection Ha as ->. rewrite Hfloat.
  repeat run_step; rewrite !created_app; cbn; rewrite ?app_nil_r; reflexivity.
Qed.

(** X7. An extraction result that is not the error sentinel, has its three
    fields and an amount [float] accepts is handed to the store: one
    document, for the user of the update, with the category and the
    description as extracted, the float of the amount, and the time the
    clock gave when the update came in. *)
Theorem well_formed_extraction_is_stored
  (request_json : result json) (parts : list part)
  (d category_ description_ amount_text : json) (amount_ : pyfloat) :
  let run := handle_telegram_webhook env request_json [] in
  In (parts, ok d) (extracted (snd run)) ->
  category_is_error d = false ->
  Py.getitem d "Category" = ok category_ ->
  Py.getitem d "Description" = ok description_ ->
  Py.getitem d "Amount" = ok amount_text ->
  PyFloat.float amount_text = ok amount_ ->
  exists update user_id,
    request_json = ok update
    /\ user_of update = ok user_id
    /\ created (snd run)
       = [{| telegram_user_id := user_id;
             category := category_;
             description := description_;
             amount := amount_;
             created_at := (Datetime.isoformat (clock env []) ++ "Z")%string |}].
Proof.
  cbv zeta. intros Hin Hcat Hc Hd Ha Hfloat.
  destruct (handler_observations env request_json []) as (_ & Hcreated & Hextracted).
  rewrite Hextracted in Hin. rewrite Hcreated. rewrite try_block_run in *.
  destruct (guarded_classify env request_json []) as (pre & Htr & Hcr & Hex & _).
  destruct (classify_update env request_json [])
    as [[[[[c u] t] p]|v|e] tr'] eqn:Hrun; cbn [snd app] in Htr; subst tr';
    try (cbn [snd] in Hin; rewrite Hex in Hin; contradiction).
  destruct (classify_ids env request_json [] c u t p) as (update & Hreq & _ & Hu).
  { rewrite Hrun. reflexivity. }
  pose proof (classify_time request_json [] c u t p) as Htime.
  rewrite Hrun in Htime. specialize (Htime eq_refl). subst t.
  destruct (record_expense_run env c u
              (Datetime.isoformat (clock env []) ++ "Z")%string p pre)
    as (evs & Htr & Hone & _).
  rewrite Htr, extracted_app, Hex, Hone in Hin.
  destruct Hin as [[= <- Hanswer] | []].
  exists update, u. split; [exact Hreq|]. split; [exact Hu|].
  rewrite (record_expense_stores _ _ _ _ _ _ _ _ _ _ Hanswer Hcat Hc Hd Ha Hfloat).
  rewrite Hcr. reflexivity.
Qed.

End Storing.

Lemma well_formed_extraction_is_stored_witness :
  let request := ok (Scenario.text_update "220 pizza") in
  let run := handle_telegram_webhook pizza_world request [] in
  let d := Scenario.extraction_of "Food" "Pizza" "220.00" in
  In ([Raw (JStr "220 pizza")], ok d) (extracted (snd run))
  /\ category_is_error d = false
  /\ Py.getitem d "Category" = ok (JStr "Food")
  /\ Py.getitem d "Description" = ok (JStr "Pizza")
  /\ Py.getitem d "Amount" = ok (JStr "220.00")
  /\ PyFloat.float (JStr "220.00") = ok (Finite (Qmake 22000 100))
  /\ exists update user_id,
       request = ok update
       /\ user_of update = ok user_id
       /\ created (snd run)
          = [{| telegram_user_id := user_id;
                category := JStr "Food";
                description := JStr "Pizza";
                amount := Finite (Qmake 22000 100);
                created_at :=
                  (Datetime.isoformat (clock pizza_world []) ++ "Z")%string |}].
Proof.
  intros request run d.
  assert (H1 : In ([Raw (JStr "220 pizza")], ok d) (extracted (snd run)))
    by (left; vm_compute; reflexivity).
  split; [exact H1|]. repeat (split; [reflexivity|]).
  exact (well_formed_extraction_is_stored pizza_world request _ d _ _ _ _
           H1 eq_refl eq_refl eq_refl eq_refl eq_refl).
Defined.

(** ** Commands and messages that are no expense *)

Section Paths.

Variable env : Env.

(** When the [try] block comes down to sending a text and returning. *)
Lemma handler_replies (request_json : result json) (tr pre : trace)
  (chat_id : json) (body : text) :
  webhook_try_block env request_json tr
  = bind (send_telegram_message env chat_id body) (fun _ => return_ status_ok) pre ->
  replies_with env pre chat_id body (handle_telegram_webhook env request_json tr).
Proof.
  intros Hrun. rewrite handler_run, Hrun.
  unfold bind, send_telegram_message, replies_with, reply. cbv zeta.
  exists (requests_post env pre (TELEGRAM_API_URL env ++ [Lit "/sendMessage"])
            {| chat_id_ := chat_id; text_ := body; parse_mode := "Markdown" |}).
  destruct (requests_post env pre _ _); cbn; rewrite <- ?app_assoc; reflexivity.
Qed.

(** X8. An update without a message is acknowledged and nothing else is done. *)
Theorem update_without_message_is_ignored (update : json) (tr : trace) :
  Py.contains "message" update = ok false ->
  handle_telegram_webhook env (ok update) tr = (Normal status_ok, tr).
Proof.
  intros H. rewrite handler_run, try_block_run.
  unfold classify_update. unfold ok in *. forward. reflexivity.
Qed.

(** X9. A message that names no chat or no sender is a fault: nothing is
    done but logging, and the acknowledgment is the error one. *)
Theorem message_without_chat_or_sender_is_a_fault
  (update : json) (e : exn) (tr : trace) :
  Py.contains "message" update = ok true ->
  (chat_id <- chat_of update ;; user_of update)%result = throw e ->
  handle_telegram_webhook env (ok update) tr
  = (Normal (status_error e), tr ++ [LogError (Messages.unexpected_error e)]).
Proof.
  intros Hm He. rewrite handler_run, try_block_run.
  unfold classify_update, chat_of, user_of, and_then in *. unfold ok, throw in *.
  forward.
  destruct (Py.getitem update "message") as [e1|message];
    [injection He as <-; reflexivity|].
  forward.
  destruct (Py.getitem message "chat") as [e1|chat];
    [injection He as <-; reflexivity|].
  forward.
  destruct (Py.getitem chat "id") as [e1|c];
    [injection He as <-; reflexivity|].
  forward.
  destruct (Py.getitem message "from") as [e1|from];
    [injection He as <-; reflexivity|].
  forward.
  destruct (Py.getitem from "id") as [e1|u];
    [injection He as <-; reflexivity | discriminate He].
Qed.

Lemma lower_char_slash (c : ascii) :
  PyStr.lower_char c = "/"%char -> c = "/"%char.
Proof.
  destruct c as [[] [] [] [] [] [] [] []]; vm_compute; congruence.
Qed.

Lemma lower_starts_with_slash (body rest : string) :
  PyStr.lower body = String "/" rest -> PyStr.startswith body "/" = true.
Proof.
  destruct body as [|c r]; [discriminate|]. cbn.
  intros [= Hc _]. apply lower_char_slash in Hc. subst c.
  destruct r; reflexivity.
Qed.

(** The first half of the [try] block on a text that begins with the
    command prefix: the lower-cased text decides. *)
Lemma classify_command (update chat_id user_id : json)
  (message : list (string * json)) (body : string) :
  message_from update message chat_id user_id ->
  Py.lookup "text" message = Some (JStr body) ->
  PyStr.startswith body "/" = true ->
  classify_update env (ok update) []
  = (let command := PyStr.lower body in
     bind (if String.eqb command "/start" then
             bind (send_telegram_message env chat_id Messages.welcome_message)
               (fun _ => return_ status_ok)
           else if existsb (String.eqb command) ["/daily"; "/week"; "/month"]%string
           then bind (generate_report env chat_id user_id command)
                  (fun answer => return_ answer)
           else ret tt)
       (fun _ =>
          bind (expense_input env chat_id (JObj message))
            (fun '(gemini_parts, file_id, caption_text) =>
               bind (prepare_parts env chat_id gemini_parts file_id caption_text)
                 (fun gemini_parts =>
                    ret (chat_id, user_id,
                         (Datetime.isoformat (clock env []) ++ "Z")%string,
                         gemini_parts)))))
      [Now (clock env [])].
Proof.
  intros (Hm & Hc & Hu) Ht Hslash.
  unfold chat_of, user_of, and_then in *.
  destruct update; try discriminate Hm.
  cbn [Py.getitem] in *. unfold ok, throw in *.
  destruct (Py.lookup "message" kv) as [m|] eqn:Hkv; [|discriminate Hm].
  injection Hm as ->.
  cbn [Py.getitem] in *. unfold ok, throw in *.
  destruct (Py.lookup "chat" message) as [chat|] eqn:Hchat; [|discriminate Hc].
  destruct (Py.lookup "from" message) as [from|] eqn:Hfrom; [|discriminate Hu].
  unfold classify_update, datetime_now.
  forward. reflexivity.
Qed.

(** X10. [/start], in any letter case, is answered with the welcome text and
    nothing else happens. *)
Theorem start_command_is_welcomed (update chat_id user_id : json)
  (message : list (string * json)) (body : string) :
  message_from update message chat_id user_id ->
  Py.lookup "text" message = Some (JStr body) ->
  PyStr.lower body = "/start"%string ->
  replies_with env [Now (clock env [])] chat_id Messages.welcome_message
    (handle_telegram_webhook env (ok update) []).
Proof.
  intros Hupdate Ht Hlower.
  apply handler_replies. rewrite try_block_run.
  rewrite (classify_command _ _ _ _ _ Hupdate Ht (lower_starts_with_slash _ _ Hlower)).
  cbv zeta. rewrite Hlower. cbn [String.eqb Ascii.eqb Bool.eqb].
  unfold bind, send_telegram_message, return_. cbv zeta.
  destruct (requests_post env _ _ _); reflexivity.
Qed.

(** X11. [/daily], [/week] and [/month], in any letter case, are answered by
    [generate_report] for the lower-cased command, called after the clock
    was read once; what it returns is the acknowledgment, and what it
    raises ends in the top-level handler. *)
Theorem report_command_runs_the_report (update chat_id user_id : json)
  (message : list (string * json)) (body : string) :
  message_from update message chat_id user_id ->
  Py.lookup "text" message = Some (JStr body) ->
  In (PyStr.lower body) ["/daily"; "/week"; "/month"]%string ->
  handle_telegram_webhook env (ok update) []
  = match generate_report env chat_id user_id (PyStr.lower body)
            [Now (clock env [])] with
    | (Raised e, tr) =>
        (Normal (status_error e), tr ++ [LogError (Messages.unexpected_error e)])
    | (Normal v, tr) | (Returned v, tr) => (Normal v, tr)
    end.
Proof.
  intros Hupdate Ht Hin.
  assert (Hslash : PyStr.startswith body "/" = true).
  { destruct Hin as [H | [H | [H | []]]]; symmetry in H;
      exact (lower_starts_with_slash _ _ H). }
  rewrite handler_run, try_block_run.
  rewrite (classify_command _ _ _ _ _ Hupdate Ht Hslash). cbv zeta.
  assert (Hcmd : String.eqb (PyStr.lower body) "/start" = false
                 /\ existsb (String.eqb (PyStr.lower body))
                      ["/daily"; "/week"; "/month"]%string = true).
  { destruct Hin as [H | [H | [H | []]]]; rewrite <- H; split; reflexivity. }
  destruct Hcmd as [-> ->].
  unfold bind at 1 2.
  destruct (generate_report env chat_id user_id (PyStr.lower body) [Now (clock env [])])
    as [[v|v|e] tr]; reflexivity.
Qed.

(** The first half of the [try] block on a message without text. *)
Lemma classify_without_text (update chat_id user_id : json)
  (message : list (string * json)) :
  message_from update message chat_id user_id ->
  Py.lookup "text" message = None ->
  classify_update env (ok update) []
  = bind (expense_input env chat_id (JObj message))
      (fun '(gemini_parts, file_id, caption_text) =>
         bind (prepare_parts env chat_id gemini_parts file_id caption_text)
           (fun gemini_parts =>
              ret (chat_id, user_id,
                   (Datetime.isoformat (clock env []) ++ "Z")%string,
                   gemini_parts)))
      [Now (clock env [])].
Proof.
  intros (Hm & Hc & Hu) Ht.
  unfold chat_of, user_of, and_then in *.
  destruct update; try discriminate Hm.
  cbn [Py.getitem] in *. unfold ok, throw in *.
  destruct (Py.lookup "message" kv) as [m|] eqn:Hkv; [|discriminate Hm].
  injection Hm as ->.
  cbn [Py.getitem] in *. unfold ok, throw in *.
  destruct (Py.lookup "chat" message) as [chat|] eqn:Hchat; [|discriminate Hc].
  destruct (Py.lookup "from" message) as [from|] eqn:Hfrom; [|discriminate Hu].
  unfold classify_update, datetime_now.
  forward. reflexivity.
Qed.

(** X12. A message that is neither a photo, a document nor a text is answered
    with the input-error text. *)
Theorem unsupported_message_gets_input_error (update chat_id user_id : json)
  (message : list (string * json)) :
  message_from update message chat_id user_id ->
  Py.lookup "text" message = None ->
  Py.lookup "photo" message = None ->
  Py.lookup "document" message = None ->
  replies_with env [Now (clock env [])] chat_id Messages.input_error
    (handle_telegram_webhook env (ok update) []).
Proof.
  intros Hupdate Ht Hp Hd.
  apply handler_replies. rewrite try_block_run.
  rewrite (classify_without_text _ _ _ _ Hupdate Ht).
  unfold expense_input. forward.
  unfold send_telegram_message. cbv zeta.
  destruct (requests_post env _ _ _); reflexivity.
Qed.

End Paths.

Lemma update_without_message_is_ignored_witness :
  Py.contains "message" edited_update = ok false
  /\ handle_telegram_webhook pizza_world (ok edited_update) []
     = (Normal status_ok, []).
Proof.
  assert (H : Py.contains "message" edited_update = ok false) by reflexivity.
  split; [exact H|].
  exact (update_without_message_is_ignored pizza_world edited_update [] H).
Defined.

Lemma message_without_chat_or_sender_is_a_fault_witness :
  Py.contains "message" channel_update = ok true
  /\ (chat_id <- chat_of channel_update ;; user_of channel_update)%result
     = throw KeyError
  /\ handle_telegram_webhook pizza_world (ok channel_update) []
     = (Normal (status_error KeyError),
        [] ++ [LogError (Messages.unexpected_error KeyError)]).
Proof.
  assert (H1 : Py.contains "message" channel_update = ok true) by reflexivity.
  assert (H2 : (chat_id <- chat_of channel_update ;; user_of channel_update)%result
               = throw KeyError) by reflexivity.
  split; [exact H1|]. split; [exact H2|].
  exact (message_without_chat_or_sender_is_a_fault pizza_world channel_update
           KeyError [] H1 H2).
Defined.

Lemma text_update_is_from_the_sample_sender (body : string) :
  message_from (Scenario.text_update body)
    (sample_sender ++ [("text"%string, JStr body)]) (JInt 1) (JInt 2).
Proof. repeat split. Defined.

Lemma start_command_is_welcomed_witness :
  let update := Scenario.text_update "/START" in
  let message := sample_sender ++ [("text"%string, JStr "/START")] in
  message_from update message (JInt 1) (JInt 2)
  /\ Py.lookup "text" message = Some (JStr "/START")
  /\ PyStr.lower "/START" = "/start"%string
  /\ replies_with pizza_world [Now (clock pizza_world [])] (JInt 1)
       Messages.welcome_message
       (handle_telegram_webhook pizza_world (ok update) []).
Proof.
  intros update message.
  assert (H1 := text_update_is_from_the_sample_sender "/START").
  assert (H2 : Py.lookup "text" message = Some (JStr "/START")) by reflexivity.
  assert (H3 : PyStr.lower "/START" = "/start"%string) by reflexivity.
  split; [exact H1|]. split; [exact H2|]. split; [exact H3|].
  exact (start_command_is_welcomed pizza_world update (JInt 1) (JInt 2) message
           "/START" H1 H2 H3).
Defined.

Lemma report_command_runs_the_report_witness :
  let update := Scenario.text_update "/Week" in
  let message := sample_sender ++ [("text"%string, JStr "/Week")] in
  message_from update message (JInt 1) (JInt 2)
  /\ Py.lookup "text" message = Some (JStr "/Week")
  /\ In (PyStr.lower "/Week") ["/daily"; "/week"; "/month"]%string
  /\ handle_telegram_webhook report_world (ok update) []
     = match generate_report report_world (JInt 1) (JInt 2) (PyStr.lower "/Week")
               [Now (clock report_world [])] with
       | (Raised e, tr) =>
           (Normal (status_error e), tr ++ [LogError (Messages.unexpected_error e)])
       | (Normal v, tr) | (Returned v, tr) => (Normal v, tr)
       end.
Proof.
  intros update message.
  assert (H1 := text_update_is_from_the_sample_sender "/Week").
  assert (H2 : Py.lookup "text" message = Some (JStr "/Week")) by reflexivity.
  assert (H3 : In (PyStr.lower "/Week") ["/daily"; "/week"; "/month"]%string)
    by (right; left; reflexivity).
  split; [exact H1|]. split; [exact H2|]. split; [exact H3|].
  exact (report_command_runs_the_report report_world update (JInt 1) (JInt 2)
           message "/Week" H1 H2 H3).
Defined.

Lemma sticker_update_is_from_the_sample_sender :
  message_from sticker_update
    (sample_sender ++ [("sticker"%string, JObj [("emoji"%string, JStr ":-)")])])
    (JInt 1) (JInt 2).
Proof. repeat split. Defined.

Lemma unsupported_message_gets_input_error_witness :
  let message :=
    sample_sender ++ [("sticker"%string, JObj [("emoji"%string, JStr ":-)")])] in
  message_from sticker_update message (JInt 1) (JInt 2)
  /\ Py.lookup "text" message = None
  /\ Py.lookup "photo" message = None
  /\ Py.lookup "document" message = None
  /\ replies_with pizza_world [Now (clock pizza_world [])] (JInt 1)
       Messages.input_error
       (handle_telegram_webhook pizza_world (ok sticker_update) []).
Proof.
  intros message.
  split; [exact sticker_update_is_from_the_sample_sender|].
  repeat (split; [reflexivity|]).
  exact (unsupported_message_gets_input_error pizza_world sticker_update
           (JInt 1) (JInt 2) message sticker_update_is_from_the_sample_sender
           eq_refl eq_refl eq_refl).
Defined.

(** ** Attachments and the size limit *)

Section AttachmentPaths.

Variable env : Env.

(** The first half of the [try] block on an attachment: the size check
    and the file handle, then the download stage. *)
Lemma classify_attachment_message (update chat_id user_id : json)
  (file_data : list (string * json)) (caption : json) :
  attachment_message update chat_id user_id file_data caption ->
  exists message,
    Py.get (JObj message) "caption" JNull = ok caption
    /\ classify_update env (ok update) []
       = bind (attachment env chat_id (JObj message) (JObj file_data))
           (fun '(gemini_parts, file_id, caption_text) =>
              bind (prepare_parts env chat_id gemini_parts file_id caption_text)
                (fun gemini_parts =>
                   ret (chat_id, user_id,
                        (Datetime.isoformat (clock env []) ++ "Z")%string,
                        gemini_parts)))
           [Now (clock env [])].
Proof.
  intros (message & Hupdate & Ht & Hfile & Hcap).
  exists message. split; [exact Hcap|].
  rewrite (classify_without_text env _ _ _ _ Hupdate Ht).
  unfold expense_input.
  destruct Hfile as [(photos & Hphoto & Hlast) | (Hphoto & Hdoc)]; forward;
    reflexivity.
Qed.

(** The size check on a file the limit lets pass. *)
Lemma attachment_within_limit (chat_id message : json)
  (file_data : list (string * json)) (file_id caption : json) (tr : trace) :
  Py.gt (declared_size file_data) MAX_FILE_SIZE_BYTES = ok false ->
  Py.lookup "file_id" file_data = Some file_id ->
  Py.get message "caption" JNull = ok caption ->
  attachment env chat_id message (JObj file_data) tr
  = (Normal ([], file_id, caption), tr).
Proof.
  unfold declared_size, attachment. cbn [Py.get Py.getitem].
  intros Hgt Hid Hcap. unfold ok in *.
  destruct (Py.lookup "file_size" file_data); forward; reflexivity.
Qed.

(** The size check on a file above the limit. *)
Lemma attachment_above_limit (chat_id message : json)
  (file_data : list (string * json)) (shown : Q) (tr : trace) :
  Py.gt (declared_size file_data) MAX_FILE_SIZE_BYTES = ok true ->
  size_in_mb (declared_size file_data) = ok shown ->
  attachment env chat_id message (JObj file_data) tr
  = bind (send_telegram_message env chat_id
            (Messages.file_too_large shown
               (inject_Z MAX_FILE_SIZE_BYTES / 1024 / 1024)%Q))
      (fun _ => return_ status_ok) tr.
Proof.
  unfold declared_size, attachment. cbn [Py.get Py.getitem].
  intros Hgt Hshown. unfold ok in *.
  destruct (Py.lookup "file_size" file_data);
    unfold bind at 1; cbn [lift ret]; unfold bind at 1; rewrite Hgt;
    cbn [lift ret]; unfold bind at 1 2; rewrite Hshown; cbn [lift ret];
    unfold bind;
    destruct (send_telegram_message env _ _ _) as [[[]|?|?] ?]; reflexivity.
Qed.

(** X13. An attachment whose declared size is above the limit is rejected with
    the text that shows its size in MB; no request for the file is made. *)
Theorem oversized_attachment_is_rejected (update chat_id user_id : json)
  (file_data : list (string * json)) (caption : json) (n : Z) :
  attachment_message update chat_id user_id file_data caption ->
  Py.lookup "file_size" file_data = Some (JInt n) ->
  MAX_FILE_SIZE_BYTES < n ->
  overflows (inject_Z n / 1024) = false ->
  replies_with env [Now (clock env [])] chat_id
    (Messages.file_too_large (inject_Z n / 1024 / 1024)
       (inject_Z MAX_FILE_SIZE_BYTES / 1024 / 1024))
    (handle_telegram_webhook env (ok update) []).
Proof.
  intros Hupdate Hsize Hn Hfits.
  destruct (classify_attachment_message _ _ _ _ _ Hupdate) as (message & _ & Hrun).
  apply handler_replies. rewrite try_block_run, Hrun.
  unfold bind at 1.
  rewrite (attachment_above_limit _ _ _ (inject_Z n / 1024 / 1024)).
  - unfold bind, send_telegram_message, return_. cbv zeta.
    destruct (requests_post env _ _ _); reflexivity.
  - unfold declared_size. rewrite Hsize. unfold Py.gt, Py.number.
    replace (Qle_bool (inject_Z n) (inject_Z MAX_FILE_SIZE_BYTES)) with false;
      [reflexivity|].
    symmetry. apply not_true_is_false. intros H. apply Qle_bool_iff in H.
    rewrite <- Zle_Qle in H. lia.
  - unfold declared_size. rewrite Hsize. unfold size_in_mb, Py.number.
    cbn [negb andb]. rewrite Hfits. reflexivity.
Qed.

(** With a file handle the download stage starts by asking Telegram for
    the file path. *)
Lemma prepare_parts_first_request (chat_id : json) (parts : list part)
  (file_id caption : json) (tr : trace) :
  Py.truthy file_id = true ->
  exists answer rest,
    snd (prepare_parts env chat_id parts file_id caption tr)
    = tr ++ Get (TELEGRAM_API_URL env ++ [Lit "/getFile?file_id="; Str file_id])
              answer :: rest.
Proof.
  intros Htruthy.
  destruct (prepare_parts_downloads env chat_id parts file_id caption tr Htruthy)
    as (answer & rest & H & _).
  exists answer, rest. exact H.
Qed.

(** X14. An attachment whose declared size is at most the limit, the limit
    itself included, is not rejected: the handler goes on to ask Telegram
    for the file. *)
Theorem attachment_within_limit_is_fetched (update chat_id user_id : json)
  (file_data : list (string * json)) (caption file_id : json) (n : Z) :
  attachment_message update chat_id user_id file_data caption ->
  Py.lookup "file_size" file_data = Some (JInt n) ->
  n <= MAX_FILE_SIZE_BYTES ->
  Py.lookup "file_id" file_data = Some file_id ->
  Py.truthy file_id = true ->
  exists answer rest,
    snd (handle_telegram_webhook env (ok update) [])
    = Now (clock env [])
      :: Get (TELEGRAM_API_URL env ++ [Lit "/getFile?file_id="; Str file_id]) answer
      :: rest.
Proof.
  intros Hupdate Hsize Hn Hid Htruthy.
  destruct (classify_attachment_message _ _ _ _ _ Hupdate) as (message & Hcap & Hrun).
  rewrite handler_run, try_block_run, Hrun.
  unfold bind at 1.
  rewrite (attachment_within_limit _ _ _ file_id caption); try assumption.
  2:{ unfold declared_size. rewrite Hsize. unfold Py.gt, Py.number.
      replace (Qle_bool (inject_Z n) (inject_Z MAX_FILE_SIZE_BYTES)) with true;
        [reflexivity|].
      symmetry. apply Qle_bool_iff. rewrite <- Zle_Qle. exact Hn. }
  destruct (prepare_parts_first_request chat_id [] file_id caption
              [Now (clock env [])] Htruthy) as (answer & rest & Htr).
  unfold bind, ret.
  destruct (prepare_parts env chat_id [] file_id caption [Now (clock env [])])
    as [[parts|v|e] tr1]; cbn [snd] in Htr; subst tr1; cbn [app].
  - destruct (record_expense_run env chat_id user_id
                (Datetime.isoformat (clock env []) ++ "Z")%string parts
                (Now (clock env []) :: Get (TELEGRAM_API_URL env
                   ++ [Lit "/getFile?file_id="; Str file_id]) answer :: rest))
      as (evs & Htr & _).
    destruct (record_expense env _ _ _ _ _) as [[[]|v|e] tr2];
      cbn [snd] in Htr; subst tr2; cbn [app]; eexists _, _; reflexivity.
  - eexists _, _; reflexivity.
  - eexists _, _; reflexivity.
Qed.

End AttachmentPaths.

Lemma document_update_is_an_attachment (size : Z) (caption : json) :
  attachment_message (document_update size caption) (JInt 1) (JInt 2)
    (document_fields size) caption.
Proof.
  exists (sample_sender
          ++ [("document"%string, JObj (document_fields size));
              ("caption"%string, caption)]).
  repeat split. right. split; reflexivity.
Defined.

Lemma oversized_attachment_is_rejected_witness :
  let update := document_update 6291456 JNull in
  attachment_message update (JInt 1) (JInt 2) (document_fields 6291456) JNull
  /\ Py.lookup "file_size" (document_fields 6291456) = Some (JInt 6291456)
  /\ MAX_FILE_SIZE_BYTES < 6291456
  /\ overflows (inject_Z 6291456 / 1024) = false
  /\ replies_with pizza_world [Now (clock pizza_world [])] (JInt 1)
       (Messages.file_too_large (inject_Z 6291456 / 1024 / 1024)
          (inject_Z MAX_FILE_SIZE_BYTES / 1024 / 1024))
       (handle_telegram_webhook pizza_world (ok update) []).
Proof.
  intros update.
  assert (H1 := document_update_is_an_attachment 6291456 JNull).
  assert (H2 : Py.lookup "file_size" (document_fields 6291456) = Some (JInt 6291456))
    by reflexivity.
  assert (H3 : MAX_FILE_SIZE_BYTES < 6291456) by reflexivity.
  assert (H4 : overflows (inject_Z 6291456 / 1024) = false)
    by (vm_compute; reflexivity).
  split; [exact H1|]. split; [exact H2|]. split; [exact H3|]. split; [exact H4|].
  exact (oversized_attachment_is_rejected pizza_world update (JInt 1) (JInt 2)
           (document_fields 6291456) JNull 6291456 H1 H2 H3 H4).
Defined.

Lemma attachment_within_limit_is_fetched_witness :
  let update := document_update 5242880 JNull in
  attachment_message update (JInt 1) (JInt 2) (document_fields 5242880) JNull
  /\ Py.lookup "file_size" (document_fields 5242880) = Some (JInt 5242880)
  /\ 5242880 <= MAX_FILE_SIZE_BYTES
  /\ Py.lookup "file_id" (document_fields 5242880) = Some (JStr "doc")
  /\ Py.truthy (JStr "doc") = true
  /\ exists answer rest,
       snd (handle_telegram_webhook photo_world (ok update) [])
       = Now (clock photo_world [])
         :: Get (TELEGRAM_API_URL photo_world
                 ++ [Lit "/getFile?file_id="; Str (JStr "doc")]) answer
         :: rest.
Proof.
  intros update.
  assert (H1 := document_update_is_an_attachment 5242880 JNull).
  assert (H3 : 5242880 <= MAX_FILE_SIZE_BYTES) by (vm_compute; discriminate).
  split; [exact H1|]. split; [reflexivity|]. split; [exact H3|].
  split; [reflexivity|]. split; [reflexivity|].
  exact (attachment_within_limit_is_fetched photo_world update (JInt 1) (JInt 2)
           (document_fields 5242880) JNull (JStr "doc") 5242880
           H1 eq_refl H3 eq_refl eq_refl).
Defined.

(** ** The download of a file *)

Section DownloadPaths.

Variable env : Env.

(** The [try] block on an attachment that passes the size check. *)
Lemma try_block_on_attachment (update chat_id user_id : json)
  (file_data : list (string * json)) (caption file_id : json) :
  attachment_message update chat_id user_id file_data caption ->
  Py.gt (declared_size file_data) MAX_FILE_SIZE_BYTES = ok false ->
  Py.lookup "file_id" file_data = Some file_id ->
  webhook_try_block env (ok update) []
  = bind (prepare_parts env chat_id [] file_id caption)
      (fun gemini_parts =>
         record_expense env chat_id user_id
           (Datetime.isoformat (clock env []) ++ "Z")%string gemini_parts)
      [Now (clock env [])].
Proof.
  intros Hupdate Hsize Hid.
  destruct (classify_attachment_message env _ _ _ _ _ Hupdate)
    as (message & Hcap & Hrun).
  rewrite try_block_run, Hrun. unfold bind at 1.
  rewrite (attachment_within_limit env _ _ _ file_id caption); try assumption.
  unfold bind, ret.
  destruct (prepare_parts env chat_id [] file_id caption [Now (clock env [])])
    as [[parts|v|e] tr1]; reflexivity.
Qed.

(** X15. When the download of the file raises, the user is sent the
    download-error text with that exception, and nothing is extracted. *)
Theorem download_failure_is_reported (update chat_id user_id : json)
  (file_data : list (string * json)) (caption file_id : json)
  (e : exn) (tr1 : trace) :
  attachment_message update chat_id user_id file_data caption ->
  Py.gt (declared_size file_data) MAX_FILE_SIZE_BYTES = ok false ->
  Py.lookup "file_id" file_data = Some file_id ->
  Py.truthy file_id = true ->
  download_telegram_file env file_id [Now (clock env [])] = (Raised e, tr1) ->
  replies_with env tr1 chat_id (Messages.download_error e)
    (handle_telegram_webhook env (ok update) []).
Proof.
  intros Hupdate Hsize Hid Htruthy Hdownload.
  apply handler_replies.
  rewrite (try_block_on_attachment _ _ _ _ _ _ Hupdate Hsize Hid).
  unfold bind at 1, prepare_parts, try_, bind at 1.
  rewrite Htruthy, Hdownload.
  unfold bind, send_telegram_message, return_. cbv zeta.
  destruct (requests_post env _ _ _); reflexivity.
Qed.

(** The download stage once the file is there: the caption decides. *)
Lemma prepare_parts_after_download (chat_id : json) (parts : list part)
  (file_id caption : json) (image : list Byte.byte) (tr tr1 : trace) :
  Py.truthy file_id = true ->
  download_telegram_file env file_id tr = (Normal image, tr1) ->
  prepare_parts env chat_id parts file_id caption tr
  = if Py.truthy caption then
      match Py.len caption with
      | inl e =>
          bind (send_telegram_message env chat_id (Messages.download_error e))
            (fun _ => return_ status_ok) tr1
      | inr n =>
          if MAX_TEXT_CHARS <? n then
            let too_long := Messages.caption_too_long n MAX_TEXT_CHARS in
            match requests_post env tr1
                    (TELEGRAM_API_URL env ++ [Lit "/sendMessage"])
                    {| chat_id_ := chat_id; text_ := too_long;
                       parse_mode := "Markdown" |} with
            | None => (Returned status_ok, tr1 ++ [reply env chat_id too_long None])
            | Some e =>
                bind (send_telegram_message env chat_id (Messages.download_error e))
                  (fun _ => return_ status_ok)
                  (tr1 ++ [reply env chat_id too_long (Some e)])
            end
          else
            (Normal ((parts ++ [FromBytes image "image/jpeg"]) ++ [Raw caption]), tr1)
      end
    else
      (Normal ((parts ++ [FromBytes image "image/jpeg"])
               ++ [Raw (JStr Messages.default_prompt)]), tr1).
Proof.
  intros Htruthy Hdownload.
  unfold prepare_parts, try_. rewrite Htruthy.
  unfold bind at 1. rewrite Hdownload.
  destruct (Py.truthy caption); [|reflexivity].
  unfold bind at 1. destruct (Py.len caption) as [e|n]; [reflexivity|].
  cbn [lift]. unfold ret at 1.
  destruct (MAX_TEXT_CHARS <? n); [|reflexivity].
  unfold bind at 1 2, send_telegram_message at 1, reply. cbv zeta.
  destruct (requests_post env tr1 _ _); reflexivity.
Qed.

(** X16. The caption of a downloaded file: up to 500 characters it is the
    text of the prompt, after the image; beyond, the user is sent the
    caption-length text and nothing is extracted. Should that post raise,
    the download-error text is sent with its exception. *)
Theorem caption_length_boundary (update chat_id user_id : json)
  (file_data : list (string * json)) (file_id : json) (caption : string)
  (image : list Byte.byte) (tr1 : trace) :
  attachment_message update chat_id user_id file_data (JStr caption) ->
  Py.gt (declared_size file_data) MAX_FILE_SIZE_BYTES = ok false ->
  Py.lookup "file_id" file_data = Some file_id ->
  Py.truthy file_id = true ->
  download_telegram_file env file_id [Now (clock env [])] = (Normal image, tr1) ->
  caption <> EmptyString ->
  let run := handle_telegram_webhook env (ok update) [] in
  let too_long := Messages.caption_too_long (PyStr.len caption) MAX_TEXT_CHARS in
  if MAX_TEXT_CHARS <? PyStr.len caption then
    run = (Normal status_ok, tr1 ++ [reply env chat_id too_long None])
    \/ exists e,
         replies_with env (tr1 ++ [reply env chat_id too_long (Some e)])
           chat_id (Messages.download_error e) run
  else
    extracted (snd run)
    = [([FromBytes image "image/jpeg"; Raw (JStr caption)],
        generate_content env tr1
          [FromBytes image "image/jpeg"; Raw (JStr caption)])].
Proof.
  intros Hupdate Hsize Hid Htruthy Hdownload Hcaption. cbv zeta.
  assert (Htry := try_block_on_attachment _ _ _ _ _ _ Hupdate Hsize Hid).
  assert (Hcap : Py.truthy (JStr caption) = true).
  { cbn. destruct caption; [congruence | reflexivity]. }
  assert (Hnone : extracted tr1 = []).
  { destruct (guarded_download env file_id [Now (clock env [])])
      as (evs & Hevs & _ & Hnone & _).
    rewrite Hdownload in Hevs. cbn [snd] in Hevs. subst tr1.
    rewrite extracted_app, Hnone. reflexivity. }
  unfold bind at 1 in Htry.
  rewrite (prepare_parts_after_download _ _ _ _ _ _ _ Htruthy Hdownload) in Htry.
  rewrite Hcap in Htry. cbn [Py.len] in Htry.
  change (ok (PyStr.len caption)) with (@inr exn Z (PyStr.len caption)) in Htry.
  cbv beta iota zeta in Htry.
  destruct (MAX_TEXT_CHARS <? PyStr.len caption).
  - match type of Htry with
    | context [requests_post env tr1 ?u ?p] =>
        destruct (requests_post env tr1 u p) as [e|]
    end.
    + right. exists e. apply handler_replies. rewrite Htry.
      unfold bind, send_telegram_message. cbv zeta.
      destruct (requests_post env (tr1 ++ _) _ _); reflexivity.
    + left. rewrite handler_run, Htry. reflexivity.
  - cbn [app] in Htry.
    destruct (handler_observations env (ok update) []) as (_ & _ & ->).
    rewrite Htry.
    match goal with
    | |- context [record_expense env ?c ?u ?t ?p ?pre] =>
        destruct (record_expense_run env c u t p pre) as (evs & -> & Hone & _)
    end.
    rewrite extracted_app, Hnone, Hone. reflexivity.
Qed.

(** X17. [download_telegram_file] returns the bytes of a file only after two
    requests that were both answered: the first gave the file path under
    [result], the second, for that path, came back with a status that is
    no client or server error. The status of the first is not looked at. *)
Theorem download_returns_the_content (file_id : json) (image : list Byte.byte)
  (tr tr1 : trace) :
  download_telegram_file env file_id tr = (Normal image, tr1) ->
  exists info response result_ file_path file_response,
    tr1 = tr ++ [Get (TELEGRAM_API_URL env ++ [Lit "/getFile?file_id="; Str file_id])
                   (ok info);
                 Get (TELEGRAM_FILE_URL env ++ [Lit "/"; Str file_path])
                   (ok file_response)]
    /\ json_ info = ok response
    /\ Py.getitem response "result" = ok result_
    /\ Py.getitem result_ "file_path" = ok file_path
    /\ ~ 400 <= status_code file_response < 600
    /\ content file_response = image.
Proof.
  unfold download_telegram_file, http_get, raise_for_status.
  run_norm. intros H.
  repeat match type of H with
  | context [match ?x with _ => _ end] =>
      let s := scrutinee x in destruct s eqn:?; run_norm; try discriminate H
  end.
  injection H as <- <-. rewrite <- app_assoc.
  eexists _, _, _, _, _. split; [reflexivity|].
  repeat split; try eassumption.
  match goal with
  | Hs : _ && _ = false |- _ => apply andb_false_iff in Hs; lia
  end.
Qed.

End DownloadPaths.

Lemma download_failure_is_reported_witness :
  let update := document_update 1000 JNull in
  let failed :=
    download_telegram_file pizza_world (JStr "doc") [Now (clock pizza_world [])] in
  attachment_message update (JInt 1) (JInt 2) (document_fields 1000) JNull
  /\ Py.gt (declared_size (document_fields 1000)) MAX_FILE_SIZE_BYTES = ok false
  /\ Py.lookup "file_id" (document_fields 1000) = Some (JStr "doc")
  /\ Py.truthy (JStr "doc") = true
  /\ failed = (Raised ValueError, snd failed)
  /\ replies_with pizza_world (snd failed) (JInt 1)
       (Messages.download_error ValueError)
       (handle_telegram_webhook pizza_world (ok update) []).
Proof.
  intros update failed.
  assert (H1 := document_update_is_an_attachment 1000 JNull).
  assert (H5 : failed = (Raised ValueError, snd failed)) by reflexivity.
  split; [exact H1|]. repeat (split; [reflexivity|]).
  exact (download_failure_is_reported pizza_world update (JInt 1) (JInt 2)
           (document_fields 1000) JNull (JStr "doc") ValueError (snd failed)
           H1 eq_refl eq_refl eq_refl H5).
Defined.

Lemma caption_length_boundary_witness :
  let update := document_update 1000 (JStr "lunch with the team") in
  let fetched :=
    download_telegram_file photo_world (JStr "doc") [Now (clock photo_world [])] in
  let image := [Byte.xff; Byte.xd8; Byte.xff] in
  attachment_message update (JInt 1) (JInt 2) (document_fields 1000)
    (JStr "lunch with the team")
  /\ Py.gt (declared_size (document_fields 1000)) MAX_FILE_SIZE_BYTES = ok false
  /\ Py.lookup "file_id" (document_fields 1000) = Some (JStr "doc")
  /\ Py.truthy (JStr "doc") = true
  /\ fetched = (Normal image, snd fetched)
  /\ "lunch with the team"%string <> EmptyString
  /\ extracted (snd (handle_telegram_webhook photo_world (ok update) []))
     = [([FromBytes image "image/jpeg"; Raw (JStr "lunch with the team")],
         generate_content photo_world (snd fetched)
           [FromBytes image "image/jpeg"; Raw (JStr "lunch with the team")])].
Proof.
  intros update fetched image.
  assert (H1 := document_update_is_an_attachment 1000 (JStr "lunch with the team")).
  assert (H5 : fetched = (Normal image, snd fetched)) by reflexivity.
  assert (H6 : "lunch with the team"%string <> EmptyString) by discriminate.
  split; [exact H1|]. repeat (split; [reflexivity|]).
  split; [exact H6|].
  exact (caption_length_boundary photo_world update (JInt 1) (JInt 2)
           (document_fields 1000) (JStr "doc") "lunch with the team" image
           (snd fetched) H1 eq_refl eq_refl eq_refl H5 H6).
Defined.

Lemma download_returns_the_content_witness :
  let fetched :=
    download_telegram_file photo_world (JStr "large") [Now (clock photo_world [])] in
  let image := [Byte.xff; Byte.xd8; Byte.xff] in
  fetched = (Normal image, snd fetched)
  /\ exists info response result_ file_path file_response,
       snd fetched
       = [Now (clock photo_world [])]
         ++ [Get (TELEGRAM_API_URL photo_world
                  ++ [Lit "/getFile?file_id="; Str (JStr "large")]) (ok info);
             Get (TELEGRAM_FILE_URL photo_world ++ [Lit "/"; Str file_path])
               (ok file_response)]
       /\ json_ info = ok response
       /\ Py.getitem response "result" = ok result_
       /\ Py.getitem result_ "file_path" = ok file_path
       /\ ~ 400 <= status_code file_response < 600
       /\ content file_response = image.
Proof.
  intros fetched image.
  assert (H : fetched = (Normal image, snd fetched)) by reflexivity.
  split; [exact H|].
  exact (download_returns_the_content photo_world (JStr "large") image
           [Now (clock photo_world [])] (snd fetched) H).
Defined.

(** ** The first day of a month *)

Lemma holds_from_spec (check : Z -> bool) (k : nat) :
  forall n, holds_from check k n = true ->
  forall i, n <= i < n + Z.of_nat k -> check i = true.
Proof.
  induction k as [|k IH]; intros n H i Hi; [lia|].
  cbn [holds_from] in H. apply andb_true_iff in H as [Hn Hrest].
  destruct (Z.eq_dec i n) as [->|Hne]; [exact Hn|].
  apply (IH (n + 1) Hrest). lia.
Qed.

(** The days of a year, leap or not, one by one. *)
Lemma month_day_table (leapyear : bool) (r : Z) :
  0 <= r < 365 -> month_day_ok leapyear r = true.
Proof.
  intros Hr.
  assert (H : holds_from (month_day_ok leapyear) 365 0 = true)
    by (destruct leapyear; vm_compute; reflexivity).
  apply (holds_from_spec _ _ _ H). lia.
Qed.

Lemma ordinal_taken_apart (n : Z) :
  1 <= n ->
  exists a b c e r,
    0 <= a /\ taken_apart b c e r /\ n = days_of a b c e r + 1.
Proof.
  intros Hn. unfold taken_apart, days_of.
  exists ((n - 1) / 146097), ((n - 1) mod 146097 / 36524),
    ((n - 1) mod 146097 mod 36524 / 1461),
    ((n - 1) mod 146097 mod 36524 mod 1461 / 365),
    ((n - 1) mod 146097 mod 36524 mod 1461 mod 365).
  Z.div_mod_to_equations. lia.
Qed.

(** What [ord2ymd] computes from the parts. *)
Lemma ord2ymd_of (a b c e r : Z) :
  taken_apart b c e r ->
  Datetime.ord2ymd (days_of a b c e r + 1)
  = let year := a * 400 + 1 + b * 100 + c * 4 + e in
    if (e =? 4) || (b =? 4) then (year - 1, 12, 31)
    else
      let '(m, d) := month_day r ((e =? 3) && (negb (c =? 24) || (b =? 3))) in
      (year, m, d).
Proof.
  intros H. unfold taken_apart, days_of in *.
  unfold Datetime.ord2ymd, month_day.
  replace (146097 * a + 36524 * b + 1461 * c + 365 * e + r + 1 - 1)
    with (146097 * a + 36524 * b + 1461 * c + 365 * e + r) by lia.
  assert (H1 : (146097 * a + 36524 * b + 1461 * c + 365 * e + r) / 146097 = a) by (Z.div_mod_to_equations; lia).
  assert (H2 : (146097 * a + 36524 * b + 1461 * c + 365 * e + r) mod 146097
               = 36524 * b + 1461 * c + 365 * e + r) by (Z.div_mod_to_equations; lia).
  rewrite H1, H2.
  assert (H3 : (36524 * b + 1461 * c + 365 * e + r) / 36524 = b) by (Z.div_mod_to_equations; lia).
  assert (H4 : (36524 * b + 1461 * c + 365 * e + r) mod 36524
               = 1461 * c + 365 * e + r) by (Z.div_mod_to_equations; lia).
  rewrite H3, H4.
  assert (H5 : (1461 * c + 365 * e + r) / 1461 = c) by (Z.div_mod_to_equations; lia).
  assert (H6 : (1461 * c + 365 * e + r) mod 1461 = 365 * e + r) by (Z.div_mod_to_equations; lia).
  rewrite H5, H6.
  assert (H7 : (365 * e + r) / 365 = e) by (Z.div_mod_to_equations; lia).
  assert (H8 : (365 * e + r) mod 365 = r) by (Z.div_mod_to_equations; lia).
  rewrite H7, H8.
  cbv zeta.
  destruct ((e =? 4) || (b =? 4)); [reflexivity|].
  match goal with
  | |- (if ?t then _ else _) = _ => destruct t
  end; reflexivity.
Qed.

(** The year a day falls in is a leap year when [ord2ymd] says so. *)
Lemma is_leap_of (a b c e : Z) :
  0 <= b <= 3 -> 0 <= c <= 24 -> 0 <= e <= 3 ->
  Datetime.is_leap (a * 400 + 1 + b * 100 + c * 4 + e)
  = (e =? 3) && (negb (c =? 24) || (b =? 3)).
Proof.
  intros Hb Hc He. unfold Datetime.is_leap.
  set (y := a * 400 + 1 + b * 100 + c * 4 + e).
  assert (H4 : y mod 4 = 0 <-> e = 3)
    by (subst y; split; intros; Z.div_mod_to_equations; lia).
  assert (H100 : y mod 100 = 0 <-> e = 3 /\ c = 24)
    by (subst y; split; intros; Z.div_mod_to_equations; lia).
  assert (H400 : y mod 400 = 0 <-> e = 3 /\ c = 24 /\ b = 3)
    by (subst y; split; intros; Z.div_mod_to_equations; lia).
  destruct (Z.eqb_spec (y mod 4) 0), (Z.eqb_spec (y mod 100) 0),
    (Z.eqb_spec (y mod 400) 0), (Z.eqb_spec e 3), (Z.eqb_spec c 24),
    (Z.eqb_spec b 3); cbn; try reflexivity; exfalso; tauto.
Qed.

(** The days before the year a day falls in. *)
Lemma days_before_year_of (a b c e : Z) :
  0 <= b <= 3 -> 0 <= c <= 24 -> 0 <= e <= 3 ->
  Datetime.days_before_year (a * 400 + 1 + b * 100 + c * 4 + e)
  = days_of a b c e 0.
Proof.
  intros Hb Hc He. unfold Datetime.days_before_year, days_of. cbv zeta.
  Z.div_mod_to_equations. lia.
Qed.

(** A day that [ord2ymd] does not treat apart: its month, its day, and
    the first of its month. *)
Lemma first_of_month_within (a b c e r : Z) :
  0 <= a -> taken_apart b c e r -> e <> 4 -> b <> 4 ->
  first_of_month_ok (days_of a b c e r + 1) = true.
Proof.
  intros Ha H He4 Hb4.
  assert (Hb : 0 <= b <= 3) by (unfold taken_apart in H; lia).
  assert (Hc : 0 <= c <= 24) by (unfold taken_apart in H; lia).
  assert (He : 0 <= e <= 3) by (unfold taken_apart in H; lia).
  assert (Hr : 0 <= r < 365) by (unfold taken_apart in H; lia).
  unfold first_of_month_ok.
  rewrite (ord2ymd_of a b c e r H). cbv zeta.
  replace ((e =? 4) || (b =? 4)) with false
    by (symmetry; apply orb_false_iff; split; apply Z.eqb_neq; assumption).
  set (leap := (e =? 3) && (negb (c =? 24) || (b =? 3))).
  pose proof (month_day_table leap r Hr) as Htable.
  unfold month_day_ok in Htable.
  destruct (month_day r leap) as [m d].
  set (before := Datetime.at_ Datetime.DAYS_BEFORE_MONTH m
                 + (if (2 <? m) && leap then 1 else 0)) in *.
  destruct (month_day before leap) as [m1 d1] eqn:Hfirst.
  apply andb_true_iff in Htable as [Htable Hd1]. apply Z.eqb_eq in Hd1.
  apply andb_true_iff in Htable as [Htable Hm1]. apply Z.eqb_eq in Hm1.
  apply andb_true_iff in Htable as [Htable Hbefore]. apply Z.eqb_eq in Hbefore.
  apply andb_true_iff in Htable as [Htable Hpos]. apply Z.leb_le in Hpos.
  apply andb_true_iff in Htable as [Htable Hd31]. apply Z.leb_le in Hd31.
  apply andb_true_iff in Htable as [Htable Hd]. apply Z.leb_le in Hd.
  apply andb_true_iff in Htable as [Hm Hm12].
  apply Z.leb_le in Hm. apply Z.leb_le in Hm12.
  subst m1 d1.
  assert (Hstart : Datetime.ymd2ord (a * 400 + 1 + b * 100 + c * 4 + e) m 1
                   = days_of a b c e before + 1).
  { unfold Datetime.ymd2ord, Datetime.days_before_month.
    rewrite (is_leap_of a b c e Hb Hc He), (days_before_year_of a b c e Hb Hc He).
    fold leap. fold before. unfold days_of. ring. }
  rewrite Hstart.
  assert (H' : taken_apart b c e before)
    by (clearbody before leap; unfold taken_apart in *; lia).
  rewrite (ord2ymd_of a b c e before H'). cbv zeta.
  replace ((e =? 4) || (b =? 4)) with false
    by (symmetry; apply orb_false_iff; split; apply Z.eqb_neq; assumption).
  fold leap. rewrite Hfirst. clearbody before leap.
  repeat (apply andb_true_iff; split);
    first [apply Z.leb_le | apply Z.eqb_eq]; unfold days_of, taken_apart in *;
    lia.
Qed.

(** The last day of a leap year, which [ord2ymd] treats apart: it is the
    31st of December, and 30 days after the 1st. *)
Lemma first_of_month_at_the_end (a b c e r : Z) :
  0 <= a -> taken_apart b c e r -> e = 4 \/ b = 4 ->
  first_of_month_ok (days_of a b c e r + 1) = true.
Proof.
  intros Ha H Hend.
  unfold first_of_month_ok.
  rewrite (ord2ymd_of a b c e r H). cbv zeta.
  replace ((e =? 4) || (b =? 4)) with true
    by (symmetry; apply orb_true_iff; rewrite !Z.eqb_eq; exact Hend).
  (* the day 30 days earlier, taken apart *)
  assert (Hearlier : exists b' c',
            taken_apart b' c' 3 335
            /\ 0 <= b' <= 3 /\ 0 <= c' <= 24
            /\ negb (c' =? 24) || (b' =? 3) = true
            /\ days_of a b c e r = days_of a b' c' 3 335 + 30
            /\ a * 400 + 1 + b * 100 + c * 4 + e - 1
               = a * 400 + 1 + b' * 100 + c' * 4 + 3).
  { unfold taken_apart, days_of in *.
    destruct (Z.eq_dec b 4) as [-> | Hb].
    - exists 3, 24. repeat split; try reflexivity; lia.
    - exists b, c.
      assert (e = 4) by lia. subst e.
      assert (Hc : c <= 23) by lia.
      replace (c =? 24) with false by (symmetry; apply Z.eqb_neq; lia).
      repeat split; try reflexivity; lia. }
  destruct Hearlier as (b' & c' & H' & Hb' & Hc' & Hleap & Hdays & Hyear).
  rewrite Hyear, Hdays.
  assert (Hstart : Datetime.ymd2ord (a * 400 + 1 + b' * 100 + c' * 4 + 3) 12 1
                   = days_of a b' c' 3 335 + 1).
  { unfold Datetime.ymd2ord, Datetime.days_before_month.
    rewrite (is_leap_of a b' c' 3 Hb' Hc' ltac:(lia)).
    rewrite (days_before_year_of a b' c' 3 Hb' Hc' ltac:(lia)).
    rewrite Hleap. unfold days_of.
    change (Datetime.at_ Datetime.DAYS_BEFORE_MONTH 12
            + (if (2 <? 12) && ((3 =? 3) && true) then 1 else 0)) with 335.
    lia. }
  rewrite Hstart, (ord2ymd_of a b' c' 3 335 H'). cbv zeta.
  replace (b' =? 4) with false by (symmetry; apply Z.eqb_neq; lia).
  rewrite Hleap.
  change (month_day 335 ((3 =? 3) && true)) with (12, 1).
  change ((3 =? 4) || false) with false. cbv iota beta.
  repeat (apply andb_true_iff; split);
    first [apply Z.leb_le | apply Z.eqb_eq]; unfold days_of, taken_apart in *;
    lia.
Qed.

(** Every day from 0001-01-01 on. *)
Lemma first_of_month (n : Z) : 1 <= n -> first_of_month_ok n = true.
Proof.
  intros Hn.
  destruct (ordinal_taken_apart n Hn) as (a & b & c & e & r & Ha & H & ->).
  destruct (Z.eq_dec e 4) as [He | He];
    [apply first_of_month_at_the_end; auto|].
  destruct (Z.eq_dec b 4) as [Hb | Hb];
    [apply first_of_month_at_the_end; auto|].
  apply first_of_month_within; assumption.
Qed.

(** ** The time ranges of [/daily] and [/month] *)

Section Resolver.

Variable env : Env.

Lemma string_append_assoc (a b c : string) : ((a ++ b) ++ c = a ++ (b ++ c))%string.
Proof. induction a as [|x a IH]; cbn; [reflexivity | rewrite IH; reflexivity]. Qed.

(** X18. For [/daily] the clock is read once and the range is today's date
    from [00:00:00] to [23:59:59.999999]; [isoformat] leaves out the
    fraction of the start, which is zero. *)
Theorem daily_window_is_today (tr : trace) :
  let today := Datetime.date_of (clock env tr) in
  get_query_time_range env "/daily" tr
  = (Normal ((isodate today ++ "T00:00:00Z")%string,
             (isodate today ++ "T23:59:59.999999Z")%string),
     tr ++ [Now (clock env tr)]).
Proof.
  cbv zeta. unfold get_query_time_range, datetime_now, bind.
  cbn [String.eqb Ascii.eqb Bool.eqb]. unfold ret, iso_range, daily_window.
  cbn [fst snd]. unfold Datetime.isoformat, isodate.
  cbn [Datetime.date_of Datetime.time_of Datetime.combine].
  destruct (Datetime.ord2ymd _) as [[y m] d].
  rewrite !string_append_assoc. reflexivity.
Qed.


Lemma unknown_command_eqb (command : string) :
  ~ In command ["/daily"; "/week"; "/month"]%string ->
  String.eqb command "/daily" = false
  /\ String.eqb command "/week" = false
  /\ String.eqb command "/month" = false.
Proof.
  intros H. repeat split; apply String.eqb_neq; intros ->; apply H; cbn; auto.
Qed.

(** X20. For a command other than [/daily], [/week] and [/month] the
    resolver reads the clock twice, once for itself and once in the call
    for [/daily], and then raises [AttributeError]: it yields no range.
    [generate_report] makes this call outside its [try] statement, so it
    raises the same, before any query and any message. *)
Theorem unknown_command_has_no_time_range
  (command : string) (chat_id user_id : json) (tr : trace) :
  ~ In command ["/daily"; "/week"; "/month"]%string ->
  let now := clock env tr in
  let again := clock env (tr ++ [Now now]) in
  get_query_time_range env command tr
    = (Raised AttributeError, tr ++ [Now now; Now again])
  /\ generate_report env chat_id user_id command tr
     = (Raised AttributeError, tr ++ [Now now; Now again]).
Proof.
  intros Hcommand. cbv zeta.
  destruct (unknown_command_eqb command Hcommand) as (Hd & Hw & Hm).
  assert (Hrange : get_query_time_range env command tr
                   = (Raised AttributeError,
                      tr ++ [Now (clock env tr);
                             Now (clock env (tr ++ [Now (clock env tr)]))])).
  { unfold get_query_time_range, get_query_time_range_daily, datetime_now, bind.
    rewrite Hd, Hw, Hm. unfold raise. rewrite <- app_assoc. reflexivity. }
  split; [exact Hrange|].
  unfold generate_report, def_, bind. rewrite Hrange. reflexivity.
Qed.

End Resolver.


Lemma unknown_command_has_no_time_range_witness :
  let env := report_world in
  let now := clock env [] in
  let again := clock env ([] ++ [Now now]) in
  ~ In "/year"%string ["/daily"; "/week"; "/month"]%string
  /\ get_query_time_range env "/year" []
     = (Raised AttributeError, [] ++ [Now now; Now again])
  /\ generate_report env (JInt 1) (JInt 2) "/year" []
     = (Raised AttributeError, [] ++ [Now now; Now again]).
Proof.
  intros env now again.
  assert (H : ~ In "/year"%string ["/daily"; "/week"; "/month"]%string).
  { intros [H | [H | [H | []]]]; discriminate H. }
  split; [exact H|].
  exact (unknown_command_has_no_time_range env "/year" (JInt 1) (JInt 2) [] H).
Defined.

(** ** Grouping by category *)

Section Grouping.

Lemma Qeq_bool_sym (x y : Q) : Qeq_bool x y = Qeq_bool y x.
Proof.
  destruct (Qeq_bool x y) eqn:H1, (Qeq_bool y x) eqn:H2; try reflexivity.
  - apply Qeq_bool_iff in H1. symmetry in H1. apply Qeq_bool_iff in H1. congruence.
  - apply Qeq_bool_iff in H2. symmetry in H2. apply Qeq_bool_iff in H2. congruence.
Qed.

Lemma Qeq_bool_trans (x y z : Q) :
  Qeq_bool x y = true -> Qeq_bool y z = true -> Qeq_bool x z = true.
Proof.
  rewrite !Qeq_bool_iff. intros H1 H2. rewrite H1. exact H2.
Qed.

Lemma key_eqb_refl (k : json) : Report.hashable k = true -> Report.key_eqb k k = true.
Proof.
  destruct k; cbn; try discriminate; intros _;
    try apply Qeq_bool_refl; try reflexivity.
  apply String.eqb_refl.
Qed.

Lemma key_eqb_sym (a b : json) : Report.key_eqb a b = Report.key_eqb b a.
Proof.
  destruct a, b; cbn; try reflexivity; try apply Qeq_bool_sym.
  apply String.eqb_sym.
Qed.

Lemma key_eqb_trans (a b c : json) :
  Report.key_eqb a b = true -> Report.key_eqb b c = true ->
  Report.key_eqb a c = true.
Proof.
  destruct a, b; cbn; try discriminate; destruct c; cbn; try discriminate;
    try apply Qeq_bool_trans; try reflexivity.
  rewrite !String.eqb_eq. congruence.
Qed.

(** Equal keys are found equal to the same keys. *)
Lemma key_eqb_compat (k c k' : json) :
  Report.key_eqb k c = true -> Report.key_eqb k' k = Report.key_eqb k' c.
Proof.
  intros H.
  destruct (Report.key_eqb k' k) eqn:H1, (Report.key_eqb k' c) eqn:H2;
    try reflexivity.
  - rewrite (key_eqb_trans _ _ _ H1 H) in H2. discriminate.
  - rewrite key_eqb_sym in H.
    rewrite (key_eqb_trans _ _ _ H2 H) in H1. discriminate.
Qed.

Lemma get_compat (d : Report.totals) (k c : json) :
  Report.key_eqb k c = true -> Report.get d k = Report.get d c.
Proof.
  intros H. induction d as [|[k' v] r IH]; cbn; [reflexivity|].
  rewrite (key_eqb_compat _ _ k' H), IH. reflexivity.
Qed.

(** [d[k] = v] followed by [d.get(c, 0.0)]. *)
Lemma get_set (d : Report.totals) (k c : json) (v : Float64.t) :
  Report.get (Report.set d k v) c
  = if Report.key_eqb k c then v else Report.get d c.
Proof.
  induction d as [|[k' v'] r IH]; cbn; [reflexivity|].
  destruct (Report.key_eqb k' k) eqn:Hk; cbn.
  - assert (Hc : Report.key_eqb k' c = Report.key_eqb k c).
    { rewrite (key_eqb_sym k' c), (key_eqb_sym k c).
      apply key_eqb_compat, Hk. }
    rewrite Hc. destruct (Report.key_eqb k c); reflexivity.
  - rewrite IH.
    destruct (Report.key_eqb k' c) eqn:Hk', (Report.key_eqb k c) eqn:Hc;
      try reflexivity.
    rewrite key_eqb_sym in Hc.
    rewrite (key_eqb_trans _ _ _ Hk' Hc) in Hk. discriminate.
Qed.

(** One turn of the loop, as a function of the document. *)
Lemma add_expense_step (total total' : Float64.t) (d d' : Report.totals)
  (exp : json) :
  Report.add_expense (total, d) exp = ok (total', d') ->
  Report.hashable (category_of exp) = true
  /\ total' = Float64.add total (amount_of exp)
  /\ d' = Report.set d (category_of exp)
            (Float64.add (Report.get d (category_of exp)) (amount_of exp)).
Proof.
  unfold Report.add_expense, and_then, category_of, amount_of.
  destruct (Py.getitem exp "amount") as [|amount]; [discriminate|].
  destruct (Py.getitem exp "category") as [|cat]; [discriminate|].
  destruct (Report.operand amount) as [|a]; [discriminate|].
  destruct (Report.hashable cat); [|discriminate].
  intros [= <- <-]. auto.
Qed.

Lemma amounts_in_cons (c exp : json) (rest : list json) :
  amounts_in c (exp :: rest)
  = if Report.key_eqb (category_of exp) c
    then amount_of exp :: amounts_in c rest
    else amounts_in c rest.
Proof.
  unfold amounts_in. cbn [filter].
  destruct (Report.key_eqb (category_of exp) c); reflexivity.
Qed.

(** What the loop adds to the entry of a key: the amounts of the
    documents of that category, one after the other. *)
Lemma accumulate_get (records : list json) :
  forall acc acc',
    Report.accumulate acc records = ok acc' ->
    forall c,
      Report.get (snd acc') c
      = fold_left Float64.add (amounts_in c records) (Report.get (snd acc) c).
Proof.
  induction records as [|exp rest IH]; cbn [Report.accumulate];
    intros [total d] acc' Hrun c.
  - injection Hrun as <-. reflexivity.
  - unfold and_then in Hrun.
    destruct (Report.add_expense (total, d) exp) as [|[total1 d1]] eqn:Hstep;
      [discriminate|].
    apply add_expense_step in Hstep as (_ & _ & ->).
    rewrite (IH _ _ Hrun c). cbn [snd].
    rewrite get_set, amounts_in_cons.
    destruct (Report.key_eqb (category_of exp) c) eqn:Hc.
    + rewrite (get_compat d _ _ Hc). reflexivity.
    + reflexivity.
Qed.

Lemma set_keys (d : Report.totals) (k : json) (v : Float64.t) :
  List.map fst (Report.set d k v) = List.map fst d
  \/ (List.map fst (Report.set d k v) = List.map fst d ++ [k]
      /\ Forall (fun k' => Report.key_eqb k' k = false) (List.map fst d)).
Proof.
  induction d as [|[k' v'] r IH]; cbn.
  - right. split; [reflexivity | constructor].
  - destruct (Report.key_eqb k' k) eqn:Hk; cbn.
    + left. reflexivity.
    + destruct IH as [-> | [-> H]].
      * left. reflexivity.
      * right. split; [reflexivity|]. constructor; assumption.
Qed.

Lemma distinct_keys_snoc (keys : list json) (k : json) :
  distinct_keys_of keys ->
  Forall (fun k' => Report.key_eqb k' k = false) keys ->
  distinct_keys_of (keys ++ [k]).
Proof.
  unfold distinct_keys_of. induction 1 as [|a l Ha Hl IH]; cbn; intros Hk.
  - repeat constructor.
  - inversion Hk as [|? ? Hak Hlk]; subst.
    constructor; [|apply IH, Hlk].
    apply Forall_app. split; [exact Ha|]. constructor; [exact Hak | constructor].
Qed.

Lemma distinct_categories_keys (d : Report.totals) :
  distinct_categories d <-> distinct_keys_of (List.map fst d).
Proof.
  unfold distinct_categories, distinct_keys_of.
  induction d as [|x r IH]; cbn.
  - split; constructor.
  - split; intros H; inversion H as [|? ? Hx Hr]; subst;
      (constructor; [|apply IH, Hr]).
    + rewrite Forall_map. exact Hx.
    + rewrite Forall_map in Hx. exact Hx.
Qed.

Lemma set_has_key (d : Report.totals) (k : json) (v : Float64.t) :
  Report.hashable k = true ->
  exists c, In c (List.map fst (Report.set d k v)) /\ Report.key_eqb c k = true.
Proof.
  intros Hk. induction d as [|[k' v'] r IH]; cbn.
  - exists k. split; [left; reflexivity | apply key_eqb_refl, Hk].
  - destruct (Report.key_eqb k' k) eqn:Hk'; cbn.
    + exists k'. split; [left; reflexivity | exact Hk'].
    + destruct IH as (c & Hin & Hc). exists c. split; [right; exact Hin | exact Hc].
Qed.

(** The loop removes no key. *)
Lemma accumulate_keeps_keys (records : list json) :
  forall acc acc',
    Report.accumulate acc records = ok acc' ->
    forall c, In c (List.map fst (snd acc)) -> In c (List.map fst (snd acc')).
Proof.
  induction records as [|exp rest IH]; cbn [Report.accumulate];
    intros [total d] acc' Hrun c Hin.
  - injection Hrun as <-. exact Hin.
  - unfold and_then in Hrun.
    destruct (Report.add_expense (total, d) exp) as [|[total1 d1]] eqn:Hstep;
      [discriminate|].
    apply add_expense_step in Hstep as (_ & _ & ->).
    apply (IH _ _ Hrun). cbn [snd] in *.
    destruct (set_keys d (category_of exp)
                (Float64.add (Report.get d (category_of exp)) (amount_of exp)))
      as [-> | [-> _]]; [exact Hin | apply in_or_app; left; exact Hin].
Qed.

(** The state of the dict in the loop: hashable keys, no two of them
    equal, each the category of a document or there from the start, and
    one for the category of every document. *)
Lemma accumulate_keys (records : list json) :
  forall acc acc',
    Report.accumulate acc records = ok acc' ->
    distinct_keys_of (List.map fst (snd acc)) ->
    Forall (fun c => Report.hashable c = true) (List.map fst (snd acc)) ->
    distinct_keys_of (List.map fst (snd acc'))
    /\ Forall (fun c => Report.hashable c = true) (List.map fst (snd acc'))
    /\ (forall c, In c (List.map fst (snd acc')) ->
          In c (List.map fst (snd acc))
          \/ exists exp, In exp records /\ category_of exp = c)
    /\ (forall exp, In exp records ->
          exists c, In c (List.map fst (snd acc'))
                    /\ Report.key_eqb c (category_of exp) = true).
Proof.
  induction records as [|exp rest IH]; cbn [Report.accumulate];
    intros [total d] acc' Hrun Hdistinct Hhash.
  - injection Hrun as <-. cbn [snd]. repeat split; try assumption.
    + intros c Hin. left. exact Hin.
    + intros exp [].
  - unfold and_then in Hrun.
    destruct (Report.add_expense (total, d) exp) as [|[total1 d1]] eqn:Hstep;
      [discriminate|].
    apply add_expense_step in Hstep as (Hk & _ & Hd1).
    cbn [snd] in *.
    set (k := category_of exp) in *.
    set (v := Float64.add (Report.get d k) (amount_of exp)) in *.
    assert (Hkeys := set_keys d k v). rewrite <- Hd1 in Hkeys.
    assert (Hhash1 : Forall (fun c => Report.hashable c = true) (List.map fst d1)).
    { destruct Hkeys as [-> | [-> _]]; [exact Hhash|].
      apply Forall_app. split; [exact Hhash | constructor; [exact Hk | constructor]]. }
    assert (Hdistinct1 : distinct_keys_of (List.map fst d1)).
    { destruct Hkeys as [-> | [-> Hnew]]; [exact Hdistinct|].
      apply distinct_keys_snoc; assumption. }
    destruct (IH (total1, d1) acc' Hrun Hdistinct1 Hhash1)
      as (Hd' & Hh' & Hfrom & Hto).
    cbn [snd] in *.
    repeat split; try assumption.
    + intros c Hin. destruct (Hfrom c Hin) as [Hc | (exp' & Hexp' & Hc)].
      * destruct Hkeys as [Heq | [Heq _]]; rewrite Heq in Hc.
        -- left. exact Hc.
        -- apply in_app_or in Hc as [Hc | [<- | []]]; [left; exact Hc|].
           right. exists exp. split; [left; reflexivity | reflexivity].
      * right. exists exp'. split; [right; exact Hexp' | exact Hc].
    + intros exp' [<- | Hin]; [|apply Hto, Hin].
      destruct (set_has_key d k v Hk) as (c & Hin & Hc). rewrite <- Hd1 in Hin.
      exists c. split; [|exact Hc].
      exact (accumulate_keeps_keys rest (total1, d1) acc' Hrun c Hin).
Qed.

(** With no two keys equal, the entry of a key is what [get] finds. *)
Lemma get_entry (d : Report.totals) (c : json) (v : Float64.t) :
  distinct_keys_of (List.map fst d) ->
  Report.key_eqb c c = true ->
  In (c, v) d -> Report.get d c = v.
Proof.
  unfold distinct_keys_of. intros Hd Hc.
  induction d as [|[k' v'] r IH]; cbn; [intros []|].
  inversion Hd as [|? ? Hk' Hr]; subst.
  intros [[= -> ->] | Hin].
  - rewrite Hc. reflexivity.
  - assert (Hne : Report.key_eqb k' c = false).
    { rewrite Forall_forall in Hk'. apply Hk'.
      apply in_map_iff. exists (c, v). auto. }
    rewrite Hne. apply IH; assumption.
Qed.

(** X21. The loop groups the documents by category: every entry of
    [category_totals] has the category of some document as its key and the
    sum of the amounts of the documents of that category as its value, a
    sum of floats taken from [0.0] on in the order of the documents; the
    category of every document has an entry; and no category has two. *)
Theorem subtotals_are_per_category
  (records : list json) (total_spent : Float64.t) (category_totals : Report.totals) :
  Report.accumulate (Float64.zero, []) records = ok (total_spent, category_totals) ->
  (forall c v, In (c, v) category_totals ->
     (exists exp, In exp records /\ category_of exp = c)
     /\ v = fsum (amounts_in c records))
  /\ (forall exp, In exp records ->
        exists c v, In (c, v) category_totals
                    /\ Report.key_eqb c (category_of exp) = true)
  /\ distinct_categories category_totals.
Proof.
  intros Hrun.
  destruct (accumulate_keys records (Float64.zero, []) _ Hrun)
    as (Hdistinct & Hhash & Hfrom & Hto); [constructor | constructor|].
  cbn [snd] in *.
  split; [|split].
  - intros c v Hin.
    assert (Hkey : In c (List.map fst category_totals)).
    { apply in_map_iff. exists (c, v). auto. }
    split.
    + destruct (Hfrom c Hkey) as [[] | H]. exact H.
    + rewrite Forall_forall in Hhash.
      rewrite <- (get_entry _ _ _ Hdistinct (key_eqb_refl _ (Hhash c Hkey)) Hin).
      exact (accumulate_get records (Float64.zero, []) _ Hrun c).
  - intros exp Hin. destruct (Hto exp Hin) as (c & Hc & Heq).
    apply in_map_iff in Hc as ([c' v] & <- & Hc).
    exists c', v. split; assumption.
  - apply distinct_categories_keys, Hdistinct.
Qed.

End Grouping.

Lemma week_of_spending_totals :
  Report.accumulate (Float64.zero, []) week_of_spending
  = ok (Float64.of_Z 50,
        [(JStr "Food", Float64.of_Z 20); (JStr "Travel", Float64.of_Z 30)]).
Proof. reflexivity. Defined.

Lemma subtotals_are_per_category_witness :
  let category_totals :=
    [(JStr "Food", Float64.of_Z 20); (JStr "Travel", Float64.of_Z 30)] in
  Report.accumulate (Float64.zero, []) week_of_spending
  = ok (Float64.of_Z 50, category_totals)
  /\ (forall c v, In (c, v) category_totals ->
        (exists exp, In exp week_of_spending /\ category_of exp = c)
        /\ v = fsum (amounts_in c week_of_spending))
  /\ (forall exp, In exp week_of_spending ->
        exists c v, In (c, v) category_totals
                    /\ Report.key_eqb c (category_of exp) = true)
  /\ distinct_categories category_totals.
Proof.
  intros category_totals.
  split; [exact week_of_spending_totals|].
  exact (subtotals_are_per_category week_of_spending (Float64.of_Z 50)
           category_totals week_of_spending_totals).
Defined.

(** ** The figures of a report *)

Section Figures.

(** A line of the breakdown carries an item and its percentage, and
    there is a line only when the total is not a zero. *)
Lemma breakdown_lines (total_spent : Float64.t) (items : list (json * Float64.t)) :
  forall lines,
    Report.breakdown total_spent items = ok lines ->
    List.map fst lines = items
    /\ forall c t p, In (c, t, p) lines ->
         Float64.is_zero total_spent = false
         /\ p = Float64.mul (Float64.div t total_spent) (Float64.of_Z 100).
Proof.
  induction items as [|[cat t0] rest IH]; cbn [Report.breakdown]; intros lines Hrun.
  - injection Hrun as <-. split; [reflexivity|]. intros c t p [].
  - unfold and_then, Report.percentage in Hrun.
    destruct (Float64.is_zero total_spent) eqn:Hz; [discriminate|].
    destruct (Report.breakdown total_spent rest) as [|lines'] eqn:Hrest;
      [discriminate|].
    injection Hrun as <-.
    destruct (IH lines' eq_refl) as [Hfst Hin']. split.
    + cbn. rewrite Hfst. reflexivity.
    + intros c t p [[= <- <- <-] | Hin]; [split; reflexivity|].
      exact (Hin' c t p Hin).
Qed.

(** In another order the keys are as distinct as before. *)
Lemma distinct_categories_perm (d d' : Report.totals) :
  Permutation d d' -> distinct_categories d -> distinct_categories d'.
Proof.
  unfold distinct_categories.
  induction 1 as [|x l l' Hperm IH|x y l|l l' l'' _ IH1 _ IH2]; intros Hd.
  - exact Hd.
  - inversion Hd as [|? ? Hx Hl]; subst. constructor; [|apply IH, Hl].
    eapply Permutation_Forall; eassumption.
  - inversion Hd as [|? ? Hy Hxl]; subst.
    inversion Hxl as [|? ? Hx Hl]; subst.
    inversion Hy as [|? ? Hyx Hyl]; subst.
    constructor; [|constructor; assumption].
    constructor; [|exact Hx]. rewrite key_eqb_sym. exact Hyx.
  - apply IH2, IH1, Hd.
Qed.

(** X25. The figures of a report, whenever one is made of a list of
    documents: the list is not empty; the grand total is the sum of all
    amounts, a sum of floats taken from [0.0] on in the order of the
    documents, and it is not a zero; every line shows a category of some
    document, the sum of the amounts of the documents of that category,
    taken the same way, and that sum divided by the total and multiplied
    by 100, both in binary64; the category of every document has a line,
    and no category has two. *)
Theorem report_figures
  (results : json) (records : list json) (total_spent : Float64.t)
  (lines : list (json * Float64.t * Float64.t)) :
  Py.getitem results "documents" = ok (JArr records) ->
  report_content (ok results) = ok (Some (total_spent, lines)) ->
  records <> []
  /\ total_spent = fsum (List.map amount_of records)
  /\ Float64.is_zero total_spent = false
  /\ (forall c t p, In (c, t, p) lines ->
        (exists exp, In exp records /\ category_of exp = c)
        /\ t = fsum (amounts_in c records)
        /\ p = Float64.mul (Float64.div t total_spent) (Float64.of_Z 100))
  /\ (forall exp, In exp records ->
        exists c t p,
          In (c, t, p) lines /\ Report.key_eqb c (category_of exp) = true)
  /\ distinct_categories (List.map fst lines).
Proof.
  intros Hdocs. unfold report_content, and_then. unfold ok at 1. rewrite Hdocs.
  unfold ok at 1.
  destruct records as [|exp0 rest]; [discriminate|].
  cbn [Py.truthy Py.iter negb]. unfold ok at 1.
  set (records := exp0 :: rest).
  destruct (Report.accumulate (Float64.zero, []) records)
    as [|[total category_totals]] eqn:Hrun; [discriminate|].
  cbn [fst snd].
  destruct (Report.breakdown total (Report.sorted_desc category_totals))
    as [|lines'] eqn:Hlines; [discriminate|].
  intros [= <- <-].
  destruct (breakdown_lines _ _ _ Hlines) as [Hfst Hline].
  pose proof (sorted_desc_perm category_totals) as Hperm. rewrite <- Hfst in Hperm.
  destruct (accumulate_keys records (Float64.zero, []) _ Hrun)
    as (Hdistinct & Hhash & Hfrom & Hto); [constructor | constructor|].
  cbn [snd] in *. rewrite Forall_forall in Hhash.
  assert (Hentry : forall c t p, In (c, t, p) lines' -> In (c, t) category_totals).
  { intros c t p Hin. eapply Permutation_in; [exact Hperm|].
    apply in_map_iff. exists (c, t, p). auto. }
  split; [discriminate|]. split.
  { exact (accumulate_amounts records (Float64.zero, []) _ Hrun). }
  split.
  { destruct lines' as [|[[c t] p] r].
    - pose proof (accumulate_not_empty records _ _ ltac:(discriminate) Hrun) as Hne.
      cbn [snd] in Hne. apply Permutation_nil in Hperm. contradiction.
    - apply (Hline c t p). left. reflexivity. }
  split; [|split].
  - intros c t p Hin. pose proof (Hentry c t p Hin) as Hct.
    assert (Hkey : In c (List.map fst category_totals)).
    { apply in_map_iff. exists (c, t). auto. }
    split; [|split].
    + destruct (Hfrom c Hkey) as [[] | H]. exact H.
    + rewrite <- (get_entry _ _ _ Hdistinct (key_eqb_refl _ (Hhash c Hkey)) Hct).
      exact (accumulate_get records (Float64.zero, []) _ Hrun c).
    + apply (Hline c t p Hin).
  - intros exp Hin. destruct (Hto exp Hin) as (c & Hc & Heq).
    apply in_map_iff in Hc as ([c' t] & <- & Hc).
    assert (Hl : In (c', t) (List.map fst lines')).
    { eapply Permutation_in; [symmetry; exact Hperm | exact Hc]. }
    apply in_map_iff in Hl as ([[c1 t1] p] & [= -> ->] & Hl).
    exists c', t, p. split; assumption.
  - eapply distinct_categories_perm; [symmetry; exact Hperm|].
    apply distinct_categories_keys, Hdistinct.
Qed.

End Figures.

Lemma report_figures_witness :
  let results := Scenario.documents week_of_spending in
  let total_spent := Float64.of_Z 50 in
  let lines :=
    [(JStr "Travel", Float64.of_Z 30, Float64.of_Z 60);
     (JStr "Food", Float64.of_Z 20, Float64.of_Z 40)] in
  Py.getitem results "documents" = ok (JArr week_of_spending)
  /\ report_content (ok results) = ok (Some (total_spent, lines))
  /\ week_of_spending <> []
  /\ total_spent = fsum (List.map amount_of week_of_spending)
  /\ Float64.is_zero total_spent = false
  /\ (forall c t p, In (c, t, p) lines ->
        (exists exp, In exp week_of_spending /\ category_of exp = c)
        /\ t = fsum (amounts_in c week_of_spending)
        /\ p = Float64.mul (Float64.div t total_spent) (Float64.of_Z 100))
  /\ (forall exp, In exp week_of_spending ->
        exists c t p,
          In (c, t, p) lines /\ Report.key_eqb c (category_of exp) = true)
  /\ distinct_categories (List.map fst lines).
Proof.
  intros results total_spent lines.
  assert (H1 : Py.getitem results "documents" = ok (JArr week_of_spending))
    by reflexivity.
  assert (H2 : report_content (ok results) = ok (Some (total_spent, lines)))
    by reflexivity.
  split; [exact H1|]. split; [exact H2|].
  exact (report_figures results week_of_spending total_spent lines H1 H2).
Defined.

(** ** The run of a report *)

Section ReportRun.

Variable env : Env.

(** X23. A report run, once the time range is there: one query to the store,
    then one text, which is the report, the no-expenses text, or the
    report-error text for whatever was raised from the query on. When the
    post of the report or of the no-expenses text raises, the report-error
    text is posted for that exception. The function returns
    [{"status": "ok"}] unless its last post raised. *)
Theorem generate_report_run
  (chat_id user_id : json) (command : string) (tr tr1 : trace)
  (range : string * string) :
  get_query_time_range env command tr = (Normal range, tr1) ->
  let answer := list_documents env tr1 (report_queries user_id range) in
  let listed :=
    tr1 ++ [ListDocuments (APPWRITE_DATABASE_ID env) (APPWRITE_COLLECTION_ID env)
              (report_queries user_id range) answer] in
  let content := report_content answer in
  let body := report_body (PyStr.capitalize (PyStr.tail command)) content in
  generate_report env chat_id user_id command tr
  = match posted env listed chat_id body with
    | None => (Normal status_ok, listed ++ [reply env chat_id body None])
    | Some e =>
        let failed := listed ++ [reply env chat_id body (Some e)] in
        match content with
        | inl _ => (Raised e, failed)
        | inr _ =>
            let again := posted env failed chat_id (Messages.report_error e) in
            (match again with None => Normal status_ok | Some e' => Raised e' end,
             failed ++ [reply env chat_id (Messages.report_error e) again])
        end
    end.
Proof.
  intros Hrange. cbv zeta. destruct range as [start_time end_time].
  unfold report_queries, posted, reply, report_content, report_body in *.
  cbn [fst snd] in *.
  unfold generate_report, appwrite_list_documents, send_telegram_message.
  unfold and_then. unfold ok, throw in *.
  run_norm. rewrite Hrange.
  repeat run_step; rewrite <- ?app_assoc; cbn [app]; reflexivity.
Qed.

End ReportRun.

Lemma generate_report_run_witness :
  let env := report_world in
  let range := ("2025-11-05T00:00:00Z", "2025-11-05T23:59:59.999999Z")%string in
  let tr1 := [Now (clock env [])] in
  let answer := list_documents env tr1 (report_queries (JInt 2) range) in
  let listed :=
    tr1 ++ [ListDocuments (APPWRITE_DATABASE_ID env) (APPWRITE_COLLECTION_ID env)
              (report_queries (JInt 2) range) answer] in
  let content := report_content answer in
  let body := report_body (PyStr.capitalize (PyStr.tail "/daily")) content in
  get_query_time_range env "/daily" [] = (Normal range, tr1)
  /\ generate_report env (JInt 1) (JInt 2) "/daily" []
     = match posted env listed (JInt 1) body with
       | None => (Normal status_ok, listed ++ [reply env (JInt 1) body None])
       | Some e =>
           let failed := listed ++ [reply env (JInt 1) body (Some e)] in
           match content with
           | inl _ => (Raised e, failed)
           | inr _ =>
               let again := posted env failed (JInt 1) (Messages.report_error e) in
               (match again with None => Normal status_ok | Some e' => Raised e' end,
                failed ++ [reply env (JInt 1) (Messages.report_error e) again])
           end
       end.
Proof.
  intros env range tr1 answer listed content body.
  assert (H : get_query_time_range env "/daily" [] = (Normal range, tr1))
    by (vm_compute; reflexivity).
  split; [exact H|].
  exact (generate_report_run env (JInt 1) (JInt 2) "/daily" [] tr1 range H).
Defined.

(** ** Amounts written as numerals *)

Section Numerals.

Lemma numeral_char_is_plain (c : ascii) :
  numeral_char c = true ->
  PyFloat.is_underscore c = false
  /\ PyFloat.is_space c = false
  /\ Ascii.eqb (PyStr.lower_char c) "i" = false
  /\ Ascii.eqb (PyStr.lower_char c) "n" = false.
Proof.
  destruct c as [[] [] [] [] [] [] [] []]; vm_compute; intros H;
    try discriminate H; repeat split.
Qed.

Lemma digit_char (c : ascii) :
  PyFloat.is_digit c = true ->
  Ascii.eqb c "-" = false /\ Ascii.eqb c "+" = false
  /\ 0 <= PyFloat.digit c <= 9.
Proof.
  destruct c as [[] [] [] [] [] [] [] []]; vm_compute; intros H;
    try discriminate H; repeat split; discriminate.
Qed.

Lemma point_is_no_digit : PyFloat.is_digit "." = false.
Proof. reflexivity. Qed.

Lemma underscores_ok_plain (cs : list ascii) :
  forallb numeral_char cs = true ->
  forall prev, PyFloat.is_underscore prev = false ->
  PyFloat.underscores_ok prev cs = true.
Proof.
  induction cs as [|c r IH]; cbn [forallb PyFloat.underscores_ok]; intros H prev Hprev.
  - rewrite Hprev. reflexivity.
  - apply andb_true_iff in H as [Hc Hr].
    destruct (numeral_char_is_plain c Hc) as (Hu & _).
    rewrite Hu, Hprev. cbn. apply IH; assumption.
Qed.

Lemma remove_underscores_plain (cs : list ascii) :
  forallb numeral_char cs = true -> PyFloat.remove_underscores cs = cs.
Proof.
  unfold PyFloat.remove_underscores.
  induction cs as [|c r IH]; cbn [forallb filter]; intros H; [reflexivity|].
  apply andb_true_iff in H as [Hc Hr].
  destruct (numeral_char_is_plain c Hc) as (-> & _). cbn. rewrite IH; auto.
Qed.

Lemma lstrip_plain (cs : list ascii) :
  forallb numeral_char cs = true -> PyFloat.lstrip cs = cs.
Proof.
  destruct cs as [|c r]; cbn [forallb PyFloat.lstrip]; intros H; [reflexivity|].
  apply andb_true_iff in H as [Hc _].
  destruct (numeral_char_is_plain c Hc) as (_ & -> & _). reflexivity.
Qed.

Lemma strip_plain (cs : list ascii) :
  forallb numeral_char cs = true -> PyFloat.strip cs = cs.
Proof.
  intros H. unfold PyFloat.strip.
  rewrite (lstrip_plain cs H), lstrip_plain, rev_involutive; [reflexivity|].
  rewrite forallb_forall in *. intros c Hc. apply H, in_rev, Hc.
Qed.

Lemma span_digits_app (ds rest : list ascii) :
  forallb PyFloat.is_digit ds = true ->
  match rest with [] => True | c :: _ => PyFloat.is_digit c = false end ->
  PyFloat.span_digits (ds ++ rest) = (ds, rest).
Proof.
  induction ds as [|c r IH]; cbn [forallb app]; intros Hds Hrest.
  - destruct rest as [|c r]; [reflexivity|]. cbn. rewrite Hrest. reflexivity.
  - apply andb_true_iff in Hds as [Hc Hr].
    cbn [PyFloat.span_digits]. rewrite Hc, (IH Hr Hrest). reflexivity.
Qed.

Lemma digits_value_bound (ds : list ascii) :
  forallb PyFloat.is_digit ds = true ->
  forall a, 0 <= a ->
  0 <= fold_left (fun a c => 10 * a + PyFloat.digit c) ds a
    < (a + 1) * 10 ^ Z.of_nat (List.length ds).
Proof.
  induction ds as [|c r IH]; cbn [forallb fold_left List.length]; intros H a Ha.
  - cbn. lia.
  - apply andb_true_iff in H as [Hc Hr].
    destruct (digit_char c Hc) as (_ & _ & Hd).
    specialize (IH Hr (10 * a + PyFloat.digit c) ltac:(lia)).
    rewrite Nat2Z.inj_succ, Z.pow_succ_r by lia.
    assert (0 < 10 ^ Z.of_nat (List.length r)) by (apply Z.pow_pos_nonneg; lia).
    nia.
Qed.

(** Below [10^300] nothing overflows. *)
Lemma small_does_not_overflow (q : Q) :
  (0 <= q)%Q -> (q < inject_Z (10 ^ 300))%Q -> overflows q = false.
Proof.
  intros H0 H1. unfold overflows. apply not_true_is_false. intros H.
  apply Qle_bool_iff in H. rewrite (Qabs_pos q H0) in H.
  assert (Hle : (inject_Z (10 ^ 300) <= inject_Z float_overflow_threshold)%Q).
  { rewrite <- Zle_Qle. apply Z.leb_le. vm_compute. reflexivity. }
  apply (Qlt_irrefl q).
  eapply Qlt_le_trans; [exact H1|]. eapply Qle_trans; eassumption.
Qed.

(** X24. [float] accepts every plain decimal numeral of up to 300 digits
    before the point, and gives the number it denotes, which is not
    negative: neither [ValueError] nor an infinity. *)
Theorem float_of_a_numeral (int_part frac_part : list ascii) :
  forallb PyFloat.is_digit int_part = true ->
  forallb PyFloat.is_digit frac_part = true ->
  int_part <> [] ->
  (List.length int_part <= 300)%nat ->
  exists q,
    PyFloat.float (JStr (numeral int_part frac_part)) = ok (Finite q)
    /\ (q == numeral_value int_part frac_part)%Q
    /\ (0 <= q)%Q.
Proof.
  intros Hip Hfp Hne Hlen.
  set (tail := match frac_part with [] => [] | _ => "."%char :: frac_part end).
  assert (Hplain : forallb numeral_char (int_part ++ tail) = true).
  { rewrite forallb_app. apply andb_true_iff. split.
    - rewrite forallb_forall in *. intros c Hc. unfold numeral_char. rewrite (Hip c Hc).
      reflexivity.
    - subst tail. destruct frac_part as [|f fp]; [reflexivity|].
      change (forallb numeral_char (f :: fp) = true).
      rewrite forallb_forall in *. intros c Hc. unfold numeral_char. rewrite (Hfp c Hc).
      reflexivity. }
  destruct int_part as [|d ip]; [congruence|].
  assert (Hd : PyFloat.is_digit d = true).
  { cbn [forallb] in Hip. apply andb_true_iff in Hip as [H _]. exact H. }
  destruct (digit_char d Hd) as (Hminus & Hplus & _).
  assert (Hdp : numeral_char d = true) by (unfold numeral_char; rewrite Hd; reflexivity).
  destruct (numeral_char_is_plain d Hdp) as (_ & _ & Hi & Hn).
  (* the digits and their value *)
  set (m := PyFloat.digits_value ((d :: ip) ++ frac_part)).
  assert (Hm : 0 <= m < 10 ^ Z.of_nat (List.length (d :: ip))
                        * 10 ^ Z.of_nat (List.length frac_part)).
  { subst m. unfold PyFloat.digits_value.
    pose proof (digits_value_bound ((d :: ip) ++ frac_part)) as Hb.
    rewrite forallb_app, Hip, Hfp in Hb. specialize (Hb eq_refl 0 ltac:(lia)).
    rewrite length_app, Nat2Z.inj_add, Z.pow_add_r in Hb by lia. lia. }
  assert (Hpow : 10 ^ Z.of_nat (List.length (d :: ip)) <= 10 ^ 300).
  { apply Z.pow_le_mono_r; lia. }
  assert (Hp : 0 < 10 ^ Z.of_nat (List.length frac_part))
    by (apply Z.pow_pos_nonneg; lia).
  (* the steps of the parser *)
  assert (Hparse : PyFloat.of_string (numeral (d :: ip) frac_part)
                   = Some (PyFloat.of_Q
                             (PyFloat.scale m (0 - Z.of_nat (List.length frac_part))))).
  { unfold PyFloat.of_string, numeral. fold tail.
    rewrite list_ascii_of_string_of_list_ascii.
    rewrite (underscores_ok_plain _ Hplain zero eq_refl).
    rewrite (remove_underscores_plain _ Hplain), (strip_plain _ Hplain).
    cbn [app PyFloat.take_sign]. rewrite Hminus, Hplus.
    unfold PyFloat.parse_special. cbn [string_of_list_ascii PyStr.lower PyStr.map].
    cbn [String.eqb]. rewrite Hi, Hn. cbn [orb].
    unfold PyFloat.parse_decimal.
    change (d :: ip ++ tail) with ((d :: ip) ++ tail).
    rewrite (span_digits_app (d :: ip) tail Hip)
      by (subst tail; destruct frac_part; [exact I | reflexivity]).
    subst tail. destruct frac_part as [|f fp].
    - cbn [PyFloat.span_digits app PyFloat.parse_exponent List.length].
      subst m. rewrite !app_nil_r. reflexivity.
    - change (Ascii.eqb "." ".") with true. cbv iota.
      rewrite <- (app_nil_r (f :: fp)) at 1.
      rewrite (span_digits_app (f :: fp) [] Hfp I).
      cbn [app PyFloat.parse_exponent]. reflexivity. }
  unfold PyFloat.float. rewrite Hparse.
  set (q := PyFloat.scale m (0 - Z.of_nat (List.length frac_part))).
  assert (Hq : (q == numeral_value (d :: ip) frac_part)%Q
               /\ (0 <= q)%Q /\ (q < inject_Z (10 ^ 300))%Q).
  { subst q. unfold PyFloat.scale, numeral_value. fold m.
    remember (10 ^ 300) as bound eqn:Hbound.
    remember (10 ^ Z.of_nat (List.length (d :: ip))) as a eqn:Ha.
    remember (10 ^ Z.of_nat (List.length frac_part)) as p eqn:Hpdef.
    destruct (0 <=? 0 - Z.of_nat (List.length frac_part)) eqn:He.
    - apply Z.leb_le in He.
      assert (Hz : Z.of_nat (List.length frac_part) = 0) by lia.
      rewrite Hz in Hpdef. rewrite Z.pow_0_r in Hpdef. subst p.
      rewrite Hz. change (0 - 0) with 0. rewrite Z.pow_0_r, Z.mul_1_r.
      change (Z.to_pos 1) with 1%positive.
      unfold Qeq, Qle, Qlt. cbn [Qnum Qden inject_Z]. lia.
    - replace (- (0 - Z.of_nat (List.length frac_part)))
        with (Z.of_nat (List.length frac_part)) by lia.
      rewrite <- Hpdef.
      assert (Hap : a * p <= bound * p)
        by (apply Z.mul_le_mono_nonneg_r; lia).
      unfold Qeq, Qle, Qlt. cbn [Qnum Qden inject_Z].
      rewrite Z2Pos.id by exact Hp. lia. }
  destruct Hq as (Heq & H0 & H1).
  unfold PyFloat.of_Q. rewrite (small_does_not_overflow q H0 H1).
  exists q. repeat split; assumption.
Qed.

End Numerals.

Lemma float_of_a_numeral_witness :
  let int_part := ["2"; "2"; "0"]%char in
  let frac_part := ["0"; "0"]%char in
  forallb PyFloat.is_digit int_part = true
  /\ forallb PyFloat.is_digit frac_part = true
  /\ int_part <> []
  /\ (List.length int_part <= 300)%nat
  /\ exists q,
       PyFloat.float (JStr (numeral int_part frac_part)) = ok (Finite q)
       /\ (q == numeral_value int_part frac_part)%Q
       /\ (0 <= q)%Q.
Proof.
  intros int_part frac_part.
  assert (H3 : int_part <> []) by discriminate.
  assert (H4 : (List.length int_part <= 300)%nat) by (cbn; lia).
  split; [reflexivity|]. split; [reflexivity|]. split; [exact H3|].
  split; [exact H4|].
  exact (float_of_a_numeral int_part frac_part eq_refl eq_refl H3 H4).
Defined.
